(** * rest-latex: the /compile handler of [app/main.py]

    A shallow embedding of the request handler, its workspace life cycle,
    the archive sanitizer and the engine invoker, together with the
    properties stated about them.

    Modelling conventions.
    - Python [str] is [string]; [str.lower] and [str.strip] act on the
      ASCII range (the literals the program compares against, [".tex"] and
      ["tectonic"], are ASCII).
    - A [Path] is an absolute POSIX path kept as the list of its parts
      below the root, the way [pathlib] keeps them: no empty part, no
      ["."] part, [".."] parts kept until the path is resolved.
    - The file tree has no symbolic links ([zipfile] never creates one, and
      a fresh [mkdtemp] directory contains none), so [Path.resolve] and the
      kernel's own look-up are the lexical normalisation of the parts.
    - The file tree, the list of observable events and the outcome of every
      call are explicit: a computation is a function from a [World] to a
      [result] and a [World]. *)

From stdpp Require Import base option list gmap strings.
From Stdlib Require Import Ascii String ZArith Lia.

Local Open Scope string_scope.
Local Open Scope list_scope.

(** ** Strings *)

Module Str.

Definition code (c : ascii) : N := Ascii.N_of_ascii c.

Definition is_upper (c : ascii) : bool :=
  ((65 <=? code c) && (code c <=? 90))%N.

Definition is_lower (c : ascii) : bool :=
  ((97 <=? code c) && (code c <=? 122))%N.

Definition lower_char (c : ascii) : ascii :=
  if is_upper c then Ascii.ascii_of_N (code c + 32) else c.

(** [str.lower] *)
Fixpoint lower (s : string) : string :=
  match s with
  | EmptyString => EmptyString
  | String c s' => String (lower_char c) (lower s')
  end.

(** [str.startswith] *)
Fixpoint startswith (s pre : string) : bool :=
  match pre, s with
  | EmptyString, _ => true
  | String _ _, EmptyString => false
  | String a pre', String b s' => if Ascii.eqb a b then startswith s' pre' else false
  end.

(** [str.endswith]: some tail of [s] is [suf]. *)
Fixpoint endswith (s suf : string) : bool :=
  String.eqb s suf ||
  match s with
  | EmptyString => false
  | String _ s' => endswith s' suf
  end.

(** [str.split(sep)] for a one-character separator. *)
Fixpoint split (sep : ascii) (s : string) : list string :=
  match s with
  | EmptyString => [EmptyString]
  | String c s' =>
      if Ascii.eqb c sep then EmptyString :: split sep s'
      else match split sep s' with
           | [] => [String c EmptyString]
           | h :: t => String c h :: t
           end
  end.

(** [sep.join(parts)] *)
Fixpoint join (sep : string) (parts : list string) : string :=
  match parts with
  | [] => EmptyString
  | [p] => p
  | p :: ps => p +:+ sep +:+ join sep ps
  end.

(** [str.rfind(c)]: index of the last occurrence, [None] for [-1]. *)
Fixpoint rfind (c : ascii) (s : string) : option nat :=
  match s with
  | EmptyString => None
  | String a s' =>
      match rfind c s' with
      | Some i => Some (S i)
      | None => if Ascii.eqb a c then Some 0 else None
      end
  end.

(** [s[:n]] and [s[n:]] *)
Fixpoint take (n : nat) (s : string) : string :=
  match n, s with
  | S n', String c s' => String c (take n' s')
  | _, _ => EmptyString
  end.

Fixpoint drop (n : nat) (s : string) : string :=
  match n, s with
  | S n', String _ s' => drop n' s'
  | _, _ => s
  end.

(** The specification's side of "compared case-insensitively": two
    characters are the same letter when they are equal, or are both ASCII
    letters whose codes differ by the case bit. *)
Definition is_letter (c : ascii) : bool := is_upper c || is_lower c.

Definition same_letter (a b : ascii) : Prop :=
  a = b \/
  (is_letter a = true /\ is_letter b = true /\
   (code a = code b + 32 \/ code b = code a + 32)%N).

Inductive eq_ignoring_case : string -> string -> Prop :=
| eic_nil : eq_ignoring_case EmptyString EmptyString
| eic_cons a b s t :
    same_letter a b -> eq_ignoring_case s t ->
    eq_ignoring_case (String a s) (String b t).

Definition ends_with_ignoring_case (s suf : string) : Prop :=
  exists front tail, s = front +:+ tail /\ eq_ignoring_case tail suf.

End Str.

(** ** Text of a process ([str]) *)

(** What a process printed, decoded: a Python [str], kept as the list of
    its code points. *)
Definition ustr : Type := list N.

Module UStr.

(** The [str] of an ASCII literal. *)
Definition of_string (s : string) : ustr :=
  map Ascii.N_of_ascii (String.list_ascii_of_string s).

(** [str.isspace] for one character, the characters [str.strip] removes:
    TAB, LF, VT, FF, CR, FS, GS, RS, US, SPACE, NEL (U+0085), NO-BREAK SPACE
    (U+00A0), OGHAM SPACE MARK (U+1680), EN QUAD to HAIR SPACE (U+2000 to
    U+200A), LINE and PARAGRAPH SEPARATOR (U+2028, U+2029), NARROW NO-BREAK
    SPACE (U+202F), MEDIUM MATHEMATICAL SPACE (U+205F) and IDEOGRAPHIC SPACE
    (U+3000). *)
Definition is_space (c : N) : bool :=
  (((0x09 <=? c) && (c <=? 0x0D)) || ((0x1C <=? c) && (c <=? 0x20))
   || (c =? 0x85) || (c =? 0xA0) || (c =? 0x1680)
   || ((0x2000 <=? c) && (c <=? 0x200A))
   || (c =? 0x2028) || (c =? 0x2029) || (c =? 0x202F) || (c =? 0x205F)
   || (c =? 0x3000))%N.

Fixpoint lstrip (s : ustr) : ustr :=
  match s with
  | [] => []
  | c :: s' => if is_space c then lstrip s' else s
  end.

Fixpoint rstrip (s : ustr) : ustr :=
  match s with
  | [] => []
  | c :: s' =>
      match rstrip s' with
      | [] => if is_space c then [] else [c]
      | r => c :: r
      end
  end.

(** [str.strip] *)
Definition strip (s : ustr) : ustr := rstrip (lstrip s).

Definition all_space (s : ustr) : bool := forallb is_space s.

(** The specification's side of "whitespace-trimmed": [r] is what is left
    of [s] once the white space at its two ends is taken away. *)
Definition trimmed_of (s r : ustr) : Prop :=
  (exists lead trail,
      s = lead ++ r ++ trail /\ all_space lead = true /\ all_space trail = true) /\
  (forall c r', r = c :: r' -> is_space c = false) /\
  (forall r' c, r = r' ++ [c] -> is_space c = false).

End UStr.

(** ** Paths ([pathlib], POSIX flavour) *)

Abbreviation Path := (list string).

Definition bytes := list Byte.byte.

(** Outcome of a call: a value, or a raised exception.  [HTTPException]
    carries its status code and its detail, which the program sets either to
    a string or to a dictionary of strings; every other exception class is
    kept by name. *)
Inductive detail :=
| DetailStr (s : string)
| DetailDict (items : list (string * ustr)).

Inductive exn :=
| HTTPException (status_code : Z) (d : detail)
| PyError (cls : string).

(** Whether [except Exception] catches an exception of the class named
    [cls]: every class does that derives from [Exception], and the classes
    of the library that derive from [BaseException] only do not
    ([CancelledError] is [asyncio]'s). *)
Definition is_Exception (cls : string) : bool :=
  negb (String.eqb cls "BaseException" || String.eqb cls "BaseExceptionGroup"
        || String.eqb cls "SystemExit" || String.eqb cls "KeyboardInterrupt"
        || String.eqb cls "GeneratorExit" || String.eqb cls "CancelledError").

(** What leaves a [try] statement whose clauses are [except HTTPException:
    raise] and [except Exception: raise HTTPException(500, ...)], for an
    exception raised in its body. *)
Definition after_except (e : exn) : exn :=
  match e with
  | HTTPException _ _ => e
  | PyError cls =>
      if is_Exception cls
      then HTTPException 500 (DetailStr "Unexpected error during compilation.")
      else e
  end.

Inductive result (A : Type) :=
| Ok (a : A)
| Raise (e : exn).
Arguments Ok {A} a.
Arguments Raise {A} e.

Module PurePath.

(** Parts of a path string: split at ["/"], empty and ["."] parts dropped. *)
Definition parse_parts (s : string) : Path :=
  filter (fun x => x <> "" /\ x <> ".") (Str.split "/" s).

Definition is_absolute (s : string) : bool := Str.startswith s "/".

(** [base / s]: an absolute right operand replaces the left one. *)
Definition joinpath (base : Path) (s : string) : Path :=
  if is_absolute s then parse_parts s else base ++ parse_parts s.

(** [str(p)] *)
Definition str (p : Path) : string :=
  match p with
  | [] => "/"
  | _ => fold_right (fun part acc => "/" +:+ part +:+ acc) "" p
  end.

(** [p.name] and [p.parent] *)
Definition name (p : Path) : string := List.last p "".
Definition parent (p : Path) : Path := removelast p.

(** [p.suffix]: from the last dot of the name, unless that dot is the
    first or the last character. *)
Definition suffix (p : Path) : string :=
  let n := name p in
  match Str.rfind "." n with
  | Some i => if ((0 <? i) && (i <? String.length n - 1))%nat then Str.drop i n else ""
  | None => ""
  end.

(** [p.with_suffix(suf)] *)
Definition with_suffix (p : Path) (suf : string) : result Path :=
  if bool_decide (Str.rfind "/" suf <> None) then Raise (PyError "ValueError")
  else if (negb (String.eqb suf "") && negb (Str.startswith suf "."))
          || String.eqb suf "." then Raise (PyError "ValueError")
  else if String.eqb (name p) "" then Raise (PyError "ValueError")
  else
    let old := suffix p in
    let stem := Str.take (String.length (name p) - String.length old)%nat (name p) in
    Ok (parent p ++ [stem +:+ suf]).

(** [p.resolve()] on a tree without symbolic links: [".."] steps taken
    lexically, the root being its own parent. *)
Fixpoint resolve_from (acc p : Path) : Path :=
  match p with
  | [] => acc
  | c :: p' =>
      resolve_from (if decide (c = "..") then removelast acc else acc ++ [c]) p'
  end.

Definition resolve (p : Path) : Path := resolve_from [] p.

(** Containment the way the specification words it: [q] lies strictly
    within [d] when [d]'s parts are a proper prefix of [q]'s. *)
Definition strictly_within (d q : Path) : Prop :=
  exists rest, rest <> [] /\ q = d ++ rest.

End PurePath.

(** ** The file tree *)

Inductive node :=
| File (content : bytes)
| Dir.

Abbreviation FS := (gmap (list string) node).

(** What the program can be observed to do besides returning: the
    directories it asks [tempfile] for, the trees it asks [shutil] to
    remove, and the subprocesses it spawns (with the tree they start on). *)
Inductive event :=
| EvMkdtemp (d : Path)
| EvRmtree (d : Path)
| EvRun (argv : list string) (cwd : Path) (tree : FS).

Record World := mkWorld { fs : FS; trace : list event }.

Definition M (A : Type) : Type := World -> result A * World.

Definition ret {A} (a : A) : M A := fun w => (Ok a, w).
Definition raise {A} (e : exn) : M A := fun w => (Raise e, w).
Definition bind {A B} (m : M A) (k : A -> M B) : M B :=
  fun w => match m w with
           | (Ok a, w') => k a w'
           | (Raise e, w') => (Raise e, w')
           end.

Notation "'let*' x := m 'in' k" := (bind m (fun x => k))
  (at level 10, x name, m at level 100, k at level 200, only parsing).
Notation "m ;;; k" := (bind m (fun _ => k))
  (at level 100, k at level 200, right associativity, only parsing).

Definition get_fs : M FS := fun w => (Ok (fs w), w).
Definition put_fs (t : FS) : M unit := fun w => (Ok tt, mkWorld t (trace w)).
Definition emit (e : event) : M unit := fun w => (Ok tt, mkWorld (fs w) (trace w ++ [e])).

(** [try: body finally: fin] *)
Definition try_finally {A} (body : M A) (fin : M unit) : M A :=
  fun w => match body w with
           | (r, w1) => match fin w1 with
                        | (Ok _, w2) => (r, w2)
                        | (Raise e, w2) => (Raise e, w2)
                        end
           end.

(** [try: body except cls-test: handler] *)
Definition try_except {A} (body : M A) (handler : exn -> M A) : M A :=
  fun w => match body w with
           | (Ok a, w1) => (Ok a, w1)
           | (Raise e, w1) => handler e w1
           end.

Module OS.

(** [os.stat], the root always being a directory. *)
Definition stat (t : FS) (q : Path) : option node :=
  match q with
  | [] => Some Dir
  | _ => t !! q
  end.

Definition exists_ (p : Path) : M bool :=
  let* t := get_fs in
  ret (match stat t (PurePath.resolve p) with Some _ => true | None => false end).

Definition isdir_at (q : Path) : M bool :=
  let* t := get_fs in
  ret (match stat t q with Some Dir => true | _ => false end).

Definition isdir (p : Path) : M bool := isdir_at (PurePath.resolve p).

(** The parent of the file or directory about to be created must be a
    directory. *)
Definition need_parent_dir (q : Path) : M unit :=
  let* t := get_fs in
  match stat t (PurePath.parent q) with
  | Some Dir => ret tt
  | Some (File _) => raise (PyError "NotADirectoryError")
  | None => raise (PyError "FileNotFoundError")
  end.

(** [open(p, "wb")]: creates the file or empties it. *)
Definition open_wb (p : Path) : M unit :=
  let q := PurePath.resolve p in
  let* t := get_fs in
  match stat t q with
  | Some Dir => raise (PyError "IsADirectoryError")
  | _ => need_parent_dir q ;;; put_fs (<[q := File []]> t)
  end.

(** Writing to the file opened at [p]. *)
Definition write (p : Path) (data : bytes) : M unit :=
  let* t := get_fs in put_fs (<[PurePath.resolve p := File data]> t).

(** [Path.write_bytes] *)
Definition write_bytes (p : Path) (data : bytes) : M unit :=
  open_wb p ;;; write p data.

(** [Path.read_bytes] *)
Definition read_bytes (p : Path) : M bytes :=
  let* t := get_fs in
  match stat t (PurePath.resolve p) with
  | Some (File b) => ret b
  | Some Dir => raise (PyError "IsADirectoryError")
  | None => raise (PyError "FileNotFoundError")
  end.

(** [os.mkdir], at a resolved path and at any path. *)
Definition mkdir_at (q : Path) : M unit :=
  let* t := get_fs in
  match stat t q with
  | Some _ => raise (PyError "FileExistsError")
  | None => need_parent_dir q ;;; put_fs (<[q := Dir]> t)
  end.

Definition mkdir (p : Path) : M unit := mkdir_at (PurePath.resolve p).

(** [os.makedirs(p, exist_ok=True)], on the reversed parts of the
    resolved [p]: the missing ancestors first, then [p] itself, an
    existing directory being accepted. *)
Fixpoint makedirs_rev (rq : Path) : M unit :=
  match rq with
  | [] => ret tt
  | _ :: rhead =>
      let* t := get_fs in
      match stat t (rev rhead) with
      | None => makedirs_rev rhead
      | Some _ => ret tt
      end ;;;
      try_except (mkdir_at (rev rq))
        (fun e => let* d := isdir_at (rev rq) in if d then ret tt else raise e)
  end.

Definition makedirs (p : Path) : M unit := makedirs_rev (rev (PurePath.resolve p)).

(** [Path.unlink(missing_ok)] *)
Definition unlink (p : Path) (missing_ok : bool) : M unit :=
  let q := PurePath.resolve p in
  let* t := get_fs in
  match stat t q with
  | Some (File _) => put_fs (delete q t)
  | Some Dir => raise (PyError "IsADirectoryError")
  | None => if missing_ok then ret tt else raise (PyError "FileNotFoundError")
  end.

End OS.

(** ** Relating two trees *)

(** How one path fares between two trees: untouched, a directory created
    where nothing was (at a path in [D]), or a file written where no
    directory was (at a path in [F]). *)
Inductive fate (D F : Path -> Prop) (t t' : FS) (q : Path) : Prop :=
| fate_same : t' !! q = t !! q -> fate D F t t' q
| fate_newdir : D q -> OS.stat t q = None -> t' !! q = Some Dir -> fate D F t t' q
| fate_file d : F q -> OS.stat t q <> Some Dir -> t' !! q = Some (File d) -> fate D F t t' q.

(** [w'] comes from [w] by creating directories in [D] and writing files in
    [F], with no event. *)
Definition evolves (D F : Path -> Prop) (w w' : World) : Prop :=
  trace w' = trace w /\ forall q, fate D F (fs w) (fs w') q.

Definition nowhere : Path -> Prop := fun _ => False.

(** A computation that emits no event. *)
Definition quiet {A} (m : M A) : Prop :=
  forall w r w', m w = (r, w') -> trace w' = trace w.

(** A computation that raises exceptions in [P] only. *)
Definition raises_only {A} (P : exn -> Prop) (m : M A) : Prop :=
  forall w e w', m w = (Raise e, w') -> P e.

(** The exceptions of the Python library, as opposed to the
    [HTTPException]s the service raises. *)
Definition python_error (e : exn) : Prop :=
  match e with
  | PyError _ => True
  | HTTPException _ _ => False
  end.

(** The exceptions of the Python library and the [HTTPException]s with one
    of the statuses the service uses. *)
Definition known_status (e : exn) : Prop :=
  match e with
  | PyError _ => True
  | HTTPException code _ => code = 400%Z \/ code = 500%Z \/ code = 504%Z
  end.

(** A part of a path as the file system has it: not empty, and without a
    ["/"]. *)
Definition plain_part (s : string) : Prop :=
  s <> "" /\ "/"%char ∉ String.list_ascii_of_string s.

(** ** Archives ([zipfile]) *)

(** An archive member as [ZipFile.infolist] lists it, with the bytes
    [ZipFile.open] yields for it. *)
Record ZipInfo := mkZipInfo { zi_filename : string; zi_data : bytes }.

(** What can go wrong while the members of an archive are extracted and
    cannot be read off the tree or the central directory.
    - [refuses]: the paths the file system refuses to create, whatever is
      around them (a name that is too long): an [OSError].
    - [open_fault]: the class of the exception [ZipFile.open] raises for a
      member (an encrypted member: [RuntimeError]; an unsupported
      compression method: [NotImplementedError]; a bad local header:
      [BadZipFile]).
    - [read_fault]: the class of the exception that copying the member's
      data ends with, and the bytes that were written before it (a bad CRC:
      [BadZipFile]; a damaged stream).
    The archive is read while its members are written: the truth value the
    last two take tells whether the archive's own file has been written
    over by then, after which what can still be read of it depends on how
    much of it had been buffered. *)
Record ZipFaults := mkZipFaults {
  refuses : Path -> bool;
  open_fault : bool -> ZipInfo -> option string;
  read_fault : bool -> ZipInfo -> option (string * bytes)
}.

(** An archive nothing goes wrong with. *)
Definition no_faults : ZipFaults :=
  mkZipFaults (fun _ => false) (fun _ _ => None) (fun _ _ => None).

(** An open [ZipFile]: the resolved path of the file it reads from, its
    central directory, and what can go wrong with its members. *)
Record ZipFile := mkZipFile {
  zf_path : Path;
  zf_infolist : list ZipInfo;
  zf_faults : ZipFaults
}.

Module Zip.

(** [ZipInfo.is_dir] *)
Definition is_dir (m : ZipInfo) : bool := Str.endswith (zi_filename m) "/".

(** The member name as [ZipFile._extract_member] cleans it: split at
    ["/"], empty, ["."] and [".."] parts removed. *)
Definition arcname (m : ZipInfo) : Path :=
  filter (fun x => x <> "" /\ x <> "." /\ x <> "..") (Str.split "/" (zi_filename m)).

(** Where a member is extracted to: [normpath(join(path, arcname))]. *)
Definition targetpath (path : Path) (m : ZipInfo) : Path :=
  PurePath.resolve (path ++ arcname m).

(** The first of [parts] that the file system refuses to create below
    [base], with the path above it. *)
Fixpoint first_refused (refuses : Path -> bool) (base parts : Path)
    : option (Path * string) :=
  match parts with
  | [] => None
  | x :: rest =>
      if refuses (base ++ [x]) then Some (base, x)
      else first_refused refuses (base ++ [x]) rest
  end.

(** [ZipFile._extract_member]: the directories above the target are made,
    down to the first one the file system refuses; a directory member is
    made unless it is there; a file member is opened in the archive, its
    target is created or emptied, and its data is copied.  [overwritten]
    tells whether an earlier member was written over the archive's own file;
    the result is the same for the members that follow. *)
Definition extract_member (zf : Path) (faults : ZipFaults) (path : Path) (m : ZipInfo)
    (overwritten : bool) : M bool :=
  let target := targetpath path m in
  let upperdirs := PurePath.parent target in
  match first_refused (refuses faults) (PurePath.resolve path) (removelast (arcname m)) with
  | Some (above, x) =>
      let* present := OS.exists_ above in
      (if present then ret tt else OS.makedirs above) ;;;
      OS.need_parent_dir (above ++ [x]) ;;;
      raise (PyError "OSError")
  | None =>
      let* present := OS.exists_ upperdirs in
      (if present then ret tt else OS.makedirs upperdirs) ;;;
      if is_dir m then
        let* d := OS.isdir target in
        (if d then ret tt
         else if refuses faults target
              then OS.need_parent_dir target ;;; raise (PyError "OSError")
              else OS.mkdir target) ;;;
        ret overwritten
      else
        match open_fault faults overwritten m with
        | Some cls => raise (PyError cls)
        | None => ret tt
        end ;;;
        (if refuses faults target
         then OS.need_parent_dir target ;;; raise (PyError "OSError")
         else OS.open_wb target) ;;;
        let overwritten' := overwritten || bool_decide (target = zf) in
        match read_fault faults overwritten' m with
        | Some (cls, written) => OS.write target written ;;; raise (PyError cls)
        | None => OS.write target (zi_data m) ;;; ret overwritten'
        end
  end.

Fixpoint extract_members (zf : Path) (faults : ZipFaults) (path : Path)
    (members : list ZipInfo) (overwritten : bool) : M unit :=
  match members with
  | [] => ret tt
  | m :: rest =>
      let* overwritten' := extract_member zf faults path m overwritten in
      extract_members zf faults path rest overwritten'
  end.

(** [ZipFile.extractall(path)] *)
Definition extractall (archive : ZipFile) (path : Path) : M unit :=
  extract_members (zf_path archive) (zf_faults archive) path (zf_infolist archive) false.

(** The member whose bytes the path [q] ends up with when [members] are
    extracted under [path]: the last file member extracted to [q]. *)
Fixpoint winner (path : Path) (members : list ZipInfo) (q : Path) : option ZipInfo :=
  match members with
  | [] => None
  | m :: rest =>
      match winner path rest q with
      | Some m' => Some m'
      | None =>
          if is_dir m then None
          else if decide (targetpath path m = q) then Some m else None
      end
  end.

End Zip.

(** [d] and every ancestor of [d] is a directory of the tree [t]. *)
Definition directory_in (t : FS) (d : Path) : Prop :=
  forall p : Path, p `prefix_of` d -> OS.stat t p = Some Dir.

(** The paths at which extracting the member [m] under [path] may create a
    directory (the ancestors of its target, and the target of a directory
    member) or write a file (the target of a file member); and the same for
    a list of members. *)
Definition makes_dir (path : Path) (m : ZipInfo) (q : Path) : Prop :=
  q `prefix_of` PurePath.parent (Zip.targetpath path m) \/
  (q = Zip.targetpath path m /\ Zip.is_dir m = true).

Definition makes_file (path : Path) (m : ZipInfo) (q : Path) : Prop :=
  q = Zip.targetpath path m /\ Zip.is_dir m = false.

Definition needs_dir (path : Path) (ms : list ZipInfo) (q : Path) : Prop :=
  exists m, m ∈ ms /\ makes_dir path m q.

Definition needs_file (path : Path) (ms : list ZipInfo) (q : Path) : Prop :=
  exists m, m ∈ ms /\ makes_file path m q.

(** Every entry of the tree other than the root has a directory as its
    parent. *)
Definition wf_tree (t : FS) : Prop :=
  forall (q : Path) (n : node), t !! q = Some n -> OS.stat t (PurePath.parent q) = Some Dir.

(** The members [ms] can be extracted under [path] into the tree [t] from
    the archive file [zf]: the target directory exists, no path a member
    needs as a directory is a file and no path a member writes is a
    directory, no member writes the archive itself, and no path is needed
    both as a directory and as a file. *)
Definition extractable (t : FS) (zf path : Path) (ms : list ZipInfo) : Prop :=
  directory_in t (PurePath.resolve path) /\
  (forall q, needs_dir path ms q -> OS.stat t q = None \/ OS.stat t q = Some Dir) /\
  (forall q, needs_file path ms q ->
     q <> zf /\ (OS.stat t q = None \/ exists d, OS.stat t q = Some (File d))) /\
  (forall q, needs_dir path ms q -> needs_file path ms q -> False).


(** The test [extract_zip_safely] applies to a member name. *)
Definition passes_check (target_dir : Path) (m : ZipInfo) : bool :=
  Str.startswith
    (PurePath.str (PurePath.resolve (PurePath.joinpath target_dir (zi_filename m))))
    (PurePath.str (PurePath.resolve target_dir)).

(** The specification's side of "only safe entries": the destination of
    every member, joined to the work directory and resolved, lies strictly
    within the resolved work directory. *)
Definition safe_entries (work_dir : Path) (ms : list ZipInfo) : Prop :=
  Forall (fun m => PurePath.strictly_within (PurePath.resolve work_dir)
                     (PurePath.resolve (PurePath.joinpath work_dir (zi_filename m)))) ms.

(** The members can be read and placed under [path]: the file system
    refuses none of the paths on the way to their targets, and none fails to
    open or to be read while the archive's file is as it was saved. *)
Definition readable (faults : ZipFaults) (path : Path) (ms : list ZipInfo) : Prop :=
  forall m, m ∈ ms ->
    open_fault faults false m = None /\
    read_fault faults false m = None /\
    forall q, q `prefix_of` Zip.targetpath path m -> refuses faults q = false.

(** The members collide neither with one another nor with the two files
    the handler has saved in the work directory, the main file [main] and
    the archive: no path is needed both as a directory and as a file,
    neither saved file is needed as a directory, and no file member is
    written over the saved archive. *)
Definition clean_archive (work_dir : Path) (main : string) (ms : list ZipInfo) : Prop :=
  let W := PurePath.resolve work_dir in
  (forall q, needs_dir work_dir ms q -> needs_file work_dir ms q -> False) /\
  (forall q, needs_dir work_dir ms q -> q <> W ++ [main] /\ q <> W ++ ["assets.zip"]) /\
  (forall q, needs_file work_dir ms q -> q <> W ++ ["assets.zip"]).

#[global] Instance makes_dir_dec (path : Path) (m : ZipInfo) (q : Path) :
  Decision (makes_dir path m q).
Proof. unfold makes_dir. apply _. Defined.

(** The same, in a form that can be decided by looking at the members one
    by one. *)
Definition clean_archive_check (work_dir : Path) (main : string) (ms : list ZipInfo)
    : Prop :=
  let W := PurePath.resolve work_dir in
  let needed_as_dir (q : Path) := Exists (fun m => makes_dir work_dir m q) ms in
  Forall (fun m => Zip.is_dir m = false ->
                   ~ needed_as_dir (Zip.targetpath work_dir m) /\
                   Zip.targetpath work_dir m <> W ++ ["assets.zip"]) ms /\
  ~ needed_as_dir (W ++ [main]) /\
  ~ needed_as_dir (W ++ ["assets.zip"]).

#[global] Instance clean_archive_check_dec (work_dir : Path) (main : string)
    (ms : list ZipInfo) : Decision (clean_archive_check work_dir main ms).
Proof. unfold clean_archive_check. apply _. Defined.


(** ** The service *)

Record ServiceSettings := mkSettings {
  latex_engine : string;
  latex_timeout_seconds : Z;
  latex_main_filename : string;
  tectonic_cache_dir : Path
}.

Record UploadFile := mkUpload { filename : option string; body : bytes }.

Record Response := mkResponse {
  content : bytes;
  media_type : string;
  headers : list (string * string)
}.

Record CompletedProcess := mkCompleted {
  returncode : Z;
  stdout : ustr;
  stderr : ustr
}.

(** What [subprocess.run] does with a command: it returns a completed
    process or raises an exception of some class. *)
Inductive run_outcome :=
| Completed (c : CompletedProcess)
| Raised (cls : string).

Definition dquote : string := String (Ascii.ascii_of_nat 34) EmptyString.

(** [dict.setdefault] on an association list. *)
Definition setdefault (k v : string) (d : gmap string string) : gmap string string :=
  match d !! k with
  | Some _ => d
  | None => <[k := v]> d
  end.

(** [build_engine_command] *)
Definition build_engine_command (work_dir : Path) (tex_filename : string)
    (current_settings : ServiceSettings) : list string :=
  let engine_name := Str.lower (latex_engine current_settings) in
  if String.eqb engine_name "tectonic" then
    [ latex_engine current_settings;
      "--synctex=0";
      "--keep-intermediates";
      "--keep-logs";
      "--outdir";
      PurePath.str work_dir;
      tex_filename ]
  else
    [ latex_engine current_settings;
      "-interaction=nonstopmode";
      "-halt-on-error";
      "-output-directory";
      PurePath.str work_dir;
      tex_filename ].

(** [ensure_tex_extension] *)
Definition ensure_tex_extension (name : option string) : result unit :=
  match name with
  | None => Raise (HTTPException 400 (DetailStr "Uploaded file must have a .tex extension."))
  | Some s =>
      if String.eqb s "" || negb (Str.endswith (Str.lower s) ".tex")
      then Raise (HTTPException 400 (DetailStr "Uploaded file must have a .tex extension."))
      else Ok tt
  end.

Definition lift {A} (r : result A) : M A := fun w => (r, w).

(** The collaborators the program calls but does not contain.
    - [os_environ]: the environment of the process.
    - [gettempdir], [random_name]: [tempfile]'s directory and the random
      part of the name [mkdtemp] settles on.
    - [zip_end_record], [zip_directory], [zip_faults]: whether a file's
      bytes end in a ZIP end-of-directory record ([zipfile.is_zipfile]), the
      central directory [zipfile.ZipFile] reads from them ([None]:
      [BadZipFile]), and what can go wrong when its members are extracted.
    - [spawn]: the outcome [subprocess.run] has for a command, a working
      directory, an environment and a time limit on a tree, and the tree it
      leaves.
    - [rmtree_fault]: whether removing a tree meets an error. *)
Record Host := mkHost {
  os_environ : gmap string string;
  gettempdir : Path;
  random_name : World -> string;
  zip_end_record : bytes -> bool;
  zip_directory : bytes -> option (list ZipInfo);
  zip_faults : bytes -> ZipFaults;
  spawn : list string -> Path -> gmap string string -> Z -> FS -> run_outcome * FS;
  rmtree_fault : FS -> Path -> bool
}.

Section Service.

(** The process-wide [settings] and the host the service runs on. *)
Variable settings : ServiceSettings.
Variable host : Host.

(** [tempfile.mkdtemp(prefix=...)] *)
Definition mkdtemp (prefix : string) : M Path :=
  fun w =>
    let d := gettempdir host ++ [prefix +:+ random_name host w] in
    (OS.mkdir d ;;; emit (EvMkdtemp d) ;;; ret d) w.

(** [shutil.rmtree(p, ignore_errors)]: the whole tree under [p] goes,
    unless an error stops the removal, which [ignore_errors] hides. *)
Definition rmtree (p : Path) (ignore_errors : bool) : M unit :=
  let q := PurePath.resolve p in
  emit (EvRmtree p) ;;;
  let* t := get_fs in
  let failed (cls : string) : M unit :=
    if ignore_errors then ret tt else raise (PyError cls) in
  match OS.stat t q with
  | None => failed "FileNotFoundError"
  | Some (File _) => failed "NotADirectoryError"
  | Some Dir =>
      if rmtree_fault host t q then failed "OSError"
      else put_fs (filter (fun kv => ~ q `prefix_of` kv.1) t)
  end.

(** [zipfile.is_zipfile] *)
Definition is_zipfile (p : Path) : M bool :=
  let* t := get_fs in
  ret (match OS.stat t (PurePath.resolve p) with
       | Some (File b) => zip_end_record host b
       | _ => false
       end).

(** [zipfile.ZipFile(p)] *)
Definition ZipFile_open (p : Path) : M ZipFile :=
  let* b := OS.read_bytes p in
  match zip_directory host b with
  | Some members => ret (mkZipFile (PurePath.resolve p) members (zip_faults host b))
  | None => raise (PyError "BadZipFile")
  end.

(** [subprocess.run(command, cwd=..., env=..., timeout=...)] *)
Definition subprocess_run (command : list string) (cwd : Path)
    (env : gmap string string) (timeout : Z) : M CompletedProcess :=
  let* t := get_fs in
  emit (EvRun command cwd t) ;;;
  match spawn host command cwd env timeout t with
  | (Completed c, t') => put_fs t' ;;; ret c
  | (Raised cls, t') => put_fs t' ;;; raise (PyError cls)
  end.

(** [create_work_dir] *)
Definition create_work_dir : M Path := mkdtemp "latexwork_".

(** [save_upload_file] *)
Definition save_upload_file (upload : UploadFile) (destination : Path) : M unit :=
  let contents := body upload in
  OS.write_bytes destination contents.

(** [ensure_zip_is_valid] *)
Definition ensure_zip_is_valid (zip_path : Path) : M unit :=
  let* ok := is_zipfile zip_path in
  if negb ok then
    raise (HTTPException 400 (DetailStr "Provided assets archive is not a valid ZIP file."))
  else ret tt.

(** The loop of [extract_zip_safely] over [archive.infolist()]. *)
Fixpoint check_members (target_dir : Path) (members : list ZipInfo) : M unit :=
  match members with
  | [] => ret tt
  | member :: rest =>
      let resolved_target :=
        PurePath.resolve (PurePath.joinpath target_dir (zi_filename member)) in
      if negb (Str.startswith (PurePath.str resolved_target)
                              (PurePath.str (PurePath.resolve target_dir)))
      then raise (HTTPException 400 (DetailStr "Archive contains unsafe paths."))
      else check_members target_dir rest
  end.

(** [extract_zip_safely] *)
Definition extract_zip_safely (zip_path target_dir : Path) : M unit :=
  let* archive := ZipFile_open zip_path in
  check_members target_dir (zf_infolist archive) ;;;
  Zip.extractall archive target_dir.

(** [run_latex_engine] *)
Definition run_latex_engine (work_dir : Path) (tex_filename : string)
    (current_settings : ServiceSettings) : M unit :=
  let command := build_engine_command work_dir tex_filename current_settings in
  let environment :=
    setdefault "TECTONIC_CACHE_DIR"
      (PurePath.str (tectonic_cache_dir current_settings)) (os_environ host) in
  let* completed :=
    try_except
      (subprocess_run command work_dir environment
         (latex_timeout_seconds current_settings))
      (fun error =>
         match error with
         | PyError cls =>
             if String.eqb cls "FileNotFoundError" then
               raise (HTTPException 500 (DetailStr "LaTeX engine executable not found."))
             else if String.eqb cls "TimeoutExpired" then
               raise (HTTPException 504 (DetailStr "LaTeX compilation timed out."))
             else raise error
         | _ => raise error
         end) in
  if negb (returncode completed =? 0)%Z then
    let detail :=
      DetailDict [ ("message", UStr.of_string "LaTeX compilation failed.");
                   ("stdout", UStr.strip (stdout completed));
                   ("stderr", UStr.strip (stderr completed)) ] in
    raise (HTTPException 400 detail)
  else ret tt.

(** [build_pdf_response] *)
Definition build_pdf_response (pdf_path : Path) : M Response :=
  let* pdf_bytes := OS.read_bytes pdf_path in
  let headers :=
    [ ("Content-Disposition",
       "attachment; filename=" +:+ dquote +:+ PurePath.name pdf_path +:+ dquote) ] in
  ret (mkResponse pdf_bytes "application/pdf" headers).

(** The archive block of [compile_latex]: an archive is unpacked when it
    was sent and has a non-empty file name. *)
Definition unpack_assets (assets_archive : option UploadFile) (work_dir : Path) : M unit :=
  match assets_archive with
  | Some archive_upload =>
      match filename archive_upload with
      | Some (String _ _) =>
          let archive_path := PurePath.joinpath work_dir "assets.zip" in
          save_upload_file archive_upload archive_path ;;;
          ensure_zip_is_valid archive_path ;;;
          extract_zip_safely archive_path work_dir ;;;
          OS.unlink archive_path true
      | _ => ret tt
      end
  | None => ret tt
  end.

(** What the [try] block of [compile_latex] does before the engine runs. *)
Definition stage_inputs (tex_file : UploadFile) (assets_archive : option UploadFile)
    (work_dir tex_path : Path) : M unit :=
  save_upload_file tex_file tex_path ;;;
  unpack_assets assets_archive work_dir.

(** The [try] block of [compile_latex]. *)
Definition compile_body (tex_file : UploadFile) (assets_archive : option UploadFile)
    (work_dir tex_path : Path) : M Response :=
  stage_inputs tex_file assets_archive work_dir tex_path ;;;
  run_latex_engine work_dir (PurePath.name tex_path) settings ;;;
  let* pdf_path := lift (PurePath.with_suffix tex_path ".pdf") in
  let* present := OS.exists_ pdf_path in
  if negb present then
    raise (HTTPException 500 (DetailStr "PDF output missing after compilation."))
  else build_pdf_response pdf_path.

(** [compile_latex], the handler of [POST /compile]. *)
Definition compile_latex (tex_file : UploadFile) (assets_archive : option UploadFile)
    : M Response :=
  lift (ensure_tex_extension (filename tex_file)) ;;;
  let* work_dir := create_work_dir in
  let tex_path := PurePath.joinpath work_dir (latex_main_filename settings) in
  try_finally
    (try_except
       (compile_body tex_file assets_archive work_dir tex_path)
       (fun e =>
          match e with
          | HTTPException _ _ => raise e
          | PyError cls =>
              if is_Exception cls then
                raise (HTTPException 500 (DetailStr "Unexpected error during compilation."))
              else raise e
          end))
    (rmtree work_dir true).

End Service.

(** What the host answers when [run_latex_engine] spawns the engine on the
    tree [t]: the arguments are the ones [run_latex_engine] passes to
    [subprocess.run]. *)
Definition engine_outcome (host : Host) (work_dir : Path) (tex_filename : string)
    (current_settings : ServiceSettings) (t : FS) : run_outcome * FS :=
  spawn host
    (build_engine_command work_dir tex_filename current_settings)
    work_dir
    (setdefault "TECTONIC_CACHE_DIR"
       (PurePath.str (tectonic_cache_dir current_settings)) (os_environ host))
    (latex_timeout_seconds current_settings)
    t.

(** ** Sample hosts and requests

    Concrete collaborators on which the program can be run: a tree holding
    only [/tmp], a [tempfile] that always settles on the same name, a toy
    archive format in which the bytes of an archive name one of a few fixed
    member lists, and engines with fixed behaviour. *)

Module Sample.

Definition text (s : string) : bytes := String.list_byte_of_string s.

Definition settings : ServiceSettings :=
  mkSettings "tectonic" 60 "main.tex" ["tmp"; "tectonic-cache"].

Definition tree0 : FS := {[ ["tmp"] := Dir ]}.
Definition world0 : World := mkWorld tree0 [].

Definition work_dir : Path := ["tmp"; "latexwork_k3v9x2ab"].

(** An entry that climbs out of the work directory into a sibling whose
    name starts with the work directory's name. *)
Definition sibling_entry : ZipInfo :=
  mkZipInfo "../latexwork_k3v9x2ab_old/x.txt" (text "outside").

Definition directory_of (archive : bytes) : option (list ZipInfo) :=
  let name := String.string_of_list_byte archive in
  if String.eqb name "sibling" then Some [ sibling_entry ]
  else if String.eqb name "traversal" then
    Some [ mkZipInfo "refs.bib" (text "@book"); mkZipInfo "../../etc/passwd" (text "root") ]
  else if String.eqb name "figures" then
    Some [ mkZipInfo "fig/" []; mkZipInfo "fig/a.png" (text "PNG");
           mkZipInfo "refs.bib" (text "@book") ]
  else if String.eqb name "notes" then
    Some [ mkZipInfo "main.tex/notes.txt" (text "notes") ]
  else if String.eqb name "main" then
    Some [ mkZipInfo "main.tex" (text "from the archive") ]
  else if String.eqb name "mixed" then
    Some [ mkZipInfo "main.tex" (text "from the archive");
           mkZipInfo "../../etc/passwd" (text "root") ]
  else None.

Definition has_end_record (archive : bytes) : bool :=
  match directory_of archive with Some _ => true | None => false end.

(** What the failing engine prints: its message between white space, some
    of it outside ASCII (a line separator, a no-break space, a next-line
    character). *)
Definition failing_stdout : ustr :=
  [0x2028; 0xA0; 0x20]%N ++ UStr.of_string "! Undefined control sequence."
    ++ [0x0A; 0x85]%N.

Definition failing_stderr : ustr := UStr.of_string " error: halted ".

(** Engines: one that writes [main.pdf] and exits with 0, one that exits
    with 0 and writes nothing, one that exits with 1, one that is not
    installed and one that runs out of time. *)
Definition engine_ok (argv : list string) (cwd : Path) (env : gmap string string)
    (timeout : Z) (t : FS) : run_outcome * FS :=
  (Completed (mkCompleted 0 [] []), <[cwd ++ ["main.pdf"] := File (text "%PDF")]> t).

Definition engine_silent (argv : list string) (cwd : Path) (env : gmap string string)
    (timeout : Z) (t : FS) : run_outcome * FS :=
  (Completed (mkCompleted 0 [] []), t).

Definition engine_failing (argv : list string) (cwd : Path) (env : gmap string string)
    (timeout : Z) (t : FS) : run_outcome * FS :=
  (Completed (mkCompleted 1 failing_stdout failing_stderr),
   <[cwd ++ ["main.log"] := File (text "log")]> t).

Definition engine_missing (argv : list string) (cwd : Path) (env : gmap string string)
    (timeout : Z) (t : FS) : run_outcome * FS :=
  (Raised "FileNotFoundError", t).

Definition engine_slow (argv : list string) (cwd : Path) (env : gmap string string)
    (timeout : Z) (t : FS) : run_outcome * FS :=
  (Raised "TimeoutExpired", <[cwd ++ ["main.aux"] := File []]> t).

Definition host_with
    (engine : list string -> Path -> gmap string string -> Z -> FS -> run_outcome * FS)
    : Host :=
  mkHost ∅ ["tmp"] (fun _ => "k3v9x2ab") has_end_record directory_of
    (fun _ => no_faults) engine (fun _ _ => false).

Definition host : Host := host_with engine_ok.

Definition tex_upload : UploadFile := mkUpload (Some "paper.tex") (text "uploaded").

Definition archive_upload (name : string) : UploadFile :=
  mkUpload (Some "assets.zip") (text name).

(** The work directory as [compile_latex] leaves it for
    [extract_zip_safely]: the main file and the saved archive. *)
Definition staged (name : string) : World :=
  mkWorld (<[work_dir ++ ["assets.zip"] := File (text name)]>
             (<[work_dir ++ ["main.tex"] := File (text "uploaded")]>
                (<[work_dir := Dir]> tree0))) [].

End Sample.

(** * Properties *)

(** ** Facts about strings *)

Module StrFacts.
Import Str.

Ltac leb_cases :=
  repeat match goal with
    | |- context [N.leb ?x ?y] => destruct (N.leb_spec x y)
    | H : context [N.leb ?x ?y] |- _ => destruct (N.leb_spec x y)
    end; simpl in *.

Lemma code_inj a b : code a = code b -> a = b.
Proof.
  unfold code; intros H.
  rewrite <- (ascii_N_embedding a), <- (ascii_N_embedding b); congruence.
Qed.

Lemma code_bound a : (code a < 256)%N.
Proof. apply N_ascii_bounded. Qed.

Lemma code_lower_char a :
  code (lower_char a) = if is_upper a then (code a + 32)%N else code a.
Proof.
  unfold lower_char. destruct (is_upper a) eqn:E; [|done].
  unfold code at 1. rewrite N_ascii_embedding; [done|].
  pose proof (code_bound a). unfold is_upper in E. leb_cases; (lia || discriminate).
Qed.

(** [lower_char] identifies exactly the characters that are the same
    letter. *)
Lemma same_letter_lower a b : same_letter a b <-> lower_char a = lower_char b.
Proof.
  split.
  - intros [->|(La & Lb & D)]; [done|].
    apply code_inj. rewrite !code_lower_char.
    unfold is_letter, is_upper, is_lower in *.
    pose proof (code_bound a); pose proof (code_bound b).
    leb_cases; (lia || discriminate).
  - intros H. apply (f_equal code) in H. rewrite !code_lower_char in H.
    unfold same_letter, is_letter, is_upper, is_lower in *.
    pose proof (code_bound a); pose proof (code_bound b).
    destruct (decide (code a = code b)) as [E|NE]; [left; by apply code_inj|].
    right. leb_cases; repeat split; (done || lia).
Qed.

Lemma eq_ignoring_case_lower s t : eq_ignoring_case s t <-> lower s = lower t.
Proof.
  split.
  - induction 1 as [|a b s t Hab _ IH]; simpl; [done|].
    apply same_letter_lower in Hab. congruence.
  - revert t; induction s as [|a s IH]; intros [|b t]; simpl; try discriminate.
    + constructor.
    + intros [= Hab Hst]. constructor; [by apply same_letter_lower | by apply IH].
Qed.

Lemma lower_app a b : lower (a +:+ b) = lower a +:+ lower b.
Proof. induction a as [|c a IH]; simpl; [done | by rewrite IH]. Qed.

Lemma lower_split s f t :
  lower s = f +:+ t -> exists a b, s = a +:+ b /\ lower a = f /\ lower b = t.
Proof.
  revert s; induction f as [|c f IH]; intros s H; simpl in H.
  - by exists "", s.
  - destruct s as [|d s]; simpl in H; [discriminate|].
    injection H as Hc Hs. destruct (IH _ Hs) as (a & b & -> & Ha & Hb).
    exists (String d a), b. simpl. by rewrite Hc, Ha.
Qed.

Lemma endswith_nil suf : endswith "" suf = String.eqb "" suf.
Proof. unfold endswith. apply orb_false_r. Qed.

Lemma endswith_cons c s suf :
  endswith (String c s) suf = String.eqb (String c s) suf || endswith s suf.
Proof. reflexivity. Qed.

Lemma endswith_spec s suf :
  endswith s suf = true <-> exists front, s = front +:+ suf.
Proof.
  induction s as [|c s IH].
  - rewrite endswith_nil, String.eqb_eq. split.
    + intros <-. by exists "".
    + intros [[|? ?] H]; simpl in H; [done | discriminate].
  - rewrite endswith_cons, orb_true_iff, String.eqb_eq, IH. split.
    + intros [<- | [front ->]]; [by exists "" | by exists (String c front)].
    + intros [[|d front] H]; simpl in H; [by left|].
      injection H as -> ->. right. by exists front.
Qed.

(** The test [ensure_tex_extension] makes is the specification's
    "ends in [suf], compared case-insensitively", for a lower-case [suf]. *)
Lemma endswith_lower_spec s suf :
  lower suf = suf ->
  endswith (lower s) suf = true <-> ends_with_ignoring_case s suf.
Proof.
  intros Hsuf. rewrite endswith_spec. split.
  - intros [front H]. apply lower_split in H as (a & b & -> & _ & Hb).
    exists a, b. split; [done|]. apply eq_ignoring_case_lower. congruence.
  - intros (front & tail & -> & H). apply eq_ignoring_case_lower in H.
    exists (lower front). rewrite lower_app. congruence.
Qed.

Lemma app_cons c a b : String c a +:+ b = String c (a +:+ b).
Proof. reflexivity. Qed.

Lemma app_nil b : "" +:+ b = b.
Proof. reflexivity. Qed.

End StrFacts.

Module UStrFacts.
Import UStr.

Lemma lstrip_spec (s : ustr) :
  exists lead, s = lead ++ lstrip s /\ all_space lead = true.
Proof.
  induction s as [|c s (lead & IH & Hl)]; simpl; [by exists []|].
  destruct (is_space c) eqn:E.
  - exists (c :: lead). split; [simpl; congruence|].
    unfold all_space. simpl. by rewrite E.
  - by exists [].
Qed.

Lemma lstrip_no_leading (s : ustr) (c : N) (t : ustr) :
  lstrip s = c :: t -> is_space c = false.
Proof.
  induction s as [|a s IH]; simpl; [done|].
  destruct (is_space a) eqn:E; [done|]. by intros [= <- _].
Qed.

Lemma rstrip_cons (c : N) (s : ustr) :
  rstrip (c :: s) =
    match rstrip s with
    | [] => if is_space c then [] else [c]
    | r => c :: r
    end.
Proof. reflexivity. Qed.

Lemma rstrip_spec (s : ustr) :
  exists trail, s = rstrip s ++ trail /\ all_space trail = true.
Proof.
  induction s as [|c s (trail & IH & Ht)]; [by exists []|].
  rewrite rstrip_cons. destruct (rstrip s) as [|d r] eqn:R.
  - simpl in IH. subst s. destruct (is_space c) eqn:E.
    + exists (c :: trail). unfold all_space. simpl. by rewrite E.
    + by exists trail.
  - exists trail. split; [|done]. rewrite IH at 1. reflexivity.
Qed.

Lemma rstrip_no_trailing (s r : ustr) (c : N) :
  rstrip s = r ++ [c] -> is_space c = false.
Proof.
  revert r; induction s as [|a s IH]; intros r.
  - destruct r; discriminate.
  - rewrite rstrip_cons. destruct (rstrip s) as [|d t] eqn:R.
    + destruct (is_space a) eqn:E; [destruct r; discriminate|].
      destruct r as [|b r]; [by intros [= <-]|].
      simpl. intros [= _ H]. destruct r; discriminate.
    + destruct r as [|b r]; [discriminate|].
      simpl. intros [= _ H]. by apply (IH r).
Qed.

(** [str.strip] trims. *)
Lemma strip_trimmed (s : ustr) : trimmed_of s (strip s).
Proof.
  unfold strip, trimmed_of.
  destruct (lstrip_spec s) as (lead & Hs & Hlead).
  destruct (rstrip_spec (lstrip s)) as (trail & Hr & Htrail).
  split; [|split].
  - exists lead, trail. by rewrite <- Hr.
  - intros c r' E. rewrite E in Hr. by eapply lstrip_no_leading.
  - intros r' c E. by eapply rstrip_no_trailing.
Qed.

End UStrFacts.

(** ** The engine command *)

(** C8.  [build_engine_command] chooses the command line by comparing the
    configured engine name with ["tectonic"] case-insensitively: the
    tectonic flags in that case, the pdflatex-style flags for every other
    name; in both the engine name comes first as configured, and the work
    directory and main file name come last. *)
Theorem build_engine_command_by_engine (work_dir : Path) (tex_filename : string)
    (current_settings : ServiceSettings) :
  (Str.eq_ignoring_case (latex_engine current_settings) "tectonic" ->
   build_engine_command work_dir tex_filename current_settings =
     [ latex_engine current_settings; "--synctex=0"; "--keep-intermediates";
       "--keep-logs"; "--outdir"; PurePath.str work_dir; tex_filename ]) /\
  (~ Str.eq_ignoring_case (latex_engine current_settings) "tectonic" ->
   build_engine_command work_dir tex_filename current_settings =
     [ latex_engine current_settings; "-interaction=nonstopmode"; "-halt-on-error";
       "-output-directory"; PurePath.str work_dir; tex_filename ]).
Proof.
  unfold build_engine_command.
  destruct (String.eqb_spec (Str.lower (latex_engine current_settings)) "tectonic")
    as [E|NE].
  - split; [done|]. intros H. exfalso. apply H.
    apply StrFacts.eq_ignoring_case_lower. by rewrite E.
  - split; [|done]. intros H. exfalso. apply NE.
    apply StrFacts.eq_ignoring_case_lower in H. by rewrite H.
Qed.

Lemma build_engine_command_by_engine_witness :
  build_engine_command ["tmp"; "latexwork_k3v9x2ab"] "main.tex"
    (mkSettings "Tectonic" 60 "main.tex" ["tmp"; "tectonic-cache"]) =
    [ "Tectonic"; "--synctex=0"; "--keep-intermediates"; "--keep-logs";
      "--outdir"; "/tmp/latexwork_k3v9x2ab"; "main.tex" ] /\
  build_engine_command ["tmp"; "latexwork_k3v9x2ab"] "main.tex"
    (mkSettings "pdflatex" 60 "main.tex" ["tmp"; "tectonic-cache"]) =
    [ "pdflatex"; "-interaction=nonstopmode"; "-halt-on-error";
      "-output-directory"; "/tmp/latexwork_k3v9x2ab"; "main.tex" ].
Proof.
  split.
  - apply (proj1 (build_engine_command_by_engine ["tmp"; "latexwork_k3v9x2ab"] "main.tex"
                    (mkSettings "Tectonic" 60 "main.tex" ["tmp"; "tectonic-cache"]))).
    apply StrFacts.eq_ignoring_case_lower. reflexivity.
  - apply (proj2 (build_engine_command_by_engine ["tmp"; "latexwork_k3v9x2ab"] "main.tex"
                    (mkSettings "pdflatex" 60 "main.tex" ["tmp"; "tectonic-cache"]))).
    intros H. apply StrFacts.eq_ignoring_case_lower in H. discriminate H.
Defined.

(** ** Name validation *)

Lemma ensure_tex_extension_rejects (name : option string) :
  (forall s, name = Some s -> ~ Str.ends_with_ignoring_case s ".tex") ->
  ensure_tex_extension name =
    Raise (HTTPException 400 (DetailStr "Uploaded file must have a .tex extension.")).
Proof.
  intros H. destruct name as [s|]; [|done]. simpl.
  destruct (String.eqb s "") eqn:E0; [done|].
  destruct (Str.endswith (Str.lower s) ".tex") eqn:E; [|done].
  exfalso. apply (H s eq_refl). by apply StrFacts.endswith_lower_spec.
Qed.

Lemma ensure_tex_extension_accepts (s : string) :
  Str.ends_with_ignoring_case s ".tex" -> ensure_tex_extension (Some s) = Ok tt.
Proof.
  intros H. unfold ensure_tex_extension.
  apply StrFacts.endswith_lower_spec in H as E; [|done]. rewrite E.
  destruct H as (front & tail & -> & Ht).
  destruct (String.eqb_spec (front +:+ tail) "") as [E0|]; [|done].
  destruct front; [|discriminate]. rewrite StrFacts.app_nil in E0.
  subst tail. inversion Ht.
Qed.

(** C4.  A main file whose name is absent, or does not end in [".tex"]
    compared case-insensitively, is answered with the 400 error of
    [ensure_tex_extension], and the world is left exactly as it was: no
    work directory is requested and nothing is written. *)
Theorem compile_latex_rejects_non_tex_name (settings : ServiceSettings) (host : Host)
    (tex_file : UploadFile) (assets_archive : option UploadFile) (w : World) :
  (forall s, filename tex_file = Some s -> ~ Str.ends_with_ignoring_case s ".tex") ->
  compile_latex settings host tex_file assets_archive w =
    (Raise (HTTPException 400 (DetailStr "Uploaded file must have a .tex extension.")), w).
Proof.
  intros H. unfold compile_latex, bind, lift.
  by rewrite (ensure_tex_extension_rejects _ H).
Qed.

(** ** The engine invoker *)

Section EngineFacts.

Variable host : Host.
Variables (work_dir : Path) (tex_filename : string).
Variable current_settings : ServiceSettings.

(** The outcome of [run_latex_engine], read off the host's answer. *)
Lemma run_latex_engine_outcome (w : World) :
  run_latex_engine host work_dir tex_filename current_settings w =
    let w' :=
      mkWorld (engine_outcome host work_dir tex_filename current_settings (fs w)).2
        (trace w ++ [EvRun (build_engine_command work_dir tex_filename current_settings)
                       work_dir (fs w)]) in
    match (engine_outcome host work_dir tex_filename current_settings (fs w)).1 with
    | Completed c =>
        if (returncode c =? 0)%Z then (Ok tt, w')
        else (Raise (HTTPException 400
                (DetailDict [ ("message", UStr.of_string "LaTeX compilation failed.");
                              ("stdout", UStr.strip (stdout c));
                              ("stderr", UStr.strip (stderr c)) ])), w')
    | Raised cls =>
        if String.eqb cls "FileNotFoundError" then
          (Raise (HTTPException 500 (DetailStr "LaTeX engine executable not found.")), w')
        else if String.eqb cls "TimeoutExpired" then
          (Raise (HTTPException 504 (DetailStr "LaTeX compilation timed out.")), w')
        else (Raise (PyError cls), w')
    end.
Proof.
  unfold run_latex_engine, engine_outcome, try_except, subprocess_run, bind,
    get_fs, emit, put_fs, ret, raise. simpl.
  destruct (spawn host _ _ _ _ _) as [[c|cls] t']; simpl.
  - by destruct (returncode c =? 0)%Z.
  - destruct (String.eqb cls "FileNotFoundError"); [done|].
    by destruct (String.eqb cls "TimeoutExpired").
Qed.

(** C5.  When the engine exits with a non-zero return code,
    [run_latex_engine] raises a 400 [HTTPException] whose detail is a
    dictionary holding a message and the captured standard output and
    standard error, each with the white space at its ends removed. *)
Theorem run_latex_engine_nonzero_exit (w : World) (c : CompletedProcess) (t' : FS) :
  engine_outcome host work_dir tex_filename current_settings (fs w) = (Completed c, t') ->
  returncode c <> 0%Z ->
  exists out err w',
    run_latex_engine host work_dir tex_filename current_settings w =
      (Raise (HTTPException 400
         (DetailDict [ ("message", UStr.of_string "LaTeX compilation failed.");
                       ("stdout", out); ("stderr", err) ])), w')
    /\ UStr.trimmed_of (stdout c) out
    /\ UStr.trimmed_of (stderr c) err.
Proof.
  intros Hrun Hcode. rewrite run_latex_engine_outcome, Hrun. simpl.
  destruct (Z.eqb_spec (returncode c) 0) as [|_]; [done|].
  eexists _, _, _. split; [reflexivity|].
  split; apply UStrFacts.strip_trimmed.
Qed.

(** C6.  A missing executable ([subprocess.run] raising
    [FileNotFoundError]) becomes the 500 error "LaTeX engine executable
    not found.", an exceeded time limit ([TimeoutExpired]) the 504 error
    "LaTeX compilation timed out."; each of the two errors arises from
    its own cause only, so neither is mistaken for the other or for the
    400 error of a failed compilation. *)
Theorem run_latex_engine_not_found_and_timeout (w : World) :
  (forall t', engine_outcome host work_dir tex_filename current_settings (fs w)
              = (Raised "FileNotFoundError", t') ->
     (run_latex_engine host work_dir tex_filename current_settings w).1 =
       Raise (HTTPException 500 (DetailStr "LaTeX engine executable not found."))) /\
  (forall t', engine_outcome host work_dir tex_filename current_settings (fs w)
              = (Raised "TimeoutExpired", t') ->
     (run_latex_engine host work_dir tex_filename current_settings w).1 =
       Raise (HTTPException 504 (DetailStr "LaTeX compilation timed out."))) /\
  ((run_latex_engine host work_dir tex_filename current_settings w).1 =
     Raise (HTTPException 500 (DetailStr "LaTeX engine executable not found.")) ->
   (engine_outcome host work_dir tex_filename current_settings (fs w)).1
     = Raised "FileNotFoundError") /\
  ((run_latex_engine host work_dir tex_filename current_settings w).1 =
     Raise (HTTPException 504 (DetailStr "LaTeX compilation timed out.")) ->
   (engine_outcome host work_dir tex_filename current_settings (fs w)).1
     = Raised "TimeoutExpired").
Proof.
  rewrite run_latex_engine_outcome.
  destruct (engine_outcome host work_dir tex_filename current_settings (fs w))
    as [[c|cls] t]; simpl.
  - repeat split; try discriminate; destruct (returncode c =? 0)%Z; discriminate.
  - repeat split.
    + by intros t' [= -> _].
    + by intros t' [= -> _].
    + destruct (String.eqb_spec cls "FileNotFoundError") as [->|]; [done|].
      destruct (String.eqb cls "TimeoutExpired"); discriminate.
    + destruct (String.eqb_spec cls "FileNotFoundError") as [->|]; [discriminate|].
      destruct (String.eqb_spec cls "TimeoutExpired") as [->|]; [done|discriminate].
Qed.

End EngineFacts.

(** ** Facts about paths *)

Module PathFacts.
Import PurePath.

Lemma removelast_no_dotdot (p : Path) : ".." ∉ p -> ".." ∉ removelast p.
Proof.
  induction p as [|c p IH]; simpl; [done|].
  destruct p as [|d p]; [intros _; apply not_elem_of_nil|].
  rewrite !not_elem_of_cons. intros [? ?]. split; [done|]. apply IH.
  by apply not_elem_of_cons.
Qed.

Lemma resolve_from_no_dotdot (p acc : Path) :
  ".." ∉ acc -> ".." ∉ resolve_from acc p.
Proof.
  revert acc; induction p as [|c p IH]; intros acc H; simpl; [done|].
  apply IH. destruct (decide (c = "..")).
  - by apply removelast_no_dotdot.
  - rewrite not_elem_of_app, not_elem_of_cons. split; [done|].
    split; [done | apply not_elem_of_nil].
Qed.

Lemma resolve_from_plain (p acc : Path) :
  ".." ∉ p -> resolve_from acc p = acc ++ p.
Proof.
  revert acc; induction p as [|c p IH]; intros acc H; simpl.
  - by rewrite app_nil_r.
  - apply not_elem_of_cons in H as [Hc Hp].
    destruct (decide (c = "..")); [done|].
    rewrite (IH _ Hp). by rewrite <- app_assoc.
Qed.

Lemma resolve_from_app (p p' acc : Path) :
  resolve_from acc (p ++ p') = resolve_from (resolve_from acc p) p'.
Proof. revert acc; induction p as [|c p IH]; intros acc; simpl; [done | apply IH]. Qed.

Lemma resolve_no_dotdot (p : Path) : ".." ∉ resolve p.
Proof. apply resolve_from_no_dotdot, not_elem_of_nil. Qed.

Lemma resolve_plain (p : Path) : ".." ∉ p -> resolve p = p.
Proof. intros H. unfold resolve. by rewrite resolve_from_plain. Qed.

Lemma resolve_idemp (p : Path) : resolve (resolve p) = resolve p.
Proof. apply resolve_plain, resolve_no_dotdot. Qed.

Lemma resolve_app_plain (p arc : Path) :
  ".." ∉ arc -> resolve (p ++ arc) = resolve p ++ arc.
Proof.
  intros H. unfold resolve. rewrite resolve_from_app. by apply resolve_from_plain.
Qed.

Lemma resolve_parent (p : Path) : resolve (parent (resolve p)) = parent (resolve p).
Proof. apply resolve_plain, removelast_no_dotdot, resolve_no_dotdot. Qed.

End PathFacts.

(** ** Facts about trees and computations *)

Module TreeFacts.

Lemma stat_nonroot (t : FS) (q : Path) : q <> [] -> OS.stat t q = t !! q.
Proof. by destruct q. Qed.

Lemma stat_not_dir_nonroot (t : FS) (q : Path) : OS.stat t q <> Some Dir -> q <> [].
Proof. by destruct q. Qed.

Lemma stat_None (t : FS) (q : Path) : OS.stat t q = None -> q <> [] /\ t !! q = None.
Proof. by destruct q. Qed.

Lemma stat_same (t t' : FS) (q : Path) : t' !! q = t !! q -> OS.stat t' q = OS.stat t q.
Proof. by destruct q. Qed.

Lemma fate_mono (D D' F F' : Path -> Prop) t t' q :
  (forall q, D q -> D' q) -> (forall q, F q -> F' q) ->
  fate D F t t' q -> fate D' F' t t' q.
Proof.
  intros HD HF [H|H1 H2 H3|d H1 H2 H3];
    [by apply fate_same | apply fate_newdir; auto | eapply fate_file; eauto].
Qed.

Lemma fate_trans (D F : Path -> Prop) t1 t2 t3 q :
  fate D F t1 t2 q -> fate D F t2 t3 q -> fate D F t1 t3 q.
Proof.
  intros [E1|D1 N1 C1|d1 F1 N1 C1] [E2|D2 N2 C2|d2 F2 N2 C2].
  - apply fate_same. congruence.
  - apply fate_newdir; [done| |done]. by rewrite <- (stat_same _ _ _ E1).
  - eapply fate_file; [done| |done]. by rewrite <- (stat_same _ _ _ E1).
  - apply fate_newdir; [done|done|congruence].
  - apply stat_None in N2 as [_ N2]. congruence.
  - exfalso. apply N2. apply stat_None in N1 as [N1 _]. by rewrite stat_nonroot.
  - eapply fate_file; [done|done|]. rewrite E2. done.
  - apply stat_None in N2 as [_ N2]. congruence.
  - eapply fate_file; [done|done|done].
Qed.

Lemma evolves_refl D F w : evolves D F w w.
Proof. split; [done|]. intros q. by apply fate_same. Qed.

Lemma evolves_trans D F w1 w2 w3 :
  evolves D F w1 w2 -> evolves D F w2 w3 -> evolves D F w1 w3.
Proof.
  intros [T1 H1] [T2 H2]. split; [congruence|].
  intros q. eapply fate_trans; eauto.
Qed.

Lemma evolves_mono (D D' F F' : Path -> Prop) w w' :
  evolves D F w w' ->
  (forall q, D q -> D' q) -> (forall q, F q -> F' q) ->
  evolves D' F' w w'.
Proof. intros [T H] HD HF. split; [done|]. intros q. eapply fate_mono; eauto. Qed.

(** A directory stays a directory. *)
Lemma fate_dir D F t t' q : fate D F t t' q -> t !! q = Some Dir -> t' !! q = Some Dir.
Proof.
  intros [E|_ N _|d _ N _] H; [congruence| |].
  - apply stat_None in N as [_ N]. congruence.
  - exfalso. apply N. apply stat_not_dir_nonroot in N as N'. by rewrite stat_nonroot.
Qed.

Lemma fate_stat_dir D F t t' q :
  fate D F t t' q -> OS.stat t q = Some Dir -> OS.stat t' q = Some Dir.
Proof. destruct q; [done|]. apply fate_dir. Qed.

(** A file keeps its bytes where no file is written. *)
Lemma fate_file_kept D F t t' q d :
  fate D F t t' q -> ~ F q -> t !! q = Some (File d) -> t' !! q = Some (File d).
Proof.
  intros [E|_ N _|d' HF _ _] NF H; [congruence| |done].
  apply stat_None in N as [_ N]. congruence.
Qed.

End TreeFacts.

Module MFacts.

Lemma bind_inv {A B} (m : M A) (k : A -> M B) w r w' :
  bind m k w = (r, w') ->
  (exists a w1, m w = (Ok a, w1) /\ k a w1 = (r, w')) \/
  (exists e, m w = (Raise e, w') /\ r = Raise e).
Proof.
  unfold bind. destruct (m w) as [[a|e] w1]; intros H.
  - left. by exists a, w1.
  - right. exists e. by injection H as <- <-.
Qed.

Lemma bind_ok {A B} (m : M A) (k : A -> M B) w a w1 :
  m w = (Ok a, w1) -> bind m k w = k a w1.
Proof. unfold bind. by intros ->. Qed.

Lemma bind_raise {A B} (m : M A) (k : A -> M B) w e w1 :
  m w = (Raise e, w1) -> bind m k w = (Raise e, w1).
Proof. unfold bind. by intros ->. Qed.

End MFacts.

Module OSFacts.
Import TreeFacts MFacts.

Ltac inv_op H :=
  unfold bind, ret, raise, get_fs, put_fs, lift, try_except in H; simpl in H;
  repeat (match type of H with
          | context [match ?x with _ => _ end] => destruct x eqn:?
          end; simpl in H);
  simplify_eq.

Lemma exists_pure p w r w' : OS.exists_ p w = (r, w') -> w' = w.
Proof. unfold OS.exists_. intros H. by inv_op H. Qed.

Lemma isdir_at_pure q w r w' : OS.isdir_at q w = (r, w') -> w' = w.
Proof. unfold OS.isdir_at. intros H. by inv_op H. Qed.

Lemma need_parent_dir_pure q w r w' : OS.need_parent_dir q w = (r, w') -> w' = w.
Proof. unfold OS.need_parent_dir. intros H. by inv_op H. Qed.

Lemma read_bytes_pure p w r w' : OS.read_bytes p w = (r, w') -> w' = w.
Proof. unfold OS.read_bytes. intros H. by inv_op H. Qed.

Lemma insert_fate_file (D F : Path -> Prop) (t : FS) (q0 : Path) (d : bytes) (q : Path) :
  F q0 -> OS.stat t q0 <> Some Dir -> fate D F t (<[q0 := File d]> t) q.
Proof.
  intros HF N. destruct (decide (q = q0)) as [->|NE].
  - eapply fate_file; [done|done|]. by rewrite lookup_insert_eq.
  - apply fate_same. by rewrite lookup_insert_ne.
Qed.

Lemma insert_fate_dir (D F : Path -> Prop) (t : FS) (q0 q : Path) :
  D q0 -> OS.stat t q0 = None -> fate D F t (<[q0 := Dir]> t) q.
Proof.
  intros HD N. destruct (decide (q = q0)) as [->|NE].
  - apply fate_newdir; [done|done|]. by rewrite lookup_insert_eq.
  - apply fate_same. by rewrite lookup_insert_ne.
Qed.

Lemma stat_file_nonroot (t : FS) (q : Path) d :
  OS.stat t q = Some (File d) -> q <> [] /\ t !! q = Some (File d).
Proof. by destruct q. Qed.

Lemma get_fs_inv w r w' : get_fs w = (r, w') -> r = Ok (fs w) /\ w' = w.
Proof. unfold get_fs. by intros [= <- <-]. Qed.

Lemma create_step (q : Path) (t' : FS) (w : World) (r : result unit) (w' : World) :
  bind (OS.need_parent_dir q) (fun _ => put_fs t') w = (r, w') ->
  (r = Ok tt /\ w' = mkWorld t' (trace w)) \/ (exists e, r = Raise e /\ w' = w).
Proof.
  intros H. apply bind_inv in H as [([] & w1 & H1 & H) | (e & H1 & ->)].
  - apply need_parent_dir_pure in H1 as ->. left. unfold put_fs in H.
    by injection H as <- <-.
  - apply need_parent_dir_pure in H1 as ->. right. by exists e.
Qed.

Lemma open_wb_effect p w r w' :
  OS.open_wb p w = (r, w') ->
  evolves nowhere (eq (PurePath.resolve p)) w w' /\
  (r = Ok tt -> OS.stat (fs w') (PurePath.resolve p) = Some (File [])).
Proof.
  unfold OS.open_wb. set (q := PurePath.resolve p). intros H.
  apply bind_inv in H as [(t & w0 & Ht & H) | (e & Ht & ->)];
    apply get_fs_inv in Ht as [Ht ->]; [|done]. injection Ht as ->.
  assert (OS.stat (fs w) q <> Some Dir ->
          bind (OS.need_parent_dir q) (fun _ => put_fs (<[q := File []]> (fs w))) w = (r, w') ->
          evolves nowhere (eq q) w w' /\ (r = Ok tt -> OS.stat (fs w') q = Some (File []))) as Hcreate.
  { intros N Hc. apply create_step in Hc as [[-> ->] | (e & -> & ->)].
    - split.
      + split; [done|]. intros q'. simpl. by apply insert_fate_file.
      + intros _. simpl. rewrite stat_nonroot; [|by apply stat_not_dir_nonroot in N].
        by rewrite lookup_insert_eq.
    - split; [apply evolves_refl | done]. }
  destruct (OS.stat (fs w) q) as [[d|]|] eqn:Es.
  - by apply Hcreate.
  - unfold raise in H. injection H as <- <-. split; [apply evolves_refl | done].
  - by apply Hcreate.
Qed.

Lemma write_effect p data w r w' d0 :
  OS.stat (fs w) (PurePath.resolve p) = Some (File d0) ->
  OS.write p data w = (r, w') ->
  evolves nowhere (eq (PurePath.resolve p)) w w' /\
  r = Ok tt /\ fs w' !! PurePath.resolve p = Some (File data).
Proof.
  unfold OS.write. intros H0 H. inv_op H.
  split; [|split; [done|simpl; by rewrite lookup_insert_eq]].
  split; [done|]. intros q; simpl. apply insert_fate_file; [done|congruence].
Qed.

Lemma mkdir_at_effect q0 w r w' :
  OS.mkdir_at q0 w = (r, w') ->
  evolves (eq q0) nowhere w w' /\
  (r = Ok tt -> fs w' !! q0 = Some Dir).
Proof.
  unfold OS.mkdir_at. intros H.
  apply bind_inv in H as [(t & w0 & Ht & H) | (e & Ht & ->)];
    apply get_fs_inv in Ht as [Ht ->]; [|done]. injection Ht as ->.
  destruct (OS.stat (fs w) q0) as [n|] eqn:Es.
  - unfold raise in H. injection H as <- <-. split; [apply evolves_refl | done].
  - apply create_step in H as [[-> ->] | (e & -> & ->)].
    + split.
      * split; [done|]. intros q'. simpl. by apply insert_fate_dir.
      * intros _. simpl. by rewrite lookup_insert_eq.
    + split; [apply evolves_refl | done].
Qed.

Lemma makedirs_rev_cons c rhead :
  OS.makedirs_rev (c :: rhead) =
    (let* t := get_fs in
     match OS.stat t (rev rhead) with
     | None => OS.makedirs_rev rhead
     | Some _ => ret tt
     end ;;;
     try_except (OS.mkdir_at (rev (c :: rhead)))
       (fun e => let* d := OS.isdir_at (rev (c :: rhead)) in
                 if d then ret tt else raise e)).
Proof. reflexivity. Qed.

Lemma makedirs_rev_effect rq w r w' :
  OS.makedirs_rev rq w = (r, w') ->
  evolves (fun q => q `prefix_of` rev rq) nowhere w w'.
Proof.
  revert w r w'; induction rq as [|c rhead IH]; intros w r w' H.
  - simpl in H. inv_op H. apply evolves_refl.
  - rewrite makedirs_rev_cons in H.
    apply bind_inv in H as [(t & w0 & Ht & H) | (e & Ht & ->)]; [|by inv_op Ht].
    assert (w0 = w) as -> by (by inv_op Ht).
    assert (forall q, q `prefix_of` rev rhead -> q `prefix_of` rev (c :: rhead)) as Hpre.
    { intros q Hq. simpl. by apply prefix_app_r. }
    apply bind_inv in H as [([] & w1 & H1 & H) | (e & H1 & ->)].
    + assert (evolves (fun q => q `prefix_of` rev (c :: rhead)) nowhere w w1) as E1.
      { destruct (OS.stat t (rev rhead)).
        - inv_op H1. apply evolves_refl.
        - eapply evolves_mono; [by eapply IH|apply Hpre|done]. }
      eapply evolves_trans; [exact E1|].
      unfold try_except in H.
      destruct (OS.mkdir_at (rev (c :: rhead)) w1) as [[[]|e] w2] eqn:E2.
      * simplify_eq. apply mkdir_at_effect in E2 as [E2 _].
        eapply evolves_mono; [exact E2|by intros q <-|done].
      * apply mkdir_at_effect in E2 as [E2 _].
        eapply evolves_trans.
        { eapply evolves_mono; [exact E2|by intros q <-|done]. }
        apply bind_inv in H as [(d & w3 & Hd & H) | (e' & Hd & ->)].
        -- apply isdir_at_pure in Hd as ->. destruct d; inv_op H; apply evolves_refl.
        -- apply isdir_at_pure in Hd as ->. apply evolves_refl.
    + destruct (OS.stat t (rev rhead)).
      * by inv_op H1.
      * eapply evolves_mono; [by eapply IH|apply Hpre|done].
Qed.

End OSFacts.

(** ** Facts about extraction *)

Module ZipFacts.
Import TreeFacts MFacts OSFacts PathFacts.

Lemma arcname_no_dotdot m : ".." ∉ Zip.arcname m.
Proof. unfold Zip.arcname. rewrite list_elem_of_filter. tauto. Qed.

Lemma targetpath_eq path m :
  Zip.targetpath path m = PurePath.resolve path ++ Zip.arcname m.
Proof. apply resolve_app_plain, arcname_no_dotdot. Qed.

Lemma targetpath_resolved path m :
  PurePath.resolve (Zip.targetpath path m) = Zip.targetpath path m.
Proof. apply resolve_idemp. Qed.

Lemma parent_prefix (q : Path) : PurePath.parent q `prefix_of` q.
Proof.
  unfold PurePath.parent. destruct (decide (q = [])) as [->|NE]; [done|].
  exists [List.last q ""]. by apply app_removelast_last.
Qed.

Lemma isdir_at_spec q w r w' :
  OS.isdir_at q w = (r, w') ->
  w' = w /\ r = Ok (match OS.stat (fs w) q with Some Dir => true | _ => false end).
Proof. unfold OS.isdir_at. intros H. by inv_op H. Qed.

(** The refused part comes after parts that are not, all of them among
    [parts]. *)
Lemma first_refused_Some (refuses : Path -> bool) (base parts above : Path) (x : string) :
  Zip.first_refused refuses base parts = Some (above, x) ->
  exists k, above = base ++ k /\ (k ++ [x]) `prefix_of` parts.
Proof.
  revert base. induction parts as [|y rest IH]; intros base H; [done|].
  simpl in H. destruct (refuses (base ++ [y])).
  - injection H as <- <-. exists []. split; [by rewrite app_nil_r|].
    by exists rest.
  - apply IH in H as (k & -> & Hk). exists (y :: k). split.
    + by rewrite <- app_assoc.
    + simpl. by apply prefix_cons.
Qed.

Lemma first_refused_None (refuses : Path -> bool) (base parts : Path) :
  (forall k, k <> [] -> k `prefix_of` parts -> refuses (base ++ k) = false) ->
  Zip.first_refused refuses base parts = None.
Proof.
  revert base. induction parts as [|y rest IH]; intros base H; [done|].
  simpl. rewrite (H [y]); [|done|by exists rest].
  apply IH. intros k Hk Hpre. rewrite <- app_assoc. apply H; [done|].
  simpl. by apply prefix_cons.
Qed.

Lemma parent_targetpath path m :
  Zip.arcname m <> [] ->
  PurePath.parent (Zip.targetpath path m) = PurePath.resolve path ++ removelast (Zip.arcname m).
Proof.
  intros Hne. rewrite targetpath_eq. unfold PurePath.parent. by apply removelast_app.
Qed.

(** What extracting one member does to the tree: directories appear on
    the way to its target, and a file member writes its target.  When it
    succeeds, the target is the member's directory or holds its bytes. *)
Lemma extract_member_effect zf faults path m tr w r w' :
  Zip.extract_member zf faults path m tr w = (r, w') ->
  evolves (makes_dir path m) (makes_file path m) w w' /\
  (forall tr', r = Ok tr' ->
     if Zip.is_dir m
     then OS.stat (fs w') (Zip.targetpath path m) = Some Dir /\ tr' = tr
     else tr' = tr || bool_decide (Zip.targetpath path m = zf) /\
          fs w' !! Zip.targetpath path m = Some (File (zi_data m))).
Proof.
  unfold Zip.extract_member. set (target := Zip.targetpath path m).
  assert (forall q, q `prefix_of` PurePath.parent target -> makes_dir path m q) as Dup
    by (intros q Hq; by left).
  assert (Zip.is_dir m = true -> makes_dir path m target) as Dtarget
    by (intros Hd; by right).
  set (D := makes_dir path m).
  set (F := makes_file path m).
  assert (PurePath.resolve target = target) as Rt by apply targetpath_resolved.
  assert (PurePath.resolve (PurePath.parent target) = PurePath.parent target) as Rp.
  { apply resolve_plain, removelast_no_dotdot. rewrite <- Rt. apply resolve_no_dotdot. }
  assert (forall (p : Path) (present : bool) (r1 : result unit) (w1 : World),
    p `prefix_of` PurePath.parent target ->
    (if present then ret tt else OS.makedirs p) w = (r1, w1) ->
    evolves D F w w1) as Hup.
  { intros p present r1 w1 Hp H1. destruct present; [inv_op H1; apply evolves_refl|].
    assert (PurePath.resolve p = p) as Rpp.
    { apply resolve_plain. intros Hin. destruct Hp as [k Hk].
      apply (resolve_no_dotdot (PurePath.parent target)). rewrite Rp, Hk.
      apply elem_of_app. left. exact Hin. }
    unfold OS.makedirs in H1. rewrite Rpp in H1.
    apply makedirs_rev_effect in H1. rewrite rev_involutive in H1.
    eapply evolves_mono; [exact H1| |done].
    intros q Hq. apply Dup. etrans; [exact Hq | exact Hp]. }
  assert (forall (A : Type) (q : Path) (r1 : result A) (w1 w2 : World),
    bind (OS.need_parent_dir q) (fun _ => @raise A (PyError "OSError")) w1 = (r1, w2) ->
    w2 = w1 /\ forall a : A, r1 <> Ok a) as Hrefused.
  { intros A q r1 w1 w2 H1.
    apply bind_inv in H1 as [([] & w3 & H3 & H1) | (e & H3 & ->)].
    - apply need_parent_dir_pure in H3 as ->. unfold raise in H1.
      by injection H1 as <- <-.
    - by apply need_parent_dir_pure in H3 as ->. }
  intros H.
  destruct (Zip.first_refused (refuses faults) (PurePath.resolve path)
              (removelast (Zip.arcname m))) as [[above x]|] eqn:Eref.
  { (* a directory on the way is refused *)
    apply first_refused_Some in Eref as (k & -> & Hk).
    assert (Zip.arcname m <> []) as Hne.
    { intros E. rewrite E in Hk. simpl in Hk. apply prefix_nil_inv in Hk.
      by destruct k. }
    assert ((PurePath.resolve path ++ k) `prefix_of` PurePath.parent target) as Hpre.
    { unfold target. rewrite parent_targetpath by done.
      apply prefix_app. etrans; [|exact Hk]. by exists [x]. }
    apply bind_inv in H as [(present & w0 & H0 & H) | (e & H0 & ->)];
      [|apply exists_pure in H0 as ->; split; [apply evolves_refl|done]].
    apply exists_pure in H0 as ->.
    apply bind_inv in H as [([] & w1 & H1 & H) | (e & H1 & ->)];
      [|split; [by eapply Hup|done]].
    apply (Hup _ _ _ _ Hpre) in H1.
    apply Hrefused in H as [-> Hr]. split; [done|].
    intros tr' ->. by destruct (Hr tr'). }
  apply bind_inv in H as [(present & w0 & H0 & H) | (e & H0 & ->)];
    [|apply exists_pure in H0 as ->; split; [apply evolves_refl|done]].
  apply exists_pure in H0 as ->.
  apply bind_inv in H as [([] & w1 & H1 & H) | (e & H1 & ->)];
    [|split; [by eapply (Hup (PurePath.parent target))|done]].
  apply (Hup (PurePath.parent target)) in H1 as E1; [|done]. clear Hup.
  destruct (Zip.is_dir m) eqn:Edir.
  - apply bind_inv in H as [(d & w2 & H2 & H) | (e & H2 & ->)];
      [|apply isdir_at_spec in H2 as [-> _]; by split].
    unfold OS.isdir in H2. rewrite Rt in H2.
    apply isdir_at_spec in H2 as [-> Hd]. injection Hd as Hd.
    destruct d.
    + assert (r = Ok tr /\ w' = w1) as [-> ->].
      { unfold bind, ret in H. by injection H as <- <-. }
      split; [done|]. intros tr' [= <-]. split; [|done].
      destruct (OS.stat (fs w1) target) as [[]|]; done.
    + clear Hd.
      apply bind_inv in H as [([] & w3 & H3 & H) | (e & H3 & ->)].
      * destruct (refuses faults target); [apply Hrefused in H3 as [_ Hr]; by destruct (Hr tt)|].
        unfold OS.mkdir in H3. rewrite Rt in H3.
        apply mkdir_at_effect in H3 as [E3 S3].
        unfold ret in H. injection H as <- <-. split.
        -- eapply evolves_trans; [exact E1|].
           eapply evolves_mono; [exact E3|intros q <-; by apply Dtarget|done].
        -- intros tr' [= <-]. split; [|done].
           specialize (S3 eq_refl). destruct target; [done|]. exact S3.
      * destruct (refuses faults target); [apply Hrefused in H3 as [-> _]; by split|].
        unfold OS.mkdir in H3. rewrite Rt in H3.
        apply mkdir_at_effect in H3 as [E3 _]. split; [|done].
        eapply evolves_trans; [exact E1|].
        eapply evolves_mono; [exact E3|intros q <-; by apply Dtarget|done].
  - apply bind_inv in H as [([] & w2 & H2 & H) | (e & H2 & ->)];
      [|destruct (open_fault faults tr m); inv_op H2; by split].
    assert (w2 = w1) as -> by (destruct (open_fault faults tr m); by inv_op H2).
    clear H2.
    assert (forall w2 w3, evolves nowhere (eq target) w2 w3 -> evolves D F w2 w3) as Hmono.
    { intros ? ? E. eapply evolves_mono; [exact E|done|]. by intros q <-. }
    apply bind_inv in H as [([] & w3 & H3 & H) | (e & H3 & ->)].
    + destruct (refuses faults target); [apply Hrefused in H3 as [_ Hr]; by destruct (Hr tt)|].
      apply open_wb_effect in H3 as [E3 S3]. rewrite Rt in E3, S3.
      specialize (S3 eq_refl). apply Hmono in E3.
      destruct (read_fault faults (tr || bool_decide (target = zf)) m) as [[cls written]|].
      * apply bind_inv in H as [([] & w4 & H4 & H) | (e & H4 & ->)].
        -- eapply write_effect in H4 as (E4 & _ & S4); [|by rewrite Rt]. rewrite Rt in E4.
           unfold raise in H. injection H as <- <-.
           split; [|done]. eapply evolves_trans; [done|]. eapply evolves_trans; [done|by apply Hmono].
        -- eapply write_effect in H4 as (_ & ? & _); [done|by rewrite Rt].
      * apply bind_inv in H as [([] & w4 & H4 & H) | (e & H4 & ->)].
        -- eapply write_effect in H4 as (E4 & _ & S4); [|by rewrite Rt]. rewrite Rt in E4, S4.
           unfold ret in H. injection H as <- <-.
           split; [eapply evolves_trans; [done|]; eapply evolves_trans; [done|by apply Hmono]|].
           intros tr' [= <-]. done.
        -- eapply write_effect in H4 as (_ & ? & _); [done|by rewrite Rt].
    + destruct (refuses faults target); [apply Hrefused in H3 as [-> _]; by split|].
      apply open_wb_effect in H3 as [E3 _]. rewrite Rt in E3. apply Hmono in E3.
      split; [by eapply evolves_trans|done].
Qed.

Lemma extract_members_effect zf faults path ms tr w r w' :
  Zip.extract_members zf faults path ms tr w = (r, w') ->
  evolves (needs_dir path ms) (needs_file path ms) w w'.
Proof.
  revert tr w r w'; induction ms as [|m rest IH]; intros tr w r w' H; simpl in H.
  - unfold ret in H. injection H as <- <-. apply evolves_refl.
  - apply bind_inv in H as [(tr' & w1 & H1 & H) | (e & H1 & ->)].
    + apply extract_member_effect in H1 as [E1 _]. apply IH in H.
      eapply evolves_trans.
      * eapply evolves_mono; [exact E1| |].
        -- intros q Hq. exists m. split; [apply list_elem_of_here|done].
        -- intros q [-> Hq]. exists m. split; [apply list_elem_of_here|done].
      * eapply evolves_mono; [exact H| |].
        -- intros q (m' & Hm' & Hq). exists m'. split; [by apply list_elem_of_further|done].
        -- intros q (m' & Hm' & Hq). exists m'. split; [by apply list_elem_of_further|done].
    + apply extract_member_effect in H1 as [E1 _].
      eapply evolves_mono; [exact E1| |].
      * intros q Hq. exists m. split; [apply list_elem_of_here|done].
      * intros q [-> Hq]. exists m. split; [apply list_elem_of_here|done].
Qed.

(** A prefix of a path under [d] is an ancestor of [d], [d] itself, or lies
    strictly within [d]. *)
Lemma prefix_under (d arc q : Path) :
  q `prefix_of` d ++ arc -> q `prefix_of` d \/ PurePath.strictly_within d q.
Proof.
  intros [k Hk]. apply app_eq_inv in Hk as [(k' & -> & _) | (k' & -> & _)].
  - left. by exists k'.
  - destruct k' as [|c k']; [left; by rewrite app_nil_r|].
    right. by exists (c :: k').
Qed.

(** Extraction under an existing directory touches nothing outside it. *)
Lemma extract_members_inside zf faults path ms tr w r w' :
  directory_in (fs w) (PurePath.resolve path) ->
  Zip.extract_members zf faults path ms tr w = (r, w') ->
  trace w' = trace w /\
  forall q, fs w' !! q = fs w !! q \/ PurePath.strictly_within (PurePath.resolve path) q.
Proof.
  intros Hdir H. apply extract_members_effect in H as [Ht H]. split; [done|].
  intros q. destruct (H q) as [E | (m & _ & Hq) N _ | d (m & _ & -> & _) N _]; [by left| |].
  - assert (q `prefix_of` Zip.targetpath path m) as Hq'.
    { destruct Hq as [Hq | [-> _]]; [|done]. etrans; [exact Hq | apply parent_prefix]. }
    rewrite targetpath_eq in Hq'. apply prefix_under in Hq' as [Hq'|Hq']; [|by right].
    rewrite (Hdir q Hq') in N. discriminate.
  - right. rewrite targetpath_eq in *. exists (Zip.arcname m). split; [|done].
    intros E. rewrite E, app_nil_r in N. apply N, Hdir. done.
Qed.

(** After a successful extraction every directory member is a directory
    and every path a file member was extracted to holds the bytes of the
    last such member; files no member was extracted to keep their bytes. *)
Lemma extract_members_ok zf faults path ms tr w w' :
  Zip.extract_members zf faults path ms tr w = (Ok tt, w') ->
  (forall m, m ∈ ms -> Zip.is_dir m = true ->
     OS.stat (fs w') (Zip.targetpath path m) = Some Dir) /\
  (forall q,
     match Zip.winner path ms q with
     | Some m => fs w' !! q = Some (File (zi_data m))
     | None => forall d, fs w !! q = Some (File d) -> fs w' !! q = Some (File d)
     end).
Proof.
  revert tr w w'; induction ms as [|m rest IH]; intros tr w w' H; simpl in H.
  - unfold ret in H. injection H as <-. split; [|by intros q; simpl].
    intros m Hm. by apply elem_of_nil in Hm.
  - apply bind_inv in H as [(tr' & w1 & H1 & H) | (e & _ & [=])].
    apply extract_member_effect in H1 as [E1 S1]. specialize (S1 tr' eq_refl).
    pose proof (extract_members_effect _ _ _ _ _ _ _ _ H) as E2.
    apply IH in H as [IHd IHf]. split.
    + intros m0 Hm0 Hd. apply elem_of_cons in Hm0 as [->|Hm0]; [|by apply IHd].
      rewrite Hd in S1. destruct S1 as [S1 _].
      destruct E2 as [_ E2]. by eapply fate_stat_dir.
    + intros q. simpl. specialize (IHf q).
      destruct (Zip.winner path rest q) as [m'|] eqn:W; [done|].
      destruct (Zip.is_dir m) eqn:Hd.
      * intros d Hq. apply IHf. destruct E1 as [_ E1].
        eapply fate_file_kept; [apply E1| |done]. unfold makes_file. intros [_ ?]. congruence.
      * destruct S1 as (_ & S1).
        destruct (decide (Zip.targetpath path m = q)) as [<-|NE]; [by apply IHf|].
        intros d Hq. apply IHf. destruct E1 as [_ E1].
        eapply fate_file_kept; [apply E1| |done]. unfold makes_file. intros [? _]. congruence.
Qed.

End ZipFacts.

(** ** Extraction that cannot fail *)

Module ExtractFacts.
Import TreeFacts MFacts OSFacts PathFacts ZipFacts.

Lemma parent_snoc (p : Path) (c : string) : PurePath.parent (p ++ [c]) = p.
Proof. apply removelast_last. Qed.

Lemma prefix_snoc (q p : Path) (c : string) :
  q `prefix_of` p ++ [c] -> q `prefix_of` p \/ q = p ++ [c].
Proof.
  intros [k Hk]. destruct (decide (k = [])) as [->|NE].
  - right. by rewrite app_nil_r in Hk.
  - left. destruct (exists_last NE) as (k' & c' & ->).
    rewrite app_assoc in Hk. apply app_inj_tail in Hk as [-> _]. by exists k'.
Qed.

Lemma snoc_not_prefix (p : Path) (c : string) : ~ (p ++ [c]) `prefix_of` p.
Proof.
  intros H. apply prefix_length in H. rewrite length_app in H. simpl in H. lia.
Qed.

Ltac mstep :=
  repeat (progress (unfold bind, ret, raise, get_fs, put_fs, lift; cbv beta iota)).

Lemma need_parent_dir_ok (q : Path) (w : World) :
  OS.stat (fs w) (PurePath.parent q) = Some Dir ->
  OS.need_parent_dir q w = (Ok tt, w).
Proof. intros H. unfold OS.need_parent_dir. mstep. by rewrite H. Qed.

Lemma mkdir_at_ok (q : Path) (w : World) :
  OS.stat (fs w) q = None ->
  OS.stat (fs w) (PurePath.parent q) = Some Dir ->
  OS.mkdir_at q w = (Ok tt, mkWorld (<[q := Dir]> (fs w)) (trace w)).
Proof.
  intros Hq Hp. unfold OS.mkdir_at. unfold bind at 1, get_fs at 1. rewrite Hq.
  unfold bind. by rewrite (need_parent_dir_ok _ _ Hp).
Qed.

Lemma mkdir_at_exists (q : Path) (w : World) (n : node) :
  OS.stat (fs w) q = Some n ->
  OS.mkdir_at q w = (Raise (PyError "FileExistsError"), w).
Proof. intros Hq. unfold OS.mkdir_at. unfold bind at 1, get_fs at 1. by rewrite Hq. Qed.

Lemma isdir_at_eq (q : Path) (w : World) :
  OS.isdir_at q w = (Ok (match OS.stat (fs w) q with Some Dir => true | _ => false end), w).
Proof. reflexivity. Qed.

Lemma exists_eq (p : Path) (w : World) :
  OS.exists_ p w =
    (Ok (match OS.stat (fs w) (PurePath.resolve p) with Some _ => true | None => false end), w).
Proof. reflexivity. Qed.

Lemma open_wb_ok (p : Path) (w : World) :
  OS.stat (fs w) (PurePath.resolve p) <> Some Dir ->
  OS.stat (fs w) (PurePath.parent (PurePath.resolve p)) = Some Dir ->
  OS.open_wb p w = (Ok tt, mkWorld (<[PurePath.resolve p := File []]> (fs w)) (trace w)).
Proof.
  intros Hq Hp. unfold OS.open_wb. unfold bind at 1, get_fs at 1.
  destruct (OS.stat (fs w) (PurePath.resolve p)) as [[d|]|]; [|done|];
    unfold bind; by rewrite (need_parent_dir_ok _ _ Hp).
Qed.

Lemma write_eq (p : Path) (data : bytes) (w : World) :
  OS.write p data w = (Ok tt, mkWorld (<[PurePath.resolve p := File data]> (fs w)) (trace w)).
Proof. reflexivity. Qed.

(** [makedirs] succeeds when nothing on the way is a file, and leaves a
    directory behind. *)
Lemma makedirs_rev_ok (p : Path) (w : World) :
  (forall q, q `prefix_of` p -> OS.stat (fs w) q = None \/ OS.stat (fs w) q = Some Dir) ->
  exists w', OS.makedirs_rev (rev p) w = (Ok tt, w') /\ OS.stat (fs w') p = Some Dir.
Proof.
  revert w; induction p as [|c p IH] using rev_ind; intros w Hp.
  - exists w. done.
  - rewrite rev_unit, makedirs_rev_cons, rev_involutive.
    rewrite <- rev_unit, rev_involutive.
    unfold bind at 1. unfold get_fs at 1.
    assert (exists w1, (match OS.stat (fs w) p with
                        | Some _ => ret tt
                        | None => OS.makedirs_rev (rev p)
                        end) w = (Ok tt, w1) /\
                       OS.stat (fs w1) p = Some Dir /\
                       (OS.stat (fs w1) (p ++ [c]) = None \/
                        OS.stat (fs w1) (p ++ [c]) = Some Dir)) as (w1 & H1 & Hd & Hc).
    { destruct (OS.stat (fs w) p) as [n|] eqn:Es.
      - exists w. split; [done|]. split.
        + destruct (Hp p) as [E|E]; [by apply prefix_app_r|congruence|congruence].
        + by apply Hp.
      - destruct (IH w) as (w1 & H1 & Hd).
        { intros q Hq. apply Hp. by apply prefix_app_r. }
        exists w1. split; [done|]. split; [done|].
        apply makedirs_rev_effect in H1 as [_ H1]. rewrite rev_involutive in H1.
        assert (OS.stat (fs w1) (p ++ [c]) = OS.stat (fs w) (p ++ [c])) as ->.
        { apply stat_same. destruct (H1 (p ++ [c])) as [E|D _ _|d [] _ _]; [done|].
          by apply snoc_not_prefix in D. }
        by apply Hp. }
    rewrite (bind_ok _ _ _ _ _ H1). unfold try_except.
    destruct Hc as [Hc|Hc].
    + rewrite (mkdir_at_ok _ _ Hc); [|by rewrite parent_snoc].
      eexists. split; [reflexivity|]. simpl.
      rewrite stat_nonroot; [by rewrite lookup_insert_eq | by destruct p].
    + rewrite (mkdir_at_exists _ _ _ Hc). unfold bind. rewrite isdir_at_eq, Hc.
      exists w1. done.
Qed.

(** What can be extracted still can after directories and files appeared
    where the members need them. *)
Lemma extractable_evolves (t t' : FS) (zf path : Path) (ms : list ZipInfo) :
  extractable t zf path ms ->
  (forall q, fate (needs_dir path ms) (needs_file path ms) t t' q) ->
  extractable t' zf path ms.
Proof.
  intros (Hdir & HD & HF & Hdisj) Hfate. split; [|split; [|split; [|done]]].
  - intros p Hp. eapply fate_stat_dir; [apply Hfate | by apply Hdir].
  - intros q Hq. destruct (Hfate q) as [E|_ N C|d Hf _ _].
    + rewrite (stat_same _ _ _ E). by apply HD.
    + right. apply stat_None in N as [N _]. by rewrite stat_nonroot.
    + by destruct (Hdisj q).
  - intros q Hq. destruct (HF q Hq) as [Hz Hs]. split; [done|].
    destruct (Hfate q) as [E|Hd _ _|d _ N C].
    + by rewrite (stat_same _ _ _ E).
    + by destruct (Hdisj q).
    + right. exists d. apply stat_not_dir_nonroot in N. by rewrite stat_nonroot.
Qed.

Lemma needs_dir_member (path : Path) (ms : list ZipInfo) (m : ZipInfo) (q : Path) :
  m ∈ ms -> makes_dir path m q -> needs_dir path ms q.
Proof. intros Hm Hq. by exists m. Qed.

Lemma needs_file_member (path : Path) (ms : list ZipInfo) (m : ZipInfo) (q : Path) :
  m ∈ ms -> makes_file path m q -> needs_file path ms q.
Proof. intros Hm Hq. by exists m. Qed.

(** One member of an extractable list is extracted without error, the
    archive is not truncated, and the rest can still be extracted. *)
Lemma extract_member_succeeds (zf : Path) (faults : ZipFaults) (path : Path)
    (ms : list ZipInfo) (m : ZipInfo) (w : World) :
  extractable (fs w) zf path ms -> readable faults path ms -> m ∈ ms ->
  exists w1, Zip.extract_member zf faults path m false w = (Ok false, w1) /\
             extractable (fs w1) zf path ms.
Proof.
  intros Hext Hread Hm.
  destruct (Hread m Hm) as (Hopen & Hrd & Hplace).
  assert (exists w1, Zip.extract_member zf faults path m false w = (Ok false, w1)) as [w1 H1].
  { unfold Zip.extract_member. set (target := Zip.targetpath path m).
    rewrite first_refused_None.
    2:{ intros k Hk Hpre. apply Hplace. rewrite targetpath_eq. apply prefix_app.
        etrans; [exact Hpre | apply (parent_prefix (Zip.arcname m))]. }
    assert (refuses faults target = false) as Hrt by (by apply Hplace).
    assert (PurePath.resolve target = target) as Rt by apply targetpath_resolved.
    assert (PurePath.resolve (PurePath.parent target) = PurePath.parent target) as Rp.
    { apply resolve_plain, removelast_no_dotdot. rewrite <- Rt. apply resolve_no_dotdot. }
    unfold bind at 1. rewrite exists_eq, Rp.
    assert (exists w0,
      (if match OS.stat (fs w) (PurePath.parent target) with Some _ => true | None => false end
       then ret tt else OS.makedirs (PurePath.parent target)) w = (Ok tt, w0) /\
      OS.stat (fs w0) (PurePath.parent target) = Some Dir /\
      extractable (fs w0) zf path ms) as (w0 & H0 & Hp & Hext0).
    { destruct Hext as (Hdir & HD & HF & Hdisj).
      assert (forall q, q `prefix_of` PurePath.parent target ->
                OS.stat (fs w) q = None \/ OS.stat (fs w) q = Some Dir) as Hway.
      { intros q Hq. apply HD. apply (needs_dir_member _ _ m); [done|by left]. }
      destruct (OS.stat (fs w) (PurePath.parent target)) as [n|] eqn:Es.
      - exists w. split; [done|]. split; [|done].
        destruct (Hway (PurePath.parent target)) as [E|E]; [done|congruence|congruence].
      - destruct (makedirs_rev_ok _ w Hway) as (w0 & H0 & Hp).
        exists w0. unfold OS.makedirs. rewrite Rp. split; [done|]. split; [done|].
        apply makedirs_rev_effect in H0 as [_ H0]. rewrite rev_involutive in H0.
        eapply extractable_evolves; [done|]. intros q.
        eapply fate_mono; [| |apply H0]; [|done].
        intros q' Hq'. apply (needs_dir_member _ _ m); [done|by left]. }
    rewrite (bind_ok _ _ _ _ _ H0).
    destruct Hext0 as (_ & HD & HF & _).
    destruct (Zip.is_dir m) eqn:Hd.
    - unfold bind at 1. unfold OS.isdir. rewrite Rt, isdir_at_eq.
      destruct (HD target) as [E|E].
      { apply (needs_dir_member _ _ m); [done|by right]. }
      + rewrite E, Hrt. unfold OS.mkdir. rewrite Rt. unfold bind.
        rewrite (mkdir_at_ok _ _ E Hp). eexists. reflexivity.
      + rewrite E. eexists. reflexivity.
    - destruct (HF target) as [Hz Hs].
      { by apply (needs_file_member _ _ m). }
      rewrite Hopen, Hrt. unfold bind at 1. unfold ret at 1. unfold bind at 1.
      rewrite open_wb_ok; [|rewrite Rt; destruct Hs as [E|[d E]]; congruence|by rewrite Rt].
      rewrite bool_decide_eq_false_2 by done. cbv zeta. cbn [orb]. rewrite Hrd.
      unfold bind. rewrite write_eq. eexists. reflexivity. }
  exists w1. split; [done|].
  apply extract_member_effect in H1 as [[_ H1] _].
  eapply extractable_evolves; [done|]. intros q.
  eapply fate_mono; [| |apply H1].
  - intros q'. by apply needs_dir_member.
  - intros q'. by apply needs_file_member.
Qed.

(** An extractable list of members is extracted without error. *)
Lemma extract_members_succeeds (zf : Path) (faults : ZipFaults) (path : Path)
    (ms : list ZipInfo) (w : World) :
  extractable (fs w) zf path ms -> readable faults path ms ->
  exists w', Zip.extract_members zf faults path ms false w = (Ok tt, w').
Proof.
  intros Hext0 Hread.
  assert (forall rest w, rest ⊆ ms -> extractable (fs w) zf path ms ->
            exists w', Zip.extract_members zf faults path rest false w = (Ok tt, w')) as H.
  { clear w Hext0. induction rest as [|m rest IH]; intros w Hsub Hext.
    - by exists w.
    - destruct (extract_member_succeeds zf faults path ms m w Hext Hread)
        as (w1 & H1 & Hext1).
      { apply Hsub, list_elem_of_here. }
      destruct (IH w1) as (w' & H'); [|done|].
      { intros x Hx. apply Hsub. by apply list_elem_of_further. }
      exists w'. simpl. by rewrite (bind_ok _ _ _ _ _ H1). }
  by apply H.
Qed.

End ExtractFacts.

(** ** The archive sanitizer *)

Section SanitizerFacts.
Import TreeFacts MFacts OSFacts PathFacts ZipFacts.

Variable host : Host.

Lemma ZipFile_open_inv (p : Path) (w : World) (r : result ZipFile) (w' : World) :
  ZipFile_open host p w = (r, w') ->
  w' = w /\
  forall archive, r = Ok archive ->
    zf_path archive = PurePath.resolve p /\
    exists b, OS.stat (fs w) (PurePath.resolve p) = Some (File b) /\
              zip_directory host b = Some (zf_infolist archive).
Proof.
  unfold ZipFile_open. intros H.
  apply bind_inv in H as [(b & w1 & Hb & H) | (e & Hb & ->)].
  - apply read_bytes_pure in Hb as Hw. subst w1.
    destruct (zip_directory host b) as [ms|] eqn:Hd.
    + unfold ret in H. injection H as <- <-. split; [done|].
      intros archive [= <-]. split; [done|]. exists b. split; [|done].
      unfold OS.read_bytes in Hb. inv_op Hb. done.
    + unfold raise in H. injection H as <- <-. done.
  - apply read_bytes_pure in Hb as ->. done.
Qed.

(** The loop over the members changes nothing; it ends normally when every
    member passes the test and with the 400 error otherwise. *)
Lemma check_members_spec (target_dir : Path) (ms : list ZipInfo) (w : World) :
  check_members target_dir ms w =
    (if forallb (passes_check target_dir) ms then Ok tt
     else Raise (HTTPException 400 (DetailStr "Archive contains unsafe paths.")), w).
Proof.
  induction ms as [|m ms IH]; [done|].
  simpl. fold (passes_check target_dir m).
  destruct (passes_check target_dir m); [exact IH | done].
Qed.

(** All or nothing: one member that fails the test has the whole archive
    refused before anything is extracted. *)
Lemma extract_zip_safely_rejects (zip_path target_dir : Path) (w : World)
    (archive : ZipFile) :
  ZipFile_open host zip_path w = (Ok archive, w) ->
  forallb (passes_check target_dir) (zf_infolist archive) = false ->
  extract_zip_safely host zip_path target_dir w =
    (Raise (HTTPException 400 (DetailStr "Archive contains unsafe paths.")), w).
Proof.
  intros Hopen Hbad. unfold extract_zip_safely.
  rewrite (bind_ok _ _ _ _ _ Hopen).
  unfold bind at 1. by rewrite check_members_spec, Hbad.
Qed.

(** C2.  Whatever the archive, and whether or not it is accepted,
    [extract_zip_safely] on an existing target directory changes the tree
    only at paths that lie strictly within the resolved target directory;
    and it accepts an archive only if every member's destination, resolved
    first, passed the containment test. *)
Theorem extract_zip_safely_stays_inside (zip_path target_dir : Path) (w : World)
    (r : result unit) (w' : World) :
  directory_in (fs w) (PurePath.resolve target_dir) ->
  extract_zip_safely host zip_path target_dir w = (r, w') ->
  (forall q : Path, fs w' !! q <> fs w !! q ->
     PurePath.strictly_within (PurePath.resolve target_dir) q) /\
  (r = Ok tt ->
     exists archive, ZipFile_open host zip_path w = (Ok archive, w) /\
       Forall (fun m => passes_check target_dir m = true) (zf_infolist archive)).
Proof.
  intros Hdir H. unfold extract_zip_safely in H.
  apply bind_inv in H as [(archive & w1 & Hopen & H) | (e & Hopen & ->)].
  - apply ZipFile_open_inv in Hopen as Hw. destruct Hw as [-> _].
    unfold bind in H. rewrite check_members_spec in H.
    destruct (forallb (passes_check target_dir) (zf_infolist archive)) eqn:Hall.
    + unfold Zip.extractall in H.
      apply extract_members_inside in H as [_ H]; [|done]. split.
      * intros q Hq. by destruct (H q).
      * intros _. exists archive. split; [done|].
        apply Forall_forall. intros m Hm.
        rewrite forallb_forall in Hall. apply Hall. by apply list_elem_of_In.
    + injection H as <- <-. split; [done|done].
  - apply ZipFile_open_inv in Hopen as [-> _]. split; [done|done].
Qed.

End SanitizerFacts.

Lemma sample_directory_in :
  directory_in (fs (Sample.staged "figures")) (PurePath.resolve Sample.work_dir).
Proof.
  intros p [k Hk]. vm_compute in Hk.
  destruct p as [|a [|b [|c p]]]; simplify_eq; reflexivity.
Qed.

Lemma extract_zip_safely_stays_inside_witness :
  directory_in (fs (Sample.staged "figures")) (PurePath.resolve Sample.work_dir) /\
  (forall q : Path,
     fs (extract_zip_safely Sample.host (Sample.work_dir ++ ["assets.zip"])
           Sample.work_dir (Sample.staged "figures")).2 !! q
       <> fs (Sample.staged "figures") !! q ->
     PurePath.strictly_within (PurePath.resolve Sample.work_dir) q).
Proof.
  split; [exact sample_directory_in|].
  exact (proj1 (extract_zip_safely_stays_inside Sample.host
                  (Sample.work_dir ++ ["assets.zip"]) Sample.work_dir
                  (Sample.staged "figures") _ _
                  sample_directory_in (surjective_pairing _))).
Defined.

(** C1 (the code departs from it).  With the work directory
    [/tmp/latexwork_k3v9x2ab], the entry [../latexwork_k3v9x2ab_old/x.txt]
    resolves to [/tmp/latexwork_k3v9x2ab_old/x.txt], which is outside the
    work directory; its string still starts with the work directory's
    string, so the archive is accepted and the entry is written (under the
    cleaned name, inside the work directory) instead of the archive being
    refused with nothing written. *)
Theorem extract_zip_safely_accepts_sibling_prefix :
  let destination :=
    PurePath.resolve (PurePath.joinpath Sample.work_dir (zi_filename Sample.sibling_entry)) in
  let run :=
    extract_zip_safely Sample.host (Sample.work_dir ++ ["assets.zip"]) Sample.work_dir
      (Sample.staged "sibling") in
  zip_directory Sample.host (Sample.text "sibling") = Some [Sample.sibling_entry] /\
  destination = ["tmp"; "latexwork_k3v9x2ab_old"; "x.txt"] /\
  ~ PurePath.resolve Sample.work_dir `prefix_of` destination /\
  run.1 = Ok tt /\
  fs run.2 !! (Sample.work_dir ++ ["latexwork_k3v9x2ab_old"; "x.txt"])
    = Some (File (zi_data Sample.sibling_entry)).
Proof.
  repeat split; try reflexivity.
  intros [k Hk]. vm_compute in Hk. discriminate.
Qed.

(** ** Events *)

Module QuietFacts.
Import TreeFacts MFacts OSFacts PathFacts ZipFacts.

Lemma quiet_ret {A} (a : A) : quiet (ret a).
Proof. by intros w r w' [= <- <-]. Qed.

Lemma quiet_raise {A} (e : exn) : quiet (@raise A e).
Proof. by intros w r w' [= <- <-]. Qed.

Lemma quiet_lift {A} (x : result A) : quiet (lift x).
Proof. by intros w r w' [= <- <-]. Qed.

Lemma quiet_get_fs : quiet get_fs.
Proof. by intros w r w' [= <- <-]. Qed.

Lemma quiet_put_fs (t : FS) : quiet (put_fs t).
Proof. by intros w r w' [= <- <-]. Qed.

Lemma quiet_bind {A B} (m : M A) (k : A -> M B) :
  quiet m -> (forall a, quiet (k a)) -> quiet (bind m k).
Proof.
  intros Hm Hk w r w' H.
  apply bind_inv in H as [(a & w1 & H1 & H) | (e & H1 & ->)].
  - apply Hm in H1. apply Hk in H. congruence.
  - by apply Hm in H1.
Qed.

Lemma quiet_try_except {A} (m : M A) (h : exn -> M A) :
  quiet m -> (forall e, quiet (h e)) -> quiet (try_except m h).
Proof.
  intros Hm Hh w r w' H. unfold try_except in H.
  destruct (m w) as [[a|e] w1] eqn:E; apply Hm in E.
  - injection H as <- <-. done.
  - apply Hh in H. congruence.
Qed.

Lemma quiet_evolves {A} (m : M A) (D F : Path -> Prop) :
  (forall w r w', m w = (r, w') -> evolves D F w w') -> quiet m.
Proof. intros H w r w' E. by destruct (H _ _ _ E). Qed.

Create HintDb quiet_ops discriminated.

Ltac quiet_tac :=
  repeat first
    [ apply quiet_ret | apply quiet_raise | apply quiet_get_fs | apply quiet_put_fs
    | apply quiet_lift | solve [auto with quiet_ops nocore]
    | apply quiet_bind; [|intros ?]
    | apply quiet_try_except; [|intros ?]
    | match goal with
      | |- quiet (match ?x with _ => _ end) => destruct x
      end ].

Lemma quiet_exists p : quiet (OS.exists_ p).
Proof. unfold OS.exists_. quiet_tac. Qed.
#[local] Hint Resolve quiet_exists : quiet_ops.

Lemma quiet_need_parent_dir q : quiet (OS.need_parent_dir q).
Proof. unfold OS.need_parent_dir. quiet_tac. Qed.
#[local] Hint Resolve quiet_need_parent_dir : quiet_ops.

Lemma quiet_write_bytes p data : quiet (OS.write_bytes p data).
Proof.
  unfold OS.write_bytes, OS.open_wb, OS.write. quiet_tac.
Qed.
#[local] Hint Resolve quiet_write_bytes : quiet_ops.

Lemma quiet_read_bytes p : quiet (OS.read_bytes p).
Proof. unfold OS.read_bytes. quiet_tac. Qed.
#[local] Hint Resolve quiet_read_bytes : quiet_ops.

Lemma quiet_unlink p missing_ok : quiet (OS.unlink p missing_ok).
Proof. unfold OS.unlink. quiet_tac. Qed.
#[local] Hint Resolve quiet_unlink : quiet_ops.

Lemma quiet_save_upload_file upload destination :
  quiet (save_upload_file upload destination).
Proof. apply quiet_write_bytes. Qed.
#[local] Hint Resolve quiet_save_upload_file : quiet_ops.

Lemma quiet_extract_zip_safely host zip_path target_dir :
  quiet (extract_zip_safely host zip_path target_dir).
Proof.
  unfold extract_zip_safely, ZipFile_open.
  apply quiet_bind; [quiet_tac|]. intros archive.
  apply quiet_bind.
  - intros w r w'. rewrite check_members_spec. by intros [= _ <-].
  - intros _. eapply quiet_evolves. intros w r w'. apply extract_members_effect.
Qed.
#[local] Hint Resolve quiet_extract_zip_safely : quiet_ops.

Lemma quiet_unpack_assets host assets_archive work_dir :
  quiet (unpack_assets host assets_archive work_dir).
Proof.
  unfold unpack_assets, ensure_zip_is_valid, is_zipfile. quiet_tac.
Qed.
#[local] Hint Resolve quiet_unpack_assets : quiet_ops.

Lemma quiet_stage_inputs host tex_file assets_archive work_dir tex_path :
  quiet (stage_inputs host tex_file assets_archive work_dir tex_path).
Proof.
  unfold stage_inputs. quiet_tac.
Qed.

Lemma quiet_build_pdf_response pdf_path : quiet (build_pdf_response pdf_path).
Proof. unfold build_pdf_response. quiet_tac. Qed.

End QuietFacts.

(** ** Suffixes *)

(** [with_suffix] replaces the extension of the last part. *)
Lemma str_length_app (a b : string) :
  String.length (a +:+ b) = String.length a + String.length b.
Proof. induction a as [|c a IH]; [done|]. rewrite StrFacts.app_cons. simpl. by rewrite IH. Qed.

Lemma str_take_app (a b : string) : Str.take (String.length a) (a +:+ b) = a.
Proof. induction a as [|c a IH]; [by destruct b|]. rewrite StrFacts.app_cons. simpl. by rewrite IH. Qed.

Lemma str_drop_app (a b : string) : Str.drop (String.length a) (a +:+ b) = b.
Proof. induction a as [|c a IH]; [by destruct b|]. rewrite StrFacts.app_cons. simpl. by rewrite IH. Qed.

Lemma rfind_last_dot (stem ext : string) :
  Str.rfind "." ext = None ->
  Str.rfind "." (stem +:+ "." +:+ ext) = Some (String.length stem).
Proof.
  intros He. induction stem as [|c stem IH].
  - rewrite StrFacts.app_nil, StrFacts.app_cons, StrFacts.app_nil. simpl. by rewrite He.
  - rewrite StrFacts.app_cons. simpl. by rewrite IH.
Qed.

Lemma with_suffix_replaces_extension (p : Path) (stem ext : string) :
  PurePath.name p = stem +:+ "." +:+ ext ->
  stem <> "" -> ext <> "" -> Str.rfind "." ext = None ->
  PurePath.with_suffix p ".pdf" = Ok (PurePath.parent p ++ [stem +:+ ".pdf"]).
Proof.
  intros Hn Hs He Hdot.
  assert (PurePath.suffix p = "." +:+ ext) as Hsuf.
  { unfold PurePath.suffix. rewrite Hn, (rfind_last_dot _ _ Hdot).
    rewrite !str_length_app. simpl.
    assert (0 < String.length stem) as H1 by (destruct stem; [done | simpl; lia]).
    assert (0 < String.length ext) as H2 by (destruct ext; [done | simpl; lia]).
    destruct (Nat.ltb_spec 0 (String.length stem)); [|lia].
    destruct (Nat.ltb_spec (String.length stem)
                (String.length stem + S (String.length ext) - 1)); [|lia].
    simpl. apply str_drop_app. }
  unfold PurePath.with_suffix. rewrite Hsuf.
  replace (bool_decide (Str.rfind "/" ".pdf" <> None)) with false by reflexivity.
  change ((negb (".pdf" =? "")%string && negb (Str.startswith ".pdf" ".")
           || (".pdf" =? ".")%string)) with false. cbv iota.
  destruct (String.eqb_spec (PurePath.name p) "") as [E|_].
  { rewrite E in Hn. destruct stem; discriminate. }
  assert (Str.take (String.length (PurePath.name p) - String.length ("." +:+ ext))
            (PurePath.name p) = stem) as ->; [|done].
  rewrite Hn, (str_length_app stem), Nat.add_sub. apply str_take_app.
Qed.

(** ** The request handler *)

Section HandlerFacts.
Import TreeFacts MFacts OSFacts PathFacts ZipFacts QuietFacts.

Variable settings : ServiceSettings.
Variable host : Host.

(** A work directory that was created is a new directory under the
    temporary directory, and its creation is the only event. *)
Lemma create_work_dir_inv (w : World) (work_dir : Path) (w1 : World) :
  create_work_dir host w = (Ok work_dir, w1) ->
  work_dir = gettempdir host ++ ["latexwork_" +:+ random_name host w] /\
  trace w1 = trace w ++ [EvMkdtemp work_dir] /\
  fs w1 = <[PurePath.resolve work_dir := Dir]> (fs w) /\
  OS.stat (fs w) (PurePath.resolve work_dir) = None /\
  OS.stat (fs w) (PurePath.parent (PurePath.resolve work_dir)) = Some Dir.
Proof.
  unfold create_work_dir, mkdtemp, OS.mkdir, OS.mkdir_at.
  set (d := gettempdir host ++ ["latexwork_" +:+ random_name host w]).
  intros H.
  apply bind_inv in H as [([] & w2 & H2 & H) | (e & _ & [=])].
  apply bind_inv in H2 as [(t & w0 & Ht & H2) | (e & Ht & [=])].
  apply get_fs_inv in Ht as [Ht ->]. injection Ht as ->.
  destruct (OS.stat (fs w) (PurePath.resolve d)) as [n|] eqn:Es;
    [unfold raise in H2; discriminate H2|].
  apply bind_inv in H2 as [([] & w3 & H3 & H2) | (e & _ & [=])].
  apply need_parent_dir_pure in H3 as Hw. subst w3.
  unfold OS.need_parent_dir, bind, get_fs, raise in H3.
  destruct (OS.stat (fs w) (PurePath.parent (PurePath.resolve d))) as [[|]|] eqn:Ep;
    try discriminate H3.
  unfold put_fs in H2. injection H2 as <-.
  unfold bind, emit, ret in H. simpl in H. injection H as <- <-. done.
Qed.

(** [rmtree] with [ignore_errors] never raises; its one event is the
    removal, and the tree is emptied below the directory unless the removal
    met an error. *)
Lemma rmtree_ignoring_errors (p : Path) (w : World) :
  exists t',
    rmtree host p true w = (Ok tt, mkWorld t' (trace w ++ [EvRmtree p])) /\
    (OS.stat (fs w) (PurePath.resolve p) = Some Dir ->
     rmtree_fault host (fs w) (PurePath.resolve p) = false ->
     forall q, PurePath.resolve p `prefix_of` q -> t' !! q = None).
Proof.
  unfold rmtree, bind, emit, get_fs, put_fs, ret. simpl.
  destruct (OS.stat (fs w) (PurePath.resolve p)) as [[d|]|] eqn:Es.
  - eexists. split; [reflexivity|]. done.
  - destruct (rmtree_fault host (fs w) (PurePath.resolve p)) eqn:Ef.
    + eexists. split; [reflexivity|]. done.
    + eexists. split; [reflexivity|]. intros _ _ q Hq.
      apply map_lookup_filter_None. right. intros n _ Hn. by apply Hn.
  - eexists. split; [reflexivity|]. done.
Qed.

(** The [try] block emits at most one event, the start of the engine in
    the work directory. *)
Lemma compile_body_events (tex_file : UploadFile) (assets_archive : option UploadFile)
    (work_dir tex_path : Path) (w : World) (r : result Response) (w' : World) :
  compile_body settings host tex_file assets_archive work_dir tex_path w = (r, w') ->
  trace w' = trace w \/
  exists argv tree, trace w' = trace w ++ [EvRun argv work_dir tree].
Proof.
  unfold compile_body. intros H.
  apply bind_inv in H as [([] & w1 & H1 & H) | (e & H1 & ->)];
    [|left; by apply quiet_stage_inputs in H1].
  apply quiet_stage_inputs in H1. right.
  apply bind_inv in H as [([] & w2 & H2 & H) | (e & H2 & ->)];
    rewrite run_latex_engine_outcome in H2.
  - assert (quiet (let* pdf_path := lift (PurePath.with_suffix tex_path ".pdf") in
                   let* present := OS.exists_ pdf_path in
                   if negb present
                   then raise (HTTPException 500
                                 (DetailStr "PDF output missing after compilation."))
                   else build_pdf_response pdf_path)) as Hq.
    { pose proof quiet_build_pdf_response. pose proof quiet_exists.
      apply quiet_bind; [apply quiet_lift|]. intros pdf_path.
      apply quiet_bind; [done|]. intros present. destruct (negb present); [apply quiet_raise|done]. }
    apply Hq in H. rewrite H.
    eexists _, _. rewrite <- H1.
    destruct (engine_outcome _ _ _ _ _).1 as [c|cls];
      repeat (match type of H2 with context [if ?b then _ else _] => destruct b end);
      apply (f_equal snd) in H2; simpl in H2; rewrite <- H2; reflexivity.
  - eexists _, _. rewrite <- H1.
    destruct (engine_outcome _ _ _ _ _).1 as [c|cls];
      repeat (match type of H2 with context [if ?b then _ else _] => destruct b end);
      apply (f_equal snd) in H2; simpl in H2; rewrite <- H2; reflexivity.
Qed.

(** The [except] clauses of the handler raise, and change nothing. *)
Lemma except_clauses (A : Type) (e : exn) (w0 : World) :
  match e with
  | HTTPException _ _ => raise e
  | PyError cls =>
      if is_Exception cls then
        raise (HTTPException 500 (DetailStr "Unexpected error during compilation."))
      else raise e
  end w0 = (@Raise A (after_except e), w0).
Proof. destruct e as [code d|cls]; [done|]. simpl. by destruct (is_Exception cls). Qed.


(** What the handler answers, given what the [try] block did: the removal
    of the work directory leaves the outcome alone. *)
Lemma compile_latex_outcome (tex_file : UploadFile) (assets_archive : option UploadFile)
    (w : World) (work_dir : Path) (w1 : World) :
  ensure_tex_extension (filename tex_file) = Ok tt ->
  create_work_dir host w = (Ok work_dir, w1) ->
  (compile_latex settings host tex_file assets_archive w).1 =
    match compile_body settings host tex_file assets_archive work_dir
            (PurePath.joinpath work_dir (latex_main_filename settings)) w1 with
    | (Ok a, _) => Ok a
    | (Raise e, _) => Raise (after_except e)
    end.
Proof.
  intros Hname Hdir. unfold compile_latex.
  unfold bind at 1. unfold lift at 1. rewrite Hname.
  rewrite (bind_ok _ _ _ _ _ Hdir). unfold try_finally, try_except.
  destruct (compile_body _ _ _ _ _ _ _) as [[a|e] w2]; [|rewrite except_clauses];
    match goal with
    | |- context [rmtree host work_dir true ?w0] =>
        destruct (rmtree_ignoring_errors work_dir w0) as (t' & -> & _)
    end; done.
Qed.

(** C7.  When the inputs were staged and the engine exits with code zero,
    the handler still looks for the PDF at the path of the main file with
    its suffix replaced by [".pdf"]; when nothing is there after the engine
    ran, the request ends with the 500 error "PDF output missing after
    compilation." instead of a response.  The path looked at is the main
    file's with the extension after its last dot replaced. *)
Theorem compile_latex_checks_pdf_exists (tex_file : UploadFile)
    (assets_archive : option UploadFile) (w : World) (work_dir : Path) (w1 w2 : World)
    (c : CompletedProcess) (t3 : FS) (pdf_path : Path) :
  ensure_tex_extension (filename tex_file) = Ok tt ->
  create_work_dir host w = (Ok work_dir, w1) ->
  let tex_path := PurePath.joinpath work_dir (latex_main_filename settings) in
  stage_inputs host tex_file assets_archive work_dir tex_path w1 = (Ok tt, w2) ->
  engine_outcome host work_dir (PurePath.name tex_path) settings (fs w2) = (Completed c, t3) ->
  returncode c = 0%Z ->
  PurePath.with_suffix tex_path ".pdf" = Ok pdf_path ->
  OS.stat t3 (PurePath.resolve pdf_path) = None ->
  (compile_latex settings host tex_file assets_archive w).1 =
    Raise (HTTPException 500 (DetailStr "PDF output missing after compilation.")) /\
  (forall stem ext : string,
     PurePath.name tex_path = stem +:+ "." +:+ ext ->
     stem <> "" -> ext <> "" -> Str.rfind "." ext = None ->
     pdf_path = PurePath.parent tex_path ++ [stem +:+ ".pdf"]).
Proof.
  intros Hname Hdir tex_path Hstage Hengine Hzero Hpdf Hmissing. split.
  - rewrite (compile_latex_outcome _ _ _ _ _ Hname Hdir). fold tex_path.
    unfold compile_body.
    rewrite (bind_ok _ _ _ _ _ Hstage).
    unfold bind at 1. rewrite run_latex_engine_outcome, Hengine. simpl.
    rewrite Hzero. simpl.
    unfold bind at 1. unfold lift at 1. rewrite Hpdf.
    unfold OS.exists_, bind, get_fs, ret, raise. simpl. by rewrite Hmissing.
  - intros stem ext Hn Hs He Hdot.
    rewrite (with_suffix_replaces_extension _ _ _ Hn Hs He Hdot) in Hpdf.
    by injection Hpdf.
Qed.

End HandlerFacts.

(** ** The path test and safe entries *)

Lemma startswith_nil (s : string) : Str.startswith s "" = true.
Proof. by destruct s. Qed.

Lemma startswith_app (a s pre : string) :
  Str.startswith (a +:+ s) (a +:+ pre) = Str.startswith s pre.
Proof.
  induction a as [|c a IH]; [done|].
  rewrite !StrFacts.app_cons. simpl. by rewrite Ascii.eqb_refl.
Qed.

Lemma str_nonroot (p : Path) :
  p <> [] -> PurePath.str p = fold_right (fun part acc => "/" +:+ part +:+ acc) "" p.
Proof. by destruct p. Qed.

Lemma render_startswith (d : Path) (tail : string) :
  Str.startswith (fold_right (fun part acc => "/" +:+ part +:+ acc) tail d)
                 (fold_right (fun part acc => "/" +:+ part +:+ acc) "" d) = true.
Proof.
  induction d as [|c d IH]; simpl; [apply startswith_nil|].
  by rewrite !StrFacts.app_nil, startswith_app.
Qed.

Lemma str_startswith_prefix (d k : Path) :
  Str.startswith (PurePath.str (d ++ k)) (PurePath.str d) = true.
Proof.
  destruct d as [|c d].
  - destruct k as [|c k]; [done|]. cbn.
    rewrite StrFacts.app_cons. cbn. apply startswith_nil.
  - rewrite !str_nonroot by done. rewrite fold_right_app. apply render_startswith.
Qed.

Lemma passes_check_prefix (target_dir : Path) (m : ZipInfo) (k : Path) :
  PurePath.resolve (PurePath.joinpath target_dir (zi_filename m))
    = PurePath.resolve target_dir ++ k ->
  passes_check target_dir m = true.
Proof. intros Hk. unfold passes_check. rewrite Hk. apply str_startswith_prefix. Qed.

(** A member whose destination lies strictly within the work directory
    passes the test of [extract_zip_safely]. *)
Lemma safe_entries_pass (work_dir : Path) (ms : list ZipInfo) :
  safe_entries work_dir ms -> forallb (passes_check work_dir) ms = true.
Proof.
  intros Hsafe. apply forallb_forall. intros m Hm.
  unfold safe_entries in Hsafe. rewrite Forall_forall in Hsafe.
  apply list_elem_of_In in Hm. destruct (Hsafe m Hm) as (rest & _ & E).
  by apply (passes_check_prefix _ _ rest).
Qed.

Lemma resolve_from_dotdots (p acc : Path) :
  Forall (eq "..") p ->
  (List.length (PurePath.resolve_from acc p) <= List.length acc)%nat.
Proof.
  revert acc. induction p as [|c p IH]; intros acc Hp; [done|].
  apply Forall_cons in Hp as [<- Hp]. cbn [PurePath.resolve_from].
  rewrite decide_True by done.
  etrans; [by apply IH|]. destruct acc as [|a acc _] using rev_ind; [done|].
  rewrite removelast_last, length_app. simpl. lia.
Qed.

(** Such a member has a name of its own left once [zipfile] has cleaned
    it: it is not written to the work directory itself. *)
Lemma safe_entry_arcname (work_dir : Path) (m : ZipInfo) :
  PurePath.strictly_within (PurePath.resolve work_dir)
    (PurePath.resolve (PurePath.joinpath work_dir (zi_filename m))) ->
  Zip.arcname m <> [].
Proof.
  intros (rest & Hrest & E) Harc.
  assert (Forall (eq "..") (PurePath.parse_parts (zi_filename m))) as Hdots.
  { apply Forall_forall. intros x Hx. unfold PurePath.parse_parts in Hx.
    apply list_elem_of_filter in Hx as [[N1 N2] Hx].
    destruct (decide (x = "..")) as [->|N3]; [done|].
    assert (x ∈ Zip.arcname m) as Hin.
    { unfold Zip.arcname. apply list_elem_of_filter. by split. }
    rewrite Harc in Hin. by apply elem_of_nil in Hin. }
  apply (f_equal (@List.length string)) in E. rewrite length_app in E.
  assert (List.length rest <> 0%nat) as Hlen by (by destruct rest).
  unfold PurePath.joinpath, PurePath.resolve in E.
  destruct (PurePath.is_absolute (zi_filename m)).
  - pose proof (resolve_from_dotdots _ [] Hdots) as Hle. simpl in Hle. lia.
  - rewrite PathFacts.resolve_from_app in E.
    pose proof (resolve_from_dotdots _ (PurePath.resolve_from [] work_dir) Hdots) as Hle.
    lia.
Qed.

(** ** Staging the inputs *)

Section StagingFacts.
Import TreeFacts MFacts OSFacts PathFacts ZipFacts ExtractFacts QuietFacts.

Variable settings : ServiceSettings.
Variable host : Host.

(** In a well-formed tree nothing lies below a path that does not exist,
    and every ancestor of a directory is a directory. *)
Lemma wf_nothing_below (t : FS) (d : Path) (k : Path) :
  wf_tree t -> OS.stat t d = None -> t !! (d ++ k) = None.
Proof.
  intros Hwf Hd. induction k as [|c k IH] using rev_ind.
  - rewrite app_nil_r. by apply stat_None in Hd as [_ Hd].
  - destruct (t !! (d ++ k ++ [c])) as [n|] eqn:E; [|done].
    apply Hwf in E. rewrite app_assoc, parent_snoc in E.
    rewrite stat_nonroot in E; [congruence|].
    apply stat_None in Hd as [Hd _]. by destruct d.
Qed.

Lemma wf_ancestors (t : FS) (d : Path) :
  wf_tree t -> OS.stat t d = Some Dir -> directory_in t d.
Proof.
  intros Hwf. induction d as [|c d IH] using rev_ind; intros Hd p Hp.
  - apply prefix_nil_inv in Hp as ->. done.
  - apply prefix_snoc in Hp as [Hp | ->]; [|done].
    apply IH; [|done].
    rewrite stat_nonroot in Hd by (by destruct d).
    apply Hwf in Hd. by rewrite parent_snoc in Hd.
Qed.

Lemma write_bytes_ok (p : Path) (data : bytes) (w : World) :
  OS.stat (fs w) (PurePath.resolve p) <> Some Dir ->
  OS.stat (fs w) (PurePath.parent (PurePath.resolve p)) = Some Dir ->
  OS.write_bytes p data w =
    (Ok tt, mkWorld (<[PurePath.resolve p := File data]> (fs w)) (trace w)).
Proof.
  intros Hq Hp. unfold OS.write_bytes.
  rewrite (bind_ok _ _ _ _ _ (open_wb_ok _ _ Hq Hp)), write_eq. simpl.
  by rewrite insert_insert_eq.
Qed.

Lemma joinpath_plain (base : Path) (s n : string) :
  PurePath.is_absolute s = false -> PurePath.parse_parts s = [n] ->
  PurePath.joinpath base s = base ++ [n].
Proof. intros Ha Hp. unfold PurePath.joinpath. by rewrite Ha, Hp. Qed.

Lemma resolve_snoc (p : Path) (n : string) :
  n <> ".." -> PurePath.resolve (p ++ [n]) = PurePath.resolve p ++ [n].
Proof.
  intros Hn. apply resolve_app_plain. intros H.
  apply list_elem_of_singleton in H. by apply Hn.
Qed.

Lemma snoc_ne (p : Path) (n : string) : p ++ [n] <> p.
Proof.
  intros H. apply (f_equal (@List.length string)) in H.
  rewrite length_app in H. simpl in H. lia.
Qed.

(** The tree of a fresh work directory [W] into which the main file and the
    archive were saved: [W] is a directory with its ancestors, and below it
    there is nothing but the two files. *)
Lemma staged_tree (t : FS) (W : Path) (main : string) (b1 b2 : bytes) :
  wf_tree t ->
  OS.stat t W = None ->
  OS.stat t (PurePath.parent W) = Some Dir ->
  let staged := <[W ++ ["assets.zip"] := File b2]> (<[W ++ [main] := File b1]> (<[W := Dir]> t)) in
  directory_in staged W /\
  (forall k, k <> [] -> W ++ k <> W ++ [main] -> W ++ k <> W ++ ["assets.zip"] ->
     OS.stat staged (W ++ k) = None) /\
  (exists d, staged !! (W ++ [main]) = Some (File d)) /\
  staged !! (W ++ ["assets.zip"]) = Some (File b2).
Proof.
  intros Hwf Hnew Hparent staged.
  assert (W <> []) as HW by (by apply stat_None in Hnew as [? _]).
  assert (forall p, p `prefix_of` W -> staged !! p = (<[W := Dir]> t) !! p) as Hup.
  { intros p Hp. unfold staged.
    assert (forall x : string, W ++ [x] <> p) as Hx.
    { intros x <-. by apply snoc_not_prefix in Hp. }
    by rewrite !lookup_insert_ne by apply Hx. }
  split; [|split; [|split]].
  - intros p Hp. destruct (decide (p = [])) as [->|Np]; [done|].
    rewrite stat_nonroot, (Hup p Hp) by done.
    destruct (decide (p = W)) as [->|NE]; [by rewrite lookup_insert_eq|].
    rewrite lookup_insert_ne by done. rewrite <- stat_nonroot by done.
    apply (wf_ancestors t (PurePath.parent W) Hwf Hparent).
    destruct (exists_last HW) as (W' & c & ->). rewrite parent_snoc.
    apply prefix_snoc in Hp as [Hp|Hp]; done.
  - intros k Hk H1 H2. rewrite stat_nonroot by (by destruct W).
    unfold staged. rewrite !lookup_insert_ne by done.
    rewrite lookup_insert_ne.
    + by apply wf_nothing_below.
    + intros E. apply Hk. by apply (app_inv_head W k []); rewrite app_nil_r.
  - unfold staged. destruct (decide (W ++ [main] = W ++ ["assets.zip"])) as [E|NE].
    + exists b2. by rewrite E, lookup_insert_eq.
    + exists b1. rewrite lookup_insert_ne by done. by rewrite lookup_insert_eq.
  - unfold staged. by rewrite lookup_insert_eq.
Qed.

Lemma bind_assoc {A B C} (m : M A) (k : A -> M B) (k' : B -> M C) (w : World) :
  bind (bind m k) k' w = bind m (fun a => bind (k a) k') w.
Proof. unfold bind. by destruct (m w) as [[a|e] w1]. Qed.

Lemma ensure_zip_is_valid_ok (p : Path) (w : World) (b : bytes) :
  OS.stat (fs w) (PurePath.resolve p) = Some (File b) ->
  zip_end_record host b = true ->
  ensure_zip_is_valid host p w = (Ok tt, w).
Proof.
  intros Hs He. unfold ensure_zip_is_valid, is_zipfile. mstep. by rewrite Hs, He.
Qed.

Lemma ZipFile_open_ok (p : Path) (w : World) (b : bytes) (ms : list ZipInfo) :
  OS.stat (fs w) (PurePath.resolve p) = Some (File b) ->
  zip_directory host b = Some ms ->
  ZipFile_open host p w =
    (Ok (mkZipFile (PurePath.resolve p) ms (zip_faults host b)), w).
Proof.
  intros Hs Hz. unfold ZipFile_open, OS.read_bytes. mstep. rewrite Hs. mstep.
  by rewrite Hz.
Qed.

Lemma unlink_ok (p : Path) (missing_ok : bool) (w : World) (b : bytes) :
  OS.stat (fs w) (PurePath.resolve p) = Some (File b) ->
  OS.unlink p missing_ok w =
    (Ok tt, mkWorld (delete (PurePath.resolve p) (fs w)) (trace w)).
Proof. intros Hs. unfold OS.unlink. mstep. by rewrite Hs. Qed.

Lemma makes_dir_prefix (path : Path) (m : ZipInfo) (q : Path) :
  makes_dir path m q -> q `prefix_of` PurePath.resolve path ++ Zip.arcname m.
Proof.
  rewrite <- targetpath_eq. intros [Hq | [-> _]]; [|done].
  etrans; [exact Hq | apply parent_prefix].
Qed.

Lemma staged_extractable (t : FS) (work_dir : Path) (main : string) (b1 b2 : bytes)
    (ms : list ZipInfo) :
  let W := PurePath.resolve work_dir in
  wf_tree t ->
  OS.stat t W = None ->
  OS.stat t (PurePath.parent W) = Some Dir ->
  safe_entries work_dir ms ->
  clean_archive work_dir main ms ->
  extractable
    (<[W ++ ["assets.zip"] := File b2]> (<[W ++ [main] := File b1]> (<[W := Dir]> t)))
    (W ++ ["assets.zip"]) work_dir ms.
Proof.
  intros W Hwf Hnew Hparent Hsafe (Hdisj & Hdirs & Hfiles).
  unfold safe_entries in Hsafe. rewrite Forall_forall in Hsafe.
  destruct (staged_tree t W main b1 b2 Hwf Hnew Hparent) as (Hdir & Hempty & Hmain & _).
  assert (W <> []) as HW by (by apply stat_None in Hnew as [? _]).
  split; [exact Hdir|]. split; [|split; [|exact Hdisj]].
  - intros q Hq. destruct (Hdirs q Hq) as [N1 N2].
    destruct Hq as (m & Hm & Hq). apply makes_dir_prefix in Hq.
    apply prefix_under in Hq as [Hq | (k & Hk & ->)].
    + right. by apply Hdir.
    + left. by apply Hempty.
  - intros q Hq. pose proof (Hfiles q Hq) as N1. split; [done|].
    destruct Hq as (m & Hm & -> & _). rewrite targetpath_eq in *. fold W in N1 |- *.
    destruct (decide (W ++ Zip.arcname m = W ++ [main])) as [E|NE].
    + right. destruct Hmain as [d Hd]. exists d. rewrite E.
      rewrite stat_nonroot by (by destruct W). done.
    + left. apply Hempty; [|done|done].
      by apply (safe_entry_arcname work_dir), Hsafe.
Qed.

(** With a clean archive, staging succeeds: the main file and the archive
    are saved, every member is extracted, and the saved archive is removed. *)
Lemma stage_inputs_with_archive (tex_file archive_upload : UploadFile) (c : ascii)
    (s main : string) (ms : list ZipInfo) (w : World) (work_dir : Path) (w1 : World) :
  wf_tree (fs w) ->
  create_work_dir host w = (Ok work_dir, w1) ->
  PurePath.is_absolute (latex_main_filename settings) = false ->
  PurePath.parse_parts (latex_main_filename settings) = [main] ->
  main <> ".." ->
  filename archive_upload = Some (String c s) ->
  zip_end_record host (body archive_upload) = true ->
  zip_directory host (body archive_upload) = Some ms ->
  readable (zip_faults host (body archive_upload)) work_dir ms ->
  safe_entries work_dir ms ->
  clean_archive work_dir main ms ->
  let W := PurePath.resolve work_dir in
  let staged :=
    <[W ++ ["assets.zip"] := File (body archive_upload)]>
      (<[W ++ [main] := File (body tex_file)]> (fs w1)) in
  exists t3,
    Zip.extract_members (W ++ ["assets.zip"]) (zip_faults host (body archive_upload))
      work_dir ms false (mkWorld staged (trace w1))
      = (Ok tt, mkWorld t3 (trace w1)) /\
    stage_inputs host tex_file (Some archive_upload) work_dir
      (PurePath.joinpath work_dir (latex_main_filename settings)) w1
      = (Ok tt, mkWorld (delete (W ++ ["assets.zip"]) t3) (trace w1)).
Proof.
  intros Hwf Hdir Habs Hparts Hmain Hname Hend Hzip Hread Hsafe Hclean W staged.
  apply create_work_dir_inv in Hdir as (_ & _ & Hfs & Hnew & Hparent).
  fold W in Hfs, Hnew, Hparent.
  assert (W <> []) as HW by (by apply stat_None in Hnew as [? _]).
  pose proof (staged_extractable (fs w) work_dir main (body tex_file) (body archive_upload)
                ms Hwf Hnew Hparent Hsafe Hclean) as Hext.
  fold W in Hext. rewrite <- Hfs in Hext. fold staged in Hext.
  destruct (extract_members_succeeds (W ++ ["assets.zip"])
              (zip_faults host (body archive_upload)) work_dir ms
              (mkWorld staged (trace w1)) Hext Hread) as (w3 & H3).
  pose proof (extract_members_effect _ _ _ _ _ _ _ _ H3) as [Htr Hfate]. simpl in Htr.
  exists (fs w3).
  assert (w3 = mkWorld (fs w3) (trace w1)) as Hw3 by (destruct w3; simpl in *; congruence).
  split; [by rewrite <- Hw3|].
  (* the main file *)
  unfold stage_inputs, save_upload_file.
  rewrite (joinpath_plain _ _ _ Habs Hparts).
  assert (PurePath.resolve (work_dir ++ [main]) = W ++ [main]) as Rmain
    by (by apply resolve_snoc).
  assert (PurePath.joinpath work_dir "assets.zip" = work_dir ++ ["assets.zip"]) as Jzip
    by reflexivity.
  assert (PurePath.resolve (work_dir ++ ["assets.zip"]) = W ++ ["assets.zip"]) as Rzip
    by (by apply resolve_snoc).
  assert (fs w1 !! W = Some Dir) as HWdir by (by rewrite Hfs, lookup_insert_eq).
  assert (forall x : string, fs w1 !! (W ++ [x]) = None) as Hfresh.
  { intros x. rewrite Hfs, lookup_insert_ne by (symmetry; apply snoc_ne).
    by apply wf_nothing_below. }
  assert (OS.write_bytes (work_dir ++ [main]) (body tex_file) w1 =
            (Ok tt, mkWorld (<[W ++ [main] := File (body tex_file)]> (fs w1)) (trace w1)))
    as Hsave1.
  { rewrite <- Rmain. apply write_bytes_ok.
    - rewrite Rmain, stat_nonroot by (by destruct W). by rewrite Hfresh.
    - rewrite Rmain, parent_snoc, stat_nonroot by done. done. }
  rewrite (bind_ok _ _ _ _ _ Hsave1).
  (* the archive *)
  unfold unpack_assets. rewrite Hname, Jzip. unfold save_upload_file.
  assert (OS.write_bytes (work_dir ++ ["assets.zip"]) (body archive_upload)
            (mkWorld (<[W ++ [main] := File (body tex_file)]> (fs w1)) (trace w1)) =
            (Ok tt, mkWorld staged (trace w1))) as Hsave2.
  { unfold staged. rewrite write_bytes_ok; [simpl; by rewrite Rzip| |].
    - rewrite Rzip, stat_nonroot by (by destruct W). simpl.
      destruct (decide (W ++ ["assets.zip"] = W ++ [main])) as [->|NE].
      + by rewrite lookup_insert_eq.
      + rewrite lookup_insert_ne by done. by rewrite Hfresh.
    - rewrite Rzip, parent_snoc, stat_nonroot by done. simpl.
      rewrite lookup_insert_ne by apply snoc_ne. done. }
  rewrite (bind_ok _ _ _ _ _ Hsave2).
  assert (OS.stat staged (W ++ ["assets.zip"]) = Some (File (body archive_upload))) as Hsaved.
  { rewrite stat_nonroot by (by destruct W). unfold staged. by rewrite lookup_insert_eq. }
  (* the archive is a ZIP file and is opened *)
  assert (OS.stat staged (PurePath.resolve (work_dir ++ ["assets.zip"]))
          = Some (File (body archive_upload))) as Hsaved'.
  { by rewrite Rzip. }
  rewrite (bind_ok _ _ _ _ _
             (ensure_zip_is_valid_ok _ (mkWorld staged (trace w1)) _ Hsaved' Hend)).
  unfold extract_zip_safely.
  rewrite bind_assoc.
  rewrite (bind_ok _ _ _ _ _
             (ZipFile_open_ok _ (mkWorld staged (trace w1)) _ _ Hsaved' Hzip)).
  rewrite bind_assoc. unfold bind at 1. rewrite check_members_spec.
  destruct Hclean as (_ & Hdirs & Hfiles). simpl zf_infolist.
  rewrite (safe_entries_pass _ _ Hsafe).
  unfold Zip.extractall. simpl zf_path. simpl zf_infolist. simpl zf_faults. rewrite Rzip.
  rewrite (bind_ok _ _ _ _ _ H3).
  (* the saved archive is still there, and is removed *)
  assert (fs w3 !! (W ++ ["assets.zip"]) = Some (File (body archive_upload))) as Hstill.
  { destruct (Hfate (W ++ ["assets.zip"])) as [E|Hd _ _|d Hf _ _].
    - rewrite E. simpl. unfold staged. by rewrite lookup_insert_eq.
    - by destruct (Hdirs _ Hd) as [_ ?].
    - by pose proof (Hfiles _ Hf). }
  rewrite (unlink_ok _ _ _ (body archive_upload)).
  - by rewrite Rzip, Htr.
  - rewrite Rzip, stat_nonroot by (by destruct W). done.
Qed.

End StagingFacts.

(** ** Requests with an archive *)

Section ArchiveFacts.
Import TreeFacts MFacts OSFacts PathFacts ZipFacts ExtractFacts QuietFacts.

Variable settings : ServiceSettings.
Variable host : Host.

Lemma winner_inv (path : Path) (ms : list ZipInfo) (q : Path) (m : ZipInfo) :
  Zip.winner path ms q = Some m ->
  m ∈ ms /\ Zip.is_dir m = false /\ Zip.targetpath path m = q.
Proof.
  induction ms as [|m0 ms IH]; simpl; [done|].
  destruct (Zip.winner path ms q) as [m'|].
  - intros [= <-]. destruct (IH eq_refl) as (? & ? & ?).
    split; [by apply list_elem_of_further|done].
  - destruct (Zip.is_dir m0) eqn:Hd; [done|].
    destruct (decide (Zip.targetpath path m0 = q)); [|done].
    intros [= <-]. split; [apply list_elem_of_here|done].
Qed.

Lemma winner_exists (path : Path) (ms : list ZipInfo) (m : ZipInfo) :
  m ∈ ms -> Zip.is_dir m = false ->
  exists m', Zip.winner path ms (Zip.targetpath path m) = Some m'.
Proof.
  induction ms as [|m0 ms IH]; intros Hm Hd; [by apply elem_of_nil in Hm|].
  simpl. destruct (Zip.winner path ms (Zip.targetpath path m)) as [m'|] eqn:W; [by exists m'|].
  apply elem_of_cons in Hm as [<-|Hm].
  - rewrite Hd, decide_True by done. by exists m.
  - destruct (IH Hm Hd) as [m' ?]. congruence.
Qed.

(** After staging, the [try] block starts the engine once, on the staged
    tree. *)
Lemma compile_body_after_stage (tex_file : UploadFile) (assets_archive : option UploadFile)
    (work_dir tex_path : Path) (w1 w2 : World) :
  stage_inputs host tex_file assets_archive work_dir tex_path w1 = (Ok tt, w2) ->
  trace (compile_body settings host tex_file assets_archive work_dir tex_path w1).2 =
    trace w2 ++ [EvRun (build_engine_command work_dir (PurePath.name tex_path) settings)
                   work_dir (fs w2)].
Proof.
  intros Hstage. unfold compile_body. rewrite (bind_ok _ _ _ _ _ Hstage).
  assert (quiet (let* pdf_path := lift (PurePath.with_suffix tex_path ".pdf") in
                 let* present := OS.exists_ pdf_path in
                 if negb present
                 then raise (HTTPException 500
                               (DetailStr "PDF output missing after compilation."))
                 else build_pdf_response pdf_path)) as Hq.
  { pose proof quiet_build_pdf_response. pose proof quiet_exists.
    apply quiet_bind; [apply quiet_lift|]. intros pdf_path.
    apply quiet_bind; [done|]. intros present.
    destruct (negb present); [apply quiet_raise|done]. }
  unfold bind at 1. rewrite run_latex_engine_outcome.
  destruct (engine_outcome _ _ _ _ _).1 as [c|cls];
    repeat (match goal with |- context [if ?b then _ else _] => destruct b end);
    cbv beta iota zeta; try reflexivity.
  match goal with
  | |- trace (?k ?w0).2 = _ =>
      destruct (k w0) as [r w'] eqn:E; apply Hq in E; simpl; by rewrite E
  end.
Qed.

(** The events of a request whose inputs were staged. *)
Lemma compile_latex_events_after_stage (tex_file : UploadFile)
    (assets_archive : option UploadFile) (w : World) (work_dir : Path) (w1 w2 : World) :
  ensure_tex_extension (filename tex_file) = Ok tt ->
  create_work_dir host w = (Ok work_dir, w1) ->
  let tex_path := PurePath.joinpath work_dir (latex_main_filename settings) in
  stage_inputs host tex_file assets_archive work_dir tex_path w1 = (Ok tt, w2) ->
  trace (compile_latex settings host tex_file assets_archive w).2 =
    trace w ++ [ EvMkdtemp work_dir;
                 EvRun (build_engine_command work_dir (PurePath.name tex_path) settings)
                   work_dir (fs w2);
                 EvRmtree work_dir ].
Proof.
  intros Hname Hdir tex_path Hstage.
  pose proof (compile_body_after_stage tex_file assets_archive work_dir tex_path w1 w2
                Hstage) as Hbody.
  pose proof (quiet_stage_inputs _ _ _ _ _ _ _ _ Hstage) as Hquiet.
  apply create_work_dir_inv in Hdir as Hinv. destruct Hinv as (_ & Hmk & _).
  unfold compile_latex. unfold bind at 1. unfold lift at 1. rewrite Hname.
  rewrite (bind_ok _ _ _ _ _ Hdir). fold tex_path.
  unfold try_finally, try_except.
  destruct (compile_body settings host tex_file assets_archive work_dir tex_path w1)
    as [[a|e] w3]; simpl in Hbody.
  - destruct (rmtree_ignoring_errors host work_dir w3) as (t' & -> & _). simpl.
    rewrite Hbody, Hquiet, Hmk. by rewrite <- !app_assoc.
  - rewrite except_clauses.
    destruct (rmtree_ignoring_errors host work_dir w3) as (t' & -> & _). simpl.
    rewrite Hbody, Hquiet, Hmk. by rewrite <- !app_assoc.
Qed.

Lemma arcname_of_plain_name (m : ZipInfo) (main : string) :
  PurePath.parse_parts (zi_filename m) = [main] -> main <> ".." ->
  Zip.arcname m = [main].
Proof.
  intros Hp Hn. unfold Zip.arcname.
  rewrite (list_filter_iff _ (fun x => x <> ".." /\ (x <> "" /\ x <> "."))) by tauto.
  rewrite <- (list_filter_filter (fun x => x <> "..") (fun x => x <> "" /\ x <> ".")).
  unfold PurePath.parse_parts in Hp. rewrite Hp.
  by rewrite filter_cons_True.
Qed.

Lemma name_snoc (p : Path) (n : string) : PurePath.name (p ++ [n]) = n.
Proof. unfold PurePath.name. apply last_last. Qed.

(** A request with a clean archive: the members are extracted from the
    staged tree, and the engine is started on what the extraction left,
    less the saved archive. *)
Lemma compile_latex_with_clean_archive (tex_file archive_upload : UploadFile) (c : ascii)
    (s main : string) (ms : list ZipInfo) (w : World) (work_dir : Path) (w1 : World) :
  wf_tree (fs w) ->
  ensure_tex_extension (filename tex_file) = Ok tt ->
  create_work_dir host w = (Ok work_dir, w1) ->
  PurePath.is_absolute (latex_main_filename settings) = false ->
  PurePath.parse_parts (latex_main_filename settings) = [main] ->
  main <> ".." ->
  filename archive_upload = Some (String c s) ->
  zip_end_record host (body archive_upload) = true ->
  zip_directory host (body archive_upload) = Some ms ->
  readable (zip_faults host (body archive_upload)) work_dir ms ->
  safe_entries work_dir ms ->
  clean_archive work_dir main ms ->
  let W := PurePath.resolve work_dir in
  let staged :=
    <[W ++ ["assets.zip"] := File (body archive_upload)]>
      (<[W ++ [main] := File (body tex_file)]> (fs w1)) in
  exists t3,
    Zip.extract_members (W ++ ["assets.zip"]) (zip_faults host (body archive_upload))
      work_dir ms false (mkWorld staged (trace w1))
      = (Ok tt, mkWorld t3 (trace w1)) /\
    trace (compile_latex settings host tex_file (Some archive_upload) w).2 =
      trace w ++ [ EvMkdtemp work_dir;
                   EvRun (build_engine_command work_dir main settings) work_dir
                     (delete (W ++ ["assets.zip"]) t3);
                   EvRmtree work_dir ].
Proof.
  intros Hwf Hname Hdir Habs Hparts Hmain Hfile Hend Hzip Hread Hsafe Hclean W staged.
  destruct (stage_inputs_with_archive settings host tex_file archive_upload c s main ms
              w work_dir w1 Hwf Hdir Habs Hparts Hmain Hfile Hend Hzip Hread Hsafe Hclean)
    as (t3 & H3 & Hstage).
  exists t3. split; [exact H3|].
  rewrite (compile_latex_events_after_stage tex_file (Some archive_upload) w work_dir w1
             _ Hname Hdir Hstage).
  rewrite (joinpath_plain _ _ _ Habs Hparts), name_snoc. done.
Qed.



End ArchiveFacts.

(** ** Sample runs *)

Lemma compile_latex_rejects_non_tex_name_witness :
  (forall s, filename (mkUpload (Some "paper.pdf") (Sample.text "uploaded")) = Some s ->
     ~ Str.ends_with_ignoring_case s ".tex") /\
  compile_latex Sample.settings Sample.host
    (mkUpload (Some "paper.pdf") (Sample.text "uploaded")) None Sample.world0 =
    (Raise (HTTPException 400 (DetailStr "Uploaded file must have a .tex extension.")),
     Sample.world0).
Proof.
  assert (forall s, filename (mkUpload (Some "paper.pdf") (Sample.text "uploaded")) = Some s ->
            ~ Str.ends_with_ignoring_case s ".tex") as H.
  { intros s [= <-] Hc. apply StrFacts.endswith_lower_spec in Hc; [discriminate Hc | reflexivity]. }
  split; [exact H|].
  exact (compile_latex_rejects_non_tex_name Sample.settings Sample.host _ None
           Sample.world0 H).
Defined.

Lemma run_latex_engine_nonzero_exit_witness :
  let host := Sample.host_with Sample.engine_failing in
  let w := Sample.staged "figures" in
  let c := mkCompleted 1 Sample.failing_stdout Sample.failing_stderr in
  engine_outcome host Sample.work_dir "main.tex" Sample.settings (fs w)
    = (Completed c, <[Sample.work_dir ++ ["main.log"] := File (Sample.text "log")]> (fs w)) /\
  returncode c <> 0%Z /\
  exists out err w',
    run_latex_engine host Sample.work_dir "main.tex" Sample.settings w =
      (Raise (HTTPException 400
         (DetailDict [ ("message", UStr.of_string "LaTeX compilation failed.");
                       ("stdout", out); ("stderr", err) ])), w')
    /\ UStr.trimmed_of (stdout c) out
    /\ UStr.trimmed_of (stderr c) err.
Proof.
  intros host w c.
  assert (returncode c <> 0%Z) as Hc by (simpl; lia).
  split; [reflexivity|]. split; [exact Hc|].
  exact (run_latex_engine_nonzero_exit host Sample.work_dir "main.tex" Sample.settings
           w c _ eq_refl Hc).
Defined.

Lemma run_latex_engine_not_found_and_timeout_witness :
  (run_latex_engine (Sample.host_with Sample.engine_missing) Sample.work_dir "main.tex"
     Sample.settings (Sample.staged "figures")).1 =
    Raise (HTTPException 500 (DetailStr "LaTeX engine executable not found.")) /\
  (run_latex_engine (Sample.host_with Sample.engine_slow) Sample.work_dir "main.tex"
     Sample.settings (Sample.staged "figures")).1 =
    Raise (HTTPException 504 (DetailStr "LaTeX compilation timed out.")).
Proof.
  split.
  - exact (proj1 (run_latex_engine_not_found_and_timeout
                    (Sample.host_with Sample.engine_missing) Sample.work_dir "main.tex"
                    Sample.settings (Sample.staged "figures")) _ eq_refl).
  - exact (proj1 (proj2 (run_latex_engine_not_found_and_timeout
                    (Sample.host_with Sample.engine_slow) Sample.work_dir "main.tex"
                    Sample.settings (Sample.staged "figures"))) _ eq_refl).
Defined.


Lemma compile_latex_checks_pdf_exists_witness :
  let host := Sample.host_with Sample.engine_silent in
  let w1 := mkWorld (<[Sample.work_dir := Dir]> Sample.tree0)
              [EvMkdtemp Sample.work_dir] in
  let w2 := mkWorld (<[Sample.work_dir ++ ["main.tex"] := File (Sample.text "uploaded")]>
                       (fs w1)) (trace w1) in
  let tex_path := PurePath.joinpath Sample.work_dir (latex_main_filename Sample.settings) in
  ensure_tex_extension (filename Sample.tex_upload) = Ok tt /\
  create_work_dir host Sample.world0 = (Ok Sample.work_dir, w1) /\
  stage_inputs host Sample.tex_upload None Sample.work_dir tex_path w1 = (Ok tt, w2) /\
  engine_outcome host Sample.work_dir (PurePath.name tex_path) Sample.settings (fs w2)
    = (Completed (mkCompleted 0 [] []), fs w2) /\
  PurePath.with_suffix tex_path ".pdf" = Ok (Sample.work_dir ++ ["main.pdf"]) /\
  OS.stat (fs w2) (PurePath.resolve (Sample.work_dir ++ ["main.pdf"])) = None /\
  (compile_latex Sample.settings host Sample.tex_upload None Sample.world0).1 =
    Raise (HTTPException 500 (DetailStr "PDF output missing after compilation.")).
Proof.
  intros host w1 w2 tex_path.
  assert (ensure_tex_extension (filename Sample.tex_upload) = Ok tt) as H1
    by reflexivity.
  assert (create_work_dir host Sample.world0 = (Ok Sample.work_dir, w1)) as H2
    by reflexivity.
  assert (stage_inputs host Sample.tex_upload None Sample.work_dir tex_path w1
          = (Ok tt, w2)) as H3 by reflexivity.
  assert (engine_outcome host Sample.work_dir (PurePath.name tex_path) Sample.settings
            (fs w2) = (Completed (mkCompleted 0 [] []), fs w2)) as H4 by reflexivity.
  assert (PurePath.with_suffix tex_path ".pdf" = Ok (Sample.work_dir ++ ["main.pdf"]))
    as H5 by reflexivity.
  assert (OS.stat (fs w2) (PurePath.resolve (Sample.work_dir ++ ["main.pdf"])) = None)
    as H6 by reflexivity.
  repeat (split; [assumption|]).
  exact (proj1 (compile_latex_checks_pdf_exists Sample.settings host Sample.tex_upload
                  None Sample.world0 Sample.work_dir w1 w2 (mkCompleted 0 [] []) (fs w2)
                  (Sample.work_dir ++ ["main.pdf"]) H1 H2 H3 H4 eq_refl H5 H6)).
Defined.

(** ** Sample runs with an archive *)

Lemma clean_archive_check_sound (work_dir : Path) (main : string) (ms : list ZipInfo) :
  clean_archive_check work_dir main ms -> clean_archive work_dir main ms.
Proof.
  intros (Hfiles & Hmain & Hzip). rewrite Forall_forall in Hfiles.
  assert (forall q, needs_dir work_dir ms q <->
                    Exists (fun m => makes_dir work_dir m q) ms) as Hnd.
  { intros q. unfold needs_dir. by rewrite Exists_exists. }
  split; [|split].
  - intros q Hd (m & Hm & -> & Hf). destruct (Hfiles m Hm Hf) as [N _].
    by apply N, Hnd.
  - intros q Hd. apply Hnd in Hd. split; by intros ->.
  - intros q (m & Hm & -> & Hf). by destruct (Hfiles m Hm Hf) as [_ ?].
Qed.

Lemma sample_tree_wf : wf_tree Sample.tree0.
Proof.
  intros q n H. unfold Sample.tree0 in H.
  apply lookup_singleton_Some in H as [<- _]. reflexivity.
Qed.

Lemma sample_figures_clean :
  clean_archive Sample.work_dir "main.tex"
    [ mkZipInfo "fig/" []; mkZipInfo "fig/a.png" (Sample.text "PNG");
      mkZipInfo "refs.bib" (Sample.text "@book") ].
Proof.
  apply clean_archive_check_sound. apply (bool_decide_unpack _). vm_compute. exact I.
Qed.

Lemma sample_main_clean :
  clean_archive Sample.work_dir "main.tex"
    [ mkZipInfo "main.tex" (Sample.text "from the archive") ].
Proof.
  apply clean_archive_check_sound. apply (bool_decide_unpack _). vm_compute. exact I.
Qed.

Lemma sample_figures_safe :
  safe_entries Sample.work_dir
    [ mkZipInfo "fig/" []; mkZipInfo "fig/a.png" (Sample.text "PNG");
      mkZipInfo "refs.bib" (Sample.text "@book") ].
Proof.
  repeat constructor;
    [by exists ["fig"] | by exists ["fig"; "a.png"] | by exists ["refs.bib"]].
Qed.

Lemma sample_main_safe :
  safe_entries Sample.work_dir
    [ mkZipInfo "main.tex" (Sample.text "from the archive") ].
Proof. repeat constructor. by exists ["main.tex"]. Qed.

Lemma no_faults_readable (path : Path) (ms : list ZipInfo) : readable no_faults path ms.
Proof. by intros m _. Qed.





(** * Further properties *)

(** ** Saving and answering *)

Section FileFacts.
Import TreeFacts MFacts OSFacts PathFacts ZipFacts ExtractFacts QuietFacts.

(** X1.  When [save_upload_file] returns normally, reading the destination
    gives back exactly the uploaded bytes, no event has been recorded, and
    no other path of the tree has changed. *)
Theorem save_upload_file_round_trip (upload : UploadFile) (destination : Path)
    (w w' : World) :
  save_upload_file upload destination w = (Ok tt, w') ->
  OS.read_bytes destination w' = (Ok (body upload), w') /\
  trace w' = trace w /\
  forall q : Path, q <> PurePath.resolve destination -> fs w' !! q = fs w !! q.
Proof.
  unfold save_upload_file, OS.write_bytes. intros H.
  destruct (OS.open_wb destination w) as [[[]|e] w1] eqn:Hopen.
  - rewrite (bind_ok _ _ _ _ _ Hopen), write_eq in H. injection H as <-.
    apply open_wb_effect in Hopen as [[Htr Hfate] Hfile].
    specialize (Hfile eq_refl). apply stat_file_nonroot in Hfile as [Hroot Hfile].
    split; [|split].
    + unfold OS.read_bytes. mstep. simpl. rewrite stat_nonroot by done.
      by rewrite lookup_insert_eq.
    + done.
    + intros q Hq. simpl. rewrite lookup_insert_ne by done.
      destruct (Hfate q) as [E|[] _ _|d <- _ _]; done.
  - by rewrite (bind_raise _ _ _ _ _ Hopen) in H.
Qed.

(** [build_pdf_response] changes nothing; it answers with the bytes of the
    file at the path, and raises when a directory or nothing is there. *)
Lemma build_pdf_response_outcome (pdf_path : Path) (w : World) :
  build_pdf_response pdf_path w =
    (match OS.stat (fs w) (PurePath.resolve pdf_path) with
     | Some (File pdf_bytes) =>
         Ok (mkResponse pdf_bytes "application/pdf"
               [("Content-Disposition",
                 "attachment; filename=" +:+ dquote +:+ PurePath.name pdf_path +:+ dquote)])
     | Some Dir => Raise (PyError "IsADirectoryError")
     | None => Raise (PyError "FileNotFoundError")
     end, w).
Proof.
  unfold build_pdf_response, OS.read_bytes. mstep.
  by destruct (OS.stat (fs w) (PurePath.resolve pdf_path)) as [[b|]|].
Qed.

End FileFacts.

(** ** More about the archive sanitizer *)

Section MoreSanitizerFacts.
Import TreeFacts MFacts OSFacts PathFacts ZipFacts ExtractFacts QuietFacts.

Variable host : Host.

(** X2.  All or nothing: when the archive can be opened and one of its
    members fails the test of [extract_zip_safely], the call raises the 400
    error "Archive contains unsafe paths." and the world is exactly as
    before: no member, not even one listed before the failing one, has been
    written. *)
Theorem extract_zip_safely_all_or_nothing (zip_path target_dir : Path) (w : World)
    (archive : ZipFile) (m : ZipInfo) :
  ZipFile_open host zip_path w = (Ok archive, w) ->
  m ∈ zf_infolist archive ->
  passes_check target_dir m = false ->
  extract_zip_safely host zip_path target_dir w =
    (Raise (HTTPException 400 (DetailStr "Archive contains unsafe paths.")), w).
Proof.
  intros Hopen Hm Hbad. apply (extract_zip_safely_rejects host _ _ _ archive Hopen).
  apply not_true_is_false. intros Hall. rewrite forallb_forall in Hall.
  apply list_elem_of_In in Hm. apply Hall in Hm. congruence.
Qed.

(** X3.  No false alarm: a member whose resolved destination is the
    resolved target directory or lies below it, part by part, passes the
    test of [extract_zip_safely]; so an archive all of whose members resolve
    inside the target directory is never refused as unsafe. *)
Theorem extract_zip_safely_accepts_inside (zip_path target_dir : Path) (w : World)
    (archive : ZipFile) :
  ZipFile_open host zip_path w = (Ok archive, w) ->
  Forall (fun m => PurePath.resolve target_dir `prefix_of`
                     PurePath.resolve (PurePath.joinpath target_dir (zi_filename m)))
         (zf_infolist archive) ->
  Forall (fun m => passes_check target_dir m = true) (zf_infolist archive) /\
  extract_zip_safely host zip_path target_dir w = Zip.extractall archive target_dir w.
Proof.
  intros Hopen Hin.
  assert (Forall (fun m => passes_check target_dir m = true) (zf_infolist archive)) as Hall.
  { eapply Forall_impl; [exact Hin|]. intros m [k Hk]. by eapply passes_check_prefix. }
  split; [exact Hall|].
  unfold extract_zip_safely. rewrite (bind_ok _ _ _ _ _ Hopen).
  unfold bind at 1. rewrite check_members_spec.
  assert (forallb (passes_check target_dir) (zf_infolist archive) = true) as ->; [|done].
  apply forallb_forall. intros m Hm. rewrite Forall_forall in Hall.
  apply Hall. by apply list_elem_of_In.
Qed.

Lemma filter_without_dotdot (l : list string) :
  ".." ∉ l ->
  filter (fun x => x <> "" /\ x <> "." /\ x <> "..") l =
  filter (fun x => x <> "" /\ x <> ".") l.
Proof.
  induction l as [|x l IH]; [done|]. intros H.
  apply not_elem_of_cons in H as [Hx Hl].
  assert (x <> "..") as Hx' by (by intros ->).
  rewrite !filter_cons, (IH Hl).
  destruct (decide (x <> "" /\ x <> "." /\ x <> "..")) as [Y|N];
    destruct (decide (x <> "" /\ x <> ".")) as [Y'|N']; try done; tauto.
Qed.

(** X4.  For a member whose name is relative and has no [".."] part, the
    path that [extract_zip_safely] tests is the very path [extractall]
    writes, and the member passes the test. *)
Theorem plain_member_checked_where_written (target_dir : Path) (m : ZipInfo) :
  PurePath.is_absolute (zi_filename m) = false ->
  ".." ∉ Str.split "/" (zi_filename m) ->
  PurePath.resolve (PurePath.joinpath target_dir (zi_filename m))
    = Zip.targetpath target_dir m /\
  passes_check target_dir m = true.
Proof.
  intros Hrel Hplain.
  assert (PurePath.resolve (PurePath.joinpath target_dir (zi_filename m))
          = Zip.targetpath target_dir m) as E.
  { unfold PurePath.joinpath, Zip.targetpath, Zip.arcname, PurePath.parse_parts.
    by rewrite Hrel, filter_without_dotdot. }
  split; [exact E|].
  apply (passes_check_prefix _ _ (Zip.arcname m)). rewrite E. apply targetpath_eq.
Qed.

End MoreSanitizerFacts.

(** ** More about the engine invoker *)

Section MoreEngineFacts.
Import TreeFacts MFacts OSFacts PathFacts ZipFacts ExtractFacts QuietFacts.

Variable host : Host.
Variables (work_dir : Path) (tex_filename : string).
Variable current_settings : ServiceSettings.

(** X5.  When the engine exits with code zero [run_latex_engine] returns
    normally, leaving the tree the engine left and one event, the start of
    the command; and an exception of [subprocess.run] other than
    [FileNotFoundError] and [TimeoutExpired] is raised again as it is. *)
Theorem run_latex_engine_success_and_other_errors (w : World) :
  let after (t' : FS) :=
    mkWorld t' (trace w ++ [EvRun (build_engine_command work_dir tex_filename
                                     current_settings) work_dir (fs w)]) in
  (forall c t',
     engine_outcome host work_dir tex_filename current_settings (fs w) = (Completed c, t') ->
     returncode c = 0%Z ->
     run_latex_engine host work_dir tex_filename current_settings w = (Ok tt, after t')) /\
  (forall cls t',
     engine_outcome host work_dir tex_filename current_settings (fs w) = (Raised cls, t') ->
     cls <> "FileNotFoundError" -> cls <> "TimeoutExpired" ->
     run_latex_engine host work_dir tex_filename current_settings w
       = (Raise (PyError cls), after t')).
Proof.
  intros after. split.
  - intros c t' H Hz. rewrite run_latex_engine_outcome, H. simpl. by rewrite Hz.
  - intros cls t' H N1 N2. rewrite run_latex_engine_outcome, H. simpl.
    destruct (String.eqb_spec cls "FileNotFoundError"); [done|].
    by destruct (String.eqb_spec cls "TimeoutExpired").
Qed.

(** X6.  The engine is spawned with the command of [build_engine_command],
    in the work directory, with the configured time limit, and with the
    environment of the process in which [TECTONIC_CACHE_DIR] is set to the
    configured cache directory unless the process environment already sets
    it, in which case its value is kept; every other variable is passed on
    unchanged. *)
Theorem run_latex_engine_environment (w : World) :
  exists env : gmap string string,
    env !! "TECTONIC_CACHE_DIR" =
      Some (default (PurePath.str (tectonic_cache_dir current_settings))
                    (os_environ host !! "TECTONIC_CACHE_DIR")) /\
    (forall k : string, k <> "TECTONIC_CACHE_DIR" -> env !! k = os_environ host !! k) /\
    let answer :=
      spawn host (build_engine_command work_dir tex_filename current_settings) work_dir
        env (latex_timeout_seconds current_settings) (fs w) in
    fs (run_latex_engine host work_dir tex_filename current_settings w).2 = answer.2 /\
    ((run_latex_engine host work_dir tex_filename current_settings w).1 = Ok tt <->
     exists c, answer.1 = Completed c /\ returncode c = 0%Z).
Proof.
  exists (setdefault "TECTONIC_CACHE_DIR"
            (PurePath.str (tectonic_cache_dir current_settings)) (os_environ host)).
  split; [|split].
  - unfold setdefault. destruct (os_environ host !! "TECTONIC_CACHE_DIR") as [v|] eqn:E.
    + by rewrite E.
    + by rewrite lookup_insert_eq.
  - intros k Hk. unfold setdefault.
    destruct (os_environ host !! "TECTONIC_CACHE_DIR"); [done|].
    by rewrite lookup_insert_ne.
  - rewrite run_latex_engine_outcome. unfold engine_outcome.
    destruct (spawn host _ _ _ _ _) as [[c|cls] t']; simpl.
    + destruct (Z.eqb_spec (returncode c) 0) as [Hz|Hnz]; simpl.
      * split; [done|]. split; [by exists c|done].
      * split; [done|]. split; [done|]. intros (c' & [= <-] & ?). done.
    + split.
      * destruct (String.eqb cls "FileNotFoundError"); [done|].
        by destruct (String.eqb cls "TimeoutExpired").
      * split; [|by intros (c' & ? & _)].
        destruct (String.eqb cls "FileNotFoundError"); [done|].
        by destruct (String.eqb cls "TimeoutExpired").
Qed.

End MoreEngineFacts.

(** ** More about the request handler *)

Section MoreHandlerFacts.
Import TreeFacts MFacts OSFacts PathFacts ZipFacts ExtractFacts QuietFacts.

Variable settings : ServiceSettings.
Variable host : Host.

(** In a fresh work directory the main file is saved under the configured
    name. *)
Lemma save_main_file (tex_file : UploadFile) (main : string) (w : World)
    (work_dir : Path) (w1 : World) :
  wf_tree (fs w) ->
  create_work_dir host w = (Ok work_dir, w1) ->
  PurePath.is_absolute (latex_main_filename settings) = false ->
  PurePath.parse_parts (latex_main_filename settings) = [main] ->
  main <> ".." ->
  save_upload_file tex_file (PurePath.joinpath work_dir (latex_main_filename settings)) w1 =
    (Ok tt, mkWorld (<[PurePath.resolve work_dir ++ [main] := File (body tex_file)]> (fs w1))
              (trace w1)).
Proof.
  intros Hwf Hdir Habs Hparts Hmain.
  apply create_work_dir_inv in Hdir as (_ & _ & Hfs & Hnew & Hparent).
  set (W := PurePath.resolve work_dir) in *.
  assert (W <> []) as HW by (by apply stat_None in Hnew as [? _]).
  unfold save_upload_file. rewrite (joinpath_plain _ _ _ Habs Hparts).
  assert (PurePath.resolve (work_dir ++ [main]) = W ++ [main]) as Rmain
    by (by apply resolve_snoc).
  rewrite <- Rmain. apply write_bytes_ok.
  - rewrite Rmain, stat_nonroot by (by destruct W).
    rewrite Hfs, lookup_insert_ne by (symmetry; apply snoc_ne).
    by rewrite wf_nothing_below.
  - rewrite Rmain, parent_snoc, stat_nonroot by done.
    by rewrite Hfs, lookup_insert_eq.
Qed.

(** A request without an archive, or with one whose file name is absent or
    empty, stages the main file only. *)
Lemma stage_inputs_without_archive (tex_file : UploadFile)
    (assets_archive : option UploadFile) (main : string) (w : World)
    (work_dir : Path) (w1 : World) :
  wf_tree (fs w) ->
  create_work_dir host w = (Ok work_dir, w1) ->
  PurePath.is_absolute (latex_main_filename settings) = false ->
  PurePath.parse_parts (latex_main_filename settings) = [main] ->
  main <> ".." ->
  match assets_archive with
  | Some a => filename a = None \/ filename a = Some ""
  | None => True
  end ->
  stage_inputs host tex_file assets_archive work_dir
    (PurePath.joinpath work_dir (latex_main_filename settings)) w1 =
    (Ok tt, mkWorld (<[PurePath.resolve work_dir ++ [main] := File (body tex_file)]> (fs w1))
              (trace w1)).
Proof.
  intros Hwf Hdir Habs Hparts Hmain Hnone. unfold stage_inputs.
  rewrite (bind_ok _ _ _ _ _
             (save_main_file tex_file main w work_dir w1 Hwf Hdir Habs Hparts Hmain)).
  unfold unpack_assets. destruct assets_archive as [a|]; [|done].
  by destruct Hnone as [-> | ->].
Qed.

(** With an archive, both uploads are saved, and the rest of the staging
    runs on the tree that holds them. *)
Lemma stage_inputs_saves_both (tex_file archive_upload : UploadFile) (c : ascii)
    (s main : string) (w : World) (work_dir : Path) (w1 : World) :
  wf_tree (fs w) ->
  create_work_dir host w = (Ok work_dir, w1) ->
  PurePath.is_absolute (latex_main_filename settings) = false ->
  PurePath.parse_parts (latex_main_filename settings) = [main] ->
  main <> ".." ->
  filename archive_upload = Some (String c s) ->
  let W := PurePath.resolve work_dir in
  let saved :=
    mkWorld (<[W ++ ["assets.zip"] := File (body archive_upload)]>
               (<[W ++ [main] := File (body tex_file)]> (fs w1))) (trace w1) in
  OS.stat (fs saved) (PurePath.resolve (work_dir ++ ["assets.zip"]))
    = Some (File (body archive_upload)) /\
  stage_inputs host tex_file (Some archive_upload) work_dir
    (PurePath.joinpath work_dir (latex_main_filename settings)) w1 =
    (ensure_zip_is_valid host (work_dir ++ ["assets.zip"]) ;;;
     extract_zip_safely host (work_dir ++ ["assets.zip"]) work_dir ;;;
     OS.unlink (work_dir ++ ["assets.zip"]) true) saved.
Proof.
  intros Hwf Hdir Habs Hparts Hmain Hname W saved.
  pose proof (save_main_file tex_file main w work_dir w1 Hwf Hdir Habs Hparts Hmain) as Hsave1.
  apply create_work_dir_inv in Hdir as (_ & _ & Hfs & Hnew & Hparent).
  fold W in Hfs, Hnew, Hparent, Hsave1.
  assert (W <> []) as HW by (by apply stat_None in Hnew as [? _]).
  assert (PurePath.resolve (work_dir ++ ["assets.zip"]) = W ++ ["assets.zip"]) as Rzip
    by (by apply resolve_snoc).
  split.
  { rewrite Rzip, stat_nonroot by (by destruct W). unfold saved. simpl.
    by rewrite lookup_insert_eq. }
  unfold stage_inputs. rewrite (bind_ok _ _ _ _ _ Hsave1).
  unfold unpack_assets. rewrite Hname.
  change (PurePath.joinpath work_dir "assets.zip") with (work_dir ++ ["assets.zip"]).
  unfold save_upload_file.
  assert (OS.write_bytes (work_dir ++ ["assets.zip"]) (body archive_upload)
            (mkWorld (<[W ++ [main] := File (body tex_file)]> (fs w1)) (trace w1)) =
            (Ok tt, saved)) as Hsave2.
  { unfold saved. rewrite write_bytes_ok; [simpl; by rewrite Rzip| |].
    - rewrite Rzip, stat_nonroot by (by destruct W). simpl.
      destruct (decide (W ++ ["assets.zip"] = W ++ [main])) as [->|NE].
      + by rewrite lookup_insert_eq.
      + rewrite lookup_insert_ne by done.
        rewrite Hfs, lookup_insert_ne by (symmetry; apply snoc_ne).
        by rewrite wf_nothing_below.
    - rewrite Rzip, parent_snoc, stat_nonroot by done. simpl.
      rewrite lookup_insert_ne by apply snoc_ne. by rewrite Hfs, lookup_insert_eq. }
  by rewrite (bind_ok _ _ _ _ _ Hsave2).
Qed.

(** A request whose staging fails: the engine is never started, the work
    directory is removed, and the error of the staging is answered as the
    [except] clauses leave it: as it is when it is an [HTTPException] or
    not an [Exception], and as the 500 error "Unexpected error during
    compilation." otherwise. *)
Lemma compile_latex_when_stage_fails (tex_file : UploadFile)
    (assets_archive : option UploadFile) (w : World) (work_dir : Path) (w1 w2 : World)
    (e : exn) :
  ensure_tex_extension (filename tex_file) = Ok tt ->
  create_work_dir host w = (Ok work_dir, w1) ->
  stage_inputs host tex_file assets_archive work_dir
    (PurePath.joinpath work_dir (latex_main_filename settings)) w1 = (Raise e, w2) ->
  compile_latex settings host tex_file assets_archive w =
    (Raise (after_except e), (rmtree host work_dir true w2).2) /\
  trace (compile_latex settings host tex_file assets_archive w).2 =
    trace w ++ [EvMkdtemp work_dir; EvRmtree work_dir].
Proof.
  intros Hname Hdir Hstage.
  pose proof (quiet_stage_inputs _ _ _ _ _ _ _ _ Hstage) as Hquiet.
  apply create_work_dir_inv in Hdir as Hinv. destruct Hinv as (_ & Hmk & _).
  assert (compile_latex settings host tex_file assets_archive w =
          (Raise (after_except e), (rmtree host work_dir true w2).2)) as E.
  { unfold compile_latex. unfold bind at 1. unfold lift at 1. rewrite Hname.
    rewrite (bind_ok _ _ _ _ _ Hdir). unfold try_finally, try_except, compile_body.
    rewrite (bind_raise _ _ _ _ _ Hstage).
    destruct (rmtree_ignoring_errors host work_dir w2) as (t' & Hrm & _).
    rewrite except_clauses. by rewrite Hrm. }
  split; [exact E|]. rewrite E. simpl.
  destruct (rmtree_ignoring_errors host work_dir w2) as (t' & -> & _). simpl.
  rewrite Hquiet, Hmk. by rewrite <- app_assoc.
Qed.

End MoreHandlerFacts.

(** ** Name validation and the work directory *)

Section EntryFacts.
Import TreeFacts MFacts OSFacts PathFacts ZipFacts ExtractFacts QuietFacts.

Variable host : Host.

(** X7.  [ensure_tex_extension] accepts exactly the names that are present
    and end in [".tex"] compared case-insensitively, whatever comes before
    the suffix; every other name gets the 400 error. *)
Theorem ensure_tex_extension_accepts_exactly (name : option string) :
  (ensure_tex_extension name = Ok tt <->
   exists s, name = Some s /\ Str.ends_with_ignoring_case s ".tex") /\
  (ensure_tex_extension name = Ok tt \/
   ensure_tex_extension name =
     Raise (HTTPException 400 (DetailStr "Uploaded file must have a .tex extension."))).
Proof.
  split; [split|].
  - destruct name as [s|]; [|done]. intros H. exists s. split; [done|].
    unfold ensure_tex_extension in H.
    destruct (String.eqb s ""); [done|].
    destruct (Str.endswith (Str.lower s) ".tex") eqn:E; [|done].
    by apply StrFacts.endswith_lower_spec in E.
  - intros (s & -> & H). by apply ensure_tex_extension_accepts.
  - unfold ensure_tex_extension. destruct name as [s|]; [|by right].
    destruct (_ || _); [by right | by left].
Qed.

(** A failed [create_work_dir] raises an exception of the library and
    leaves the world as it was. *)
Lemma create_work_dir_raises (w : World) (e : exn) (w1 : World) :
  create_work_dir host w = (Raise e, w1) -> w1 = w /\ python_error e.
Proof.
  unfold create_work_dir, mkdtemp, OS.mkdir, OS.mkdir_at, OS.need_parent_dir. mstep.
  destruct (OS.stat (fs w) _) as [n|]; [by intros [= <- <-]|].
  destruct (OS.stat (fs w) _) as [[d|]|]; by intros [= <- <-].
Qed.

(** X8.  The work directory [create_work_dir] returns is new: it is an entry
    of the temporary directory whose name starts with ["latexwork_"], nothing
    was at its path before, it is a directory afterwards, and no other path
    of the tree has changed. *)
Theorem create_work_dir_is_fresh (w : World) (work_dir : Path) (w1 : World) :
  create_work_dir host w = (Ok work_dir, w1) ->
  (exists name : string,
     work_dir = gettempdir host ++ [name] /\ Str.startswith name "latexwork_" = true) /\
  OS.stat (fs w) (PurePath.resolve work_dir) = None /\
  OS.stat (fs w1) (PurePath.resolve work_dir) = Some Dir /\
  forall q : Path, q <> PurePath.resolve work_dir -> fs w1 !! q = fs w !! q.
Proof.
  intros Hdir. apply create_work_dir_inv in Hdir as (Hwd & _ & Hfs & Hnew & _).
  split; [|split; [exact Hnew|split]].
  - exists ("latexwork_" +:+ random_name host w). split; [exact Hwd|].
    rewrite !StrFacts.app_cons, StrFacts.app_nil. simpl.
    by destruct (random_name host w).
  - rewrite stat_nonroot by (by apply stat_None in Hnew as [? _]).
    by rewrite Hfs, lookup_insert_eq.
  - intros q Hq. by rewrite Hfs, lookup_insert_ne.
Qed.

End EntryFacts.

(** ** Requests whose archive is refused *)

Section RefusedArchiveFacts.
Import TreeFacts MFacts OSFacts PathFacts ZipFacts ExtractFacts QuietFacts.

Variable settings : ServiceSettings.
Variable host : Host.

(** X9.  A request whose archive does not end in a ZIP end-of-directory
    record is answered with the 400 error "Provided assets archive is not a
    valid ZIP file."; the engine is never started, and the work directory
    is removed. *)
Theorem compile_latex_rejects_invalid_zip (tex_file archive_upload : UploadFile)
    (c : ascii) (s main : string) (w : World) (work_dir : Path) (w1 : World) :
  wf_tree (fs w) ->
  ensure_tex_extension (filename tex_file) = Ok tt ->
  create_work_dir host w = (Ok work_dir, w1) ->
  PurePath.is_absolute (latex_main_filename settings) = false ->
  PurePath.parse_parts (latex_main_filename settings) = [main] ->
  main <> ".." ->
  filename archive_upload = Some (String c s) ->
  zip_end_record host (body archive_upload) = false ->
  (compile_latex settings host tex_file (Some archive_upload) w).1 =
    Raise (HTTPException 400
             (DetailStr "Provided assets archive is not a valid ZIP file.")) /\
  trace (compile_latex settings host tex_file (Some archive_upload) w).2 =
    trace w ++ [EvMkdtemp work_dir; EvRmtree work_dir].
Proof.
  intros Hwf Hname Hdir Habs Hparts Hmain Hfile Hend.
  destruct (stage_inputs_saves_both settings host tex_file archive_upload c s main w
              work_dir w1 Hwf Hdir Habs Hparts Hmain Hfile) as [Hsaved Hstage].
  set (saved := mkWorld _ _) in Hsaved, Hstage.
  assert (ensure_zip_is_valid host (work_dir ++ ["assets.zip"]) saved =
          (Raise (HTTPException 400
                    (DetailStr "Provided assets archive is not a valid ZIP file.")), saved))
    as Hvalid.
  { unfold ensure_zip_is_valid, is_zipfile. mstep. by rewrite Hsaved, Hend. }
  rewrite (bind_raise _ _ _ _ _ Hvalid) in Hstage.
  destruct (compile_latex_when_stage_fails settings host tex_file (Some archive_upload) w
              work_dir w1 saved _ Hname Hdir Hstage) as [E Htrace].
  split; [by rewrite E | exact Htrace].
Qed.

(** X10.  A request whose archive has a member that fails the path test is
    answered with the 400 error "Archive contains unsafe paths."; the
    engine is never started, and when the work directory is removed it
    holds the two uploads and nothing of the archive's contents. *)
Theorem compile_latex_rejects_unsafe_archive (tex_file archive_upload : UploadFile)
    (c : ascii) (s main : string) (ms : list ZipInfo) (m : ZipInfo) (w : World)
    (work_dir : Path) (w1 : World) :
  wf_tree (fs w) ->
  ensure_tex_extension (filename tex_file) = Ok tt ->
  create_work_dir host w = (Ok work_dir, w1) ->
  PurePath.is_absolute (latex_main_filename settings) = false ->
  PurePath.parse_parts (latex_main_filename settings) = [main] ->
  main <> ".." ->
  filename archive_upload = Some (String c s) ->
  zip_end_record host (body archive_upload) = true ->
  zip_directory host (body archive_upload) = Some ms ->
  m ∈ ms ->
  passes_check work_dir m = false ->
  let W := PurePath.resolve work_dir in
  let saved :=
    mkWorld (<[W ++ ["assets.zip"] := File (body archive_upload)]>
               (<[W ++ [main] := File (body tex_file)]> (fs w1))) (trace w1) in
  compile_latex settings host tex_file (Some archive_upload) w =
    (Raise (HTTPException 400 (DetailStr "Archive contains unsafe paths.")),
     (rmtree host work_dir true saved).2) /\
  trace (compile_latex settings host tex_file (Some archive_upload) w).2 =
    trace w ++ [EvMkdtemp work_dir; EvRmtree work_dir].
Proof.
  intros Hwf Hname Hdir Habs Hparts Hmain Hfile Hend Hzip Hm Hbad W saved.
  destruct (stage_inputs_saves_both settings host tex_file archive_upload c s main w
              work_dir w1 Hwf Hdir Habs Hparts Hmain Hfile) as [Hsaved Hstage].
  fold W in Hstage, Hsaved. fold saved in Hstage, Hsaved.
  rewrite (bind_ok _ _ _ _ _ (ensure_zip_is_valid_ok host _ saved _ Hsaved Hend)) in Hstage.
  assert (extract_zip_safely host (work_dir ++ ["assets.zip"]) work_dir saved =
          (Raise (HTTPException 400 (DetailStr "Archive contains unsafe paths.")), saved))
    as Hextract.
  { apply (extract_zip_safely_rejects host _ _ _ _ (ZipFile_open_ok host _ saved _ _ Hsaved Hzip)).
    simpl. apply not_true_is_false. intros Hall. rewrite forallb_forall in Hall.
    apply list_elem_of_In in Hm. apply Hall in Hm. congruence. }
  rewrite (bind_raise _ _ _ _ _ Hextract) in Hstage.
  exact (compile_latex_when_stage_fails settings host tex_file (Some archive_upload) w
           work_dir w1 saved _ Hname Hdir Hstage).
Qed.

(** X11.  A request whose archive ends in a ZIP end-of-directory record but
    has a central directory that [zipfile] cannot read passes the validity
    test and fails when it is opened; the [BadZipFile] error is answered as
    the 500 error "Unexpected error during compilation.", and the engine is
    never started. *)
Theorem compile_latex_unreadable_zip (tex_file archive_upload : UploadFile)
    (c : ascii) (s main : string) (w : World) (work_dir : Path) (w1 : World) :
  wf_tree (fs w) ->
  ensure_tex_extension (filename tex_file) = Ok tt ->
  create_work_dir host w = (Ok work_dir, w1) ->
  PurePath.is_absolute (latex_main_filename settings) = false ->
  PurePath.parse_parts (latex_main_filename settings) = [main] ->
  main <> ".." ->
  filename archive_upload = Some (String c s) ->
  zip_end_record host (body archive_upload) = true ->
  zip_directory host (body archive_upload) = None ->
  (compile_latex settings host tex_file (Some archive_upload) w).1 =
    Raise (HTTPException 500 (DetailStr "Unexpected error during compilation.")) /\
  trace (compile_latex settings host tex_file (Some archive_upload) w).2 =
    trace w ++ [EvMkdtemp work_dir; EvRmtree work_dir].
Proof.
  intros Hwf Hname Hdir Habs Hparts Hmain Hfile Hend Hzip.
  destruct (stage_inputs_saves_both settings host tex_file archive_upload c s main w
              work_dir w1 Hwf Hdir Habs Hparts Hmain Hfile) as [Hsaved Hstage].
  set (saved := mkWorld _ _) in Hsaved, Hstage.
  rewrite (bind_ok _ _ _ _ _ (ensure_zip_is_valid_ok host _ saved _ Hsaved Hend)) in Hstage.
  assert (extract_zip_safely host (work_dir ++ ["assets.zip"]) work_dir saved =
          (Raise (PyError "BadZipFile"), saved)) as Hextract.
  { unfold extract_zip_safely, ZipFile_open, OS.read_bytes. mstep. rewrite Hsaved. mstep.
    by rewrite Hzip. }
  rewrite (bind_raise _ _ _ _ _ Hextract) in Hstage.
  destruct (compile_latex_when_stage_fails settings host tex_file (Some archive_upload) w
              work_dir w1 saved _ Hname Hdir Hstage) as [E Htrace].
  split; [by rewrite E | exact Htrace].
Qed.

End RefusedArchiveFacts.

(** ** Requests that reach the engine *)

Section EngineRequestFacts.
Import TreeFacts MFacts OSFacts PathFacts ZipFacts ExtractFacts QuietFacts.

Variable settings : ServiceSettings.
Variable host : Host.

(** What the [try] block answers once the inputs are staged and the engine
    has exited with code zero. *)
Lemma compile_body_after_engine (tex_file : UploadFile)
    (assets_archive : option UploadFile) (work_dir tex_path : Path) (w1 w2 : World)
    (c : CompletedProcess) (t3 : FS) (pdf_path : Path) (n : node) :
  stage_inputs host tex_file assets_archive work_dir tex_path w1 = (Ok tt, w2) ->
  engine_outcome host work_dir (PurePath.name tex_path) settings (fs w2) = (Completed c, t3) ->
  returncode c = 0%Z ->
  PurePath.with_suffix tex_path ".pdf" = Ok pdf_path ->
  OS.stat t3 (PurePath.resolve pdf_path) = Some n ->
  compile_body settings host tex_file assets_archive work_dir tex_path w1 =
    build_pdf_response pdf_path
      (mkWorld t3 (trace w2 ++ [EvRun (build_engine_command work_dir (PurePath.name tex_path)
                                         settings) work_dir (fs w2)])).
Proof.
  intros Hstage Hengine Hzero Hpdf Es.
  unfold compile_body. rewrite (bind_ok _ _ _ _ _ Hstage).
  unfold bind at 1. rewrite run_latex_engine_outcome, Hengine. simpl.
  rewrite Hzero. simpl.
  unfold bind at 1. unfold lift at 1. rewrite Hpdf.
  unfold OS.exists_. mstep. simpl. by rewrite Es.
Qed.

(** X12.  The successful request: when the inputs were staged, the engine
    exited with code zero and left a file at the PDF path, the handler
    answers with a response whose content is the bytes of that file, whose
    media type is [application/pdf] and whose only header is a
    [Content-Disposition] naming the PDF as an attachment. *)
Theorem compile_latex_returns_pdf (tex_file : UploadFile)
    (assets_archive : option UploadFile) (w : World) (work_dir : Path) (w1 w2 : World)
    (c : CompletedProcess) (t3 : FS) (pdf_path : Path) (pdf_bytes : bytes) :
  ensure_tex_extension (filename tex_file) = Ok tt ->
  create_work_dir host w = (Ok work_dir, w1) ->
  let tex_path := PurePath.joinpath work_dir (latex_main_filename settings) in
  stage_inputs host tex_file assets_archive work_dir tex_path w1 = (Ok tt, w2) ->
  engine_outcome host work_dir (PurePath.name tex_path) settings (fs w2) = (Completed c, t3) ->
  returncode c = 0%Z ->
  PurePath.with_suffix tex_path ".pdf" = Ok pdf_path ->
  OS.stat t3 (PurePath.resolve pdf_path) = Some (File pdf_bytes) ->
  (compile_latex settings host tex_file assets_archive w).1 =
    Ok (mkResponse pdf_bytes "application/pdf"
          [("Content-Disposition",
            "attachment; filename=" +:+ dquote +:+ PurePath.name pdf_path +:+ dquote)]).
Proof.
  intros Hname Hdir tex_path Hstage Hengine Hzero Hpdf Hfile.
  rewrite (compile_latex_outcome _ _ _ _ _ _ _ Hname Hdir). fold tex_path.
  rewrite (compile_body_after_engine tex_file assets_archive work_dir tex_path w1 w2
             c t3 pdf_path _ Hstage Hengine Hzero Hpdf Hfile).
  rewrite build_pdf_response_outcome. simpl. by rewrite Hfile.
Qed.

(** X13.  When the engine exited with code zero and a directory is found at
    the PDF path, the existence test passes, reading the bytes fails, and
    the request ends with the 500 error "Unexpected error during
    compilation.". *)
Theorem compile_latex_pdf_is_directory (tex_file : UploadFile)
    (assets_archive : option UploadFile) (w : World) (work_dir : Path) (w1 w2 : World)
    (c : CompletedProcess) (t3 : FS) (pdf_path : Path) :
  ensure_tex_extension (filename tex_file) = Ok tt ->
  create_work_dir host w = (Ok work_dir, w1) ->
  let tex_path := PurePath.joinpath work_dir (latex_main_filename settings) in
  stage_inputs host tex_file assets_archive work_dir tex_path w1 = (Ok tt, w2) ->
  engine_outcome host work_dir (PurePath.name tex_path) settings (fs w2) = (Completed c, t3) ->
  returncode c = 0%Z ->
  PurePath.with_suffix tex_path ".pdf" = Ok pdf_path ->
  OS.stat t3 (PurePath.resolve pdf_path) = Some Dir ->
  (compile_latex settings host tex_file assets_archive w).1 =
    Raise (HTTPException 500 (DetailStr "Unexpected error during compilation.")).
Proof.
  intros Hname Hdir tex_path Hstage Hengine Hzero Hpdf Hfile.
  rewrite (compile_latex_outcome _ _ _ _ _ _ _ Hname Hdir). fold tex_path.
  rewrite (compile_body_after_engine tex_file assets_archive work_dir tex_path w1 w2
             c t3 pdf_path _ Hstage Hengine Hzero Hpdf Hfile).
  rewrite build_pdf_response_outcome. simpl. by rewrite Hfile.
Qed.

(** The answer of a request whose engine run raises. *)
Lemma compile_latex_when_engine_fails (tex_file : UploadFile)
    (assets_archive : option UploadFile) (w : World) (work_dir : Path) (w1 w2 w3 : World)
    (e : exn) :
  ensure_tex_extension (filename tex_file) = Ok tt ->
  create_work_dir host w = (Ok work_dir, w1) ->
  let tex_path := PurePath.joinpath work_dir (latex_main_filename settings) in
  stage_inputs host tex_file assets_archive work_dir tex_path w1 = (Ok tt, w2) ->
  run_latex_engine host work_dir (PurePath.name tex_path) settings w2 = (Raise e, w3) ->
  (compile_latex settings host tex_file assets_archive w).1 = Raise (after_except e).
Proof.
  intros Hname Hdir tex_path Hstage Hrun.
  rewrite (compile_latex_outcome _ _ _ _ _ _ _ Hname Hdir). fold tex_path.
  unfold compile_body. rewrite (bind_ok _ _ _ _ _ Hstage).
  by rewrite (bind_raise _ _ _ _ _ Hrun).
Qed.

(** X14.  What the handler answers when the engine fails, once the inputs
    were staged: the 400 error with the output trimmed of white space for a
    non-zero exit code, the 500 error for a missing executable and the 504
    error for an exceeded time limit pass through the handler unchanged; of
    the other exceptions of [subprocess.run], one that is an [Exception] is
    answered as the 500 error "Unexpected error during compilation.", and
    one that is not (such as [KeyboardInterrupt]) leaves the handler as it
    is. *)
Theorem compile_latex_reports_engine_failure (tex_file : UploadFile)
    (assets_archive : option UploadFile) (w : World) (work_dir : Path) (w1 w2 : World) :
  ensure_tex_extension (filename tex_file) = Ok tt ->
  create_work_dir host w = (Ok work_dir, w1) ->
  let tex_path := PurePath.joinpath work_dir (latex_main_filename settings) in
  stage_inputs host tex_file assets_archive work_dir tex_path w1 = (Ok tt, w2) ->
  let outcome := engine_outcome host work_dir (PurePath.name tex_path) settings (fs w2) in
  let answer := (compile_latex settings host tex_file assets_archive w).1 in
  (forall c, outcome.1 = Completed c -> returncode c <> 0%Z ->
     answer = Raise (HTTPException 400
                (DetailDict [ ("message", UStr.of_string "LaTeX compilation failed.");
                              ("stdout", UStr.strip (stdout c));
                              ("stderr", UStr.strip (stderr c)) ]))) /\
  (outcome.1 = Raised "FileNotFoundError" ->
     answer = Raise (HTTPException 500 (DetailStr "LaTeX engine executable not found."))) /\
  (outcome.1 = Raised "TimeoutExpired" ->
     answer = Raise (HTTPException 504 (DetailStr "LaTeX compilation timed out."))) /\
  (forall cls, outcome.1 = Raised cls ->
     cls <> "FileNotFoundError" -> cls <> "TimeoutExpired" ->
     (is_Exception cls = true ->
      answer = Raise (HTTPException 500 (DetailStr "Unexpected error during compilation."))) /\
     (is_Exception cls = false -> answer = Raise (PyError cls))).
Proof.
  intros Hname Hdir tex_path Hstage outcome answer.
  pose proof (run_latex_engine_outcome host work_dir (PurePath.name tex_path) settings w2)
    as Hrun.
  fold outcome in Hrun. cbv zeta in Hrun.
  pose proof (fun w3 e => compile_latex_when_engine_fails tex_file assets_archive w
                            work_dir w1 w2 w3 e Hname Hdir Hstage) as Hfail.
  fold tex_path in Hfail. fold answer in Hfail.
  split; [|split; [|split]].
  - intros c Hc Hnz. rewrite Hc in Hrun.
    destruct (Z.eqb_spec (returncode c) 0) as [|_]; [done|].
    by rewrite (Hfail _ _ Hrun).
  - intros Hc. rewrite Hc in Hrun. simpl in Hrun. by rewrite (Hfail _ _ Hrun).
  - intros Hc. rewrite Hc in Hrun. simpl in Hrun. by rewrite (Hfail _ _ Hrun).
  - intros cls Hc N1 N2. rewrite Hc in Hrun.
    destruct (String.eqb_spec cls "FileNotFoundError"); [done|].
    destruct (String.eqb_spec cls "TimeoutExpired"); [done|].
    rewrite (Hfail _ _ Hrun). unfold after_except.
    split; intros ->; reflexivity.
Qed.

End EngineRequestFacts.

(** ** Requests from start to end *)

Section WholeRequestFacts.
Import TreeFacts MFacts OSFacts PathFacts ZipFacts ExtractFacts QuietFacts.

Variable settings : ServiceSettings.
Variable host : Host.

(** X15.  When no work directory can be created, the error of
    [tempfile.mkdtemp] leaves the handler as it is: it is raised before the
    [try] statement is entered, so it is not turned into an
    [HTTPException], no removal is attempted, and the world is exactly as
    before the request. *)
Theorem compile_latex_without_work_dir (tex_file : UploadFile)
    (assets_archive : option UploadFile) (w : World) (e : exn) (w1 : World) :
  ensure_tex_extension (filename tex_file) = Ok tt ->
  create_work_dir host w = (Raise e, w1) ->
  compile_latex settings host tex_file assets_archive w = (Raise e, w) /\
  exists cls, e = PyError cls.
Proof.
  intros Hname Hdir.
  apply create_work_dir_raises in Hdir as Hraw. destruct Hraw as [-> Hpy].
  split; [|destruct e as [code d|cls]; [done|by exists cls]].
  unfold compile_latex. unfold bind at 1. unfold lift at 1. rewrite Hname.
  by rewrite (bind_raise _ _ _ _ _ Hdir).
Qed.


End WholeRequestFacts.

(** ** What a request leaves behind *)

Section FootprintFacts.
Import TreeFacts MFacts OSFacts PathFacts ZipFacts ExtractFacts QuietFacts.

Variable settings : ServiceSettings.
Variable host : Host.

Lemma ensure_zip_is_valid_pure (p : Path) (w : World) (r : result unit) (w' : World) :
  ensure_zip_is_valid host p w = (r, w') -> w' = w.
Proof.
  unfold ensure_zip_is_valid, is_zipfile. mstep.
  destruct (negb _); by intros [= _ <-].
Qed.

(** Whatever the archive, [extract_zip_safely] on an existing target
    directory changes the tree strictly within it only. *)
Lemma extract_zip_safely_inside (zip_path target_dir : Path) (w : World)
    (r : result unit) (w' : World) :
  directory_in (fs w) (PurePath.resolve target_dir) ->
  extract_zip_safely host zip_path target_dir w = (r, w') ->
  forall q : Path,
    fs w' !! q = fs w !! q \/ PurePath.strictly_within (PurePath.resolve target_dir) q.
Proof.
  intros Hdir H. unfold extract_zip_safely in H.
  apply bind_inv in H as [(archive & w1 & Hopen & H) | (e & Hopen & ->)].
  - apply ZipFile_open_inv in Hopen as [-> _].
    unfold bind in H. rewrite check_members_spec in H.
    destruct (forallb (passes_check target_dir) (zf_infolist archive)).
    + unfold Zip.extractall in H. by apply extract_members_inside in H as [_ H].
    + injection H as <- <-. by left.
  - apply ZipFile_open_inv in Hopen as [-> _]. by left.
Qed.

(** Staging writes strictly within the work directory only, whether or not
    it succeeds. *)
Lemma stage_inputs_inside (tex_file : UploadFile) (assets_archive : option UploadFile)
    (main : string) (w : World) (work_dir : Path) (w1 : World) (r : result unit)
    (w2 : World) :
  wf_tree (fs w) ->
  create_work_dir host w = (Ok work_dir, w1) ->
  PurePath.is_absolute (latex_main_filename settings) = false ->
  PurePath.parse_parts (latex_main_filename settings) = [main] ->
  main <> ".." ->
  stage_inputs host tex_file assets_archive work_dir
    (PurePath.joinpath work_dir (latex_main_filename settings)) w1 = (r, w2) ->
  forall q : Path,
    fs w2 !! q = fs w1 !! q \/ PurePath.strictly_within (PurePath.resolve work_dir) q.
Proof.
  intros Hwf Hdir Habs Hparts Hmain Hstage.
  set (W := PurePath.resolve work_dir).
  assert (forall (x : string) (n : node) (t : FS) (q : Path),
            <[W ++ [x] := n]> t !! q = t !! q \/ PurePath.strictly_within W q) as Hins.
  { intros x n t q. destruct (decide (q = W ++ [x])) as [->|NE].
    - right. by exists [x].
    - left. by rewrite lookup_insert_ne. }
  assert (match assets_archive with
          | Some a => (filename a = None \/ filename a = Some "") \/
                      exists c s, filename a = Some (String c s)
          | None => True
          end) as Hcases.
  { destruct assets_archive as [a|]; [|done].
    destruct (filename a) as [[|c s]|]; eauto. }
  destruct assets_archive as [a|]; [destruct Hcases as [Hnone | (c & s & Hfile)]|].
  - rewrite (stage_inputs_without_archive settings host tex_file (Some a) main w work_dir
               w1 Hwf Hdir Habs Hparts Hmain Hnone) in Hstage.
    injection Hstage as _ <-. intros q. apply Hins.
  - destruct (stage_inputs_saves_both settings host tex_file a c s main w work_dir w1
                Hwf Hdir Habs Hparts Hmain Hfile) as [Hsaved E].
    fold W in E, Hsaved. rewrite E in Hstage. clear E.
    set (saved := mkWorld _ _) in Hsaved, Hstage.
    assert (forall q : Path, fs saved !! q = fs w1 !! q \/ PurePath.strictly_within W q)
      as Hsaved_in.
    { intros q. unfold saved. simpl.
      destruct (Hins "assets.zip" (File (body a))
                  (<[W ++ [main] := File (body tex_file)]> (fs w1)) q) as [->|?]; [|by right].
      apply Hins. }
    assert (directory_in (fs saved) W) as Hdirs.
    { apply create_work_dir_inv in Hdir as (_ & _ & Hfs & Hnew & Hparent).
      fold W in Hfs, Hnew, Hparent. unfold saved. simpl. rewrite Hfs.
      by apply (staged_tree (fs w) W main (body tex_file) (body a)). }
    apply bind_inv in Hstage as [([] & w3 & Hv & Hstage) | (e & Hv & _)];
      apply ensure_zip_is_valid_pure in Hv as ->; [|exact Hsaved_in].
    apply bind_inv in Hstage as [([] & w4 & Hx & Hstage) | (e & Hx & _)];
      pose proof (extract_zip_safely_inside _ _ _ _ _ Hdirs Hx) as Hx_in.
    + intros q.
      assert (fs w2 !! q = fs w4 !! q \/ PurePath.strictly_within W q) as [->|?];
        [|destruct (Hx_in q) as [->|?]; [apply Hsaved_in|by right]|by right].
      unfold OS.unlink in Hstage. revert Hstage. mstep.
      destruct (OS.stat (fs w4) _) as [[d|]|]; intros [= _ <-]; try by left.
      simpl. destruct (decide (q = PurePath.resolve (work_dir ++ ["assets.zip"]))) as [->|NE].
      * right. exists ["assets.zip"]. split; [done|]. by apply resolve_snoc.
      * left. by rewrite lookup_delete_ne.
    + intros q. destruct (Hx_in q) as [->|?]; [apply Hsaved_in|by right].
  - rewrite (stage_inputs_without_archive settings host tex_file None main w work_dir
               w1 Hwf Hdir Habs Hparts Hmain I) in Hstage.
    injection Hstage as _ <-. intros q. apply Hins.
Qed.

(** The [try] block changes the tree only where staging and the engine
    do. *)
Lemma compile_body_tree (tex_file : UploadFile) (assets_archive : option UploadFile)
    (work_dir tex_path : Path) (w1 : World) (r : result Response) (w3 : World) :
  compile_body settings host tex_file assets_archive work_dir tex_path w1 = (r, w3) ->
  exists (r2 : result unit) (w2 : World),
    stage_inputs host tex_file assets_archive work_dir tex_path w1 = (r2, w2) /\
    (fs w3 = fs w2 \/
     fs w3 = (engine_outcome host work_dir (PurePath.name tex_path) settings (fs w2)).2).
Proof.
  unfold compile_body. intros H.
  apply bind_inv in H as [([] & w2 & Hstage & H) | (e & Hstage & _)];
    [|exists (Raise e), w3; by split; [|left]].
  exists (Ok tt), w2. split; [done|]. right.
  apply bind_inv in H as [([] & w2' & Hrun & H) | (e & Hrun & _)];
    rewrite run_latex_engine_outcome in Hrun; cbv zeta in Hrun.
  - assert (fs w2' = (engine_outcome host work_dir (PurePath.name tex_path) settings
                        (fs w2)).2) as <-.
    { apply (f_equal (fun x => fs x.2)) in Hrun. simpl in Hrun. rewrite <- Hrun.
      destruct (engine_outcome _ _ _ _ _).1 as [c|cls];
        repeat (match goal with |- context [if ?b then _ else _] => destruct b end);
        reflexivity. }
    apply bind_inv in H as [(pdf_path & w5 & Hl & H) | (e & Hl & _)];
      unfold lift in Hl; injection Hl as _ <-; [|done].
    apply bind_inv in H as [(present & w6 & He & H) | (e & He & _)];
      apply exists_pure in He as ->; [|done].
    destruct (negb present).
    + unfold raise in H. by injection H as _ <-.
    + rewrite build_pdf_response_outcome in H. by injection H as _ <-.
  - apply (f_equal (fun x => fs x.2)) in Hrun. simpl in Hrun. rewrite <- Hrun.
    destruct (engine_outcome _ _ _ _ _).1 as [c|cls];
      repeat (match goal with |- context [if ?b then _ else _] => destruct b end);
      reflexivity.
Qed.

(** X17.  The service keeps nothing: on a well-formed tree, with an engine
    that changes the tree strictly within its work directory only and a
    removal that meets no error, the tree after a request is the tree
    before it, whatever was uploaded and whatever the request's outcome. *)
Theorem compile_latex_restores_tree (tex_file : UploadFile)
    (assets_archive : option UploadFile) (main : string) (w : World)
    (work_dir : Path) (w1 : World) :
  wf_tree (fs w) ->
  ensure_tex_extension (filename tex_file) = Ok tt ->
  create_work_dir host w = (Ok work_dir, w1) ->
  PurePath.is_absolute (latex_main_filename settings) = false ->
  PurePath.parse_parts (latex_main_filename settings) = [main] ->
  main <> ".." ->
  (forall (t : FS) (q : Path),
     (engine_outcome host work_dir main settings t).2 !! q = t !! q \/
     PurePath.strictly_within (PurePath.resolve work_dir) q) ->
  (forall t : FS, rmtree_fault host t (PurePath.resolve work_dir) = false) ->
  fs (compile_latex settings host tex_file assets_archive w).2 = fs w.
Proof.
  intros Hwf Hname Hdir Habs Hparts Hmain Hengine Hfault.
  set (W := PurePath.resolve work_dir) in *.
  pose proof (create_work_dir_inv host w work_dir w1 Hdir) as (_ & _ & Hfs & Hnew & _).
  fold W in Hfs, Hnew.
  assert (W <> []) as HW by (by apply stat_None in Hnew as [? _]).
  assert (forall q : Path, PurePath.strictly_within W q -> W `prefix_of` q /\ q <> W)
    as Hstrict.
  { intros q (k & Hk & ->). split; [by exists k|].
    intros E. apply Hk. apply (app_inv_head W). by rewrite app_nil_r. }
  unfold compile_latex. unfold bind at 1. unfold lift at 1. rewrite Hname.
  rewrite (bind_ok _ _ _ _ _ Hdir). unfold try_finally, try_except.
  destruct (compile_body settings host tex_file assets_archive work_dir
              (PurePath.joinpath work_dir (latex_main_filename settings)) w1)
    as [r w3] eqn:Hbody.
  (* the tree when the removal starts *)
  assert (forall q : Path, fs w3 !! q = fs w1 !! q \/ PurePath.strictly_within W q) as Hin.
  { apply compile_body_tree in Hbody as (r2 & w2 & Hstage & Hw3).
    pose proof (stage_inputs_inside tex_file assets_archive main w work_dir w1 r2 w2
                  Hwf Hdir Habs Hparts Hmain Hstage) as Hstage_in.
    fold W in Hstage_in.
    intros q. destruct Hw3 as [-> | ->]; [apply Hstage_in|].
    rewrite (joinpath_plain _ _ _ Habs Hparts), name_snoc.
    destruct (Hengine (fs w2) q) as [->|?]; [apply Hstage_in|by right]. }
  assert (fs (rmtree host work_dir true w3).2
          = filter (fun kv => ~ W `prefix_of` kv.1) (fs w3)) as Hrm.
  { unfold rmtree. mstep. simpl. fold W.
    assert (OS.stat (fs w3) W = Some Dir) as ->.
    { rewrite stat_nonroot by done. destruct (Hin W) as [->|Hs].
      - by rewrite Hfs, lookup_insert_eq.
      - by apply Hstrict in Hs as [_ ?]. }
    by rewrite Hfault. }
  assert (forall x : result Response,
            fs (match rmtree host work_dir true w3 with
                | (Ok _, w2) => (x, w2)
                | (Raise e, w2) => (Raise e, w2)
                end).2 = fs (rmtree host work_dir true w3).2) as Hfin.
  { intros x. by destruct (rmtree host work_dir true w3) as [[[]|e] w5]. }
  transitivity (fs (rmtree host work_dir true w3).2).
  { destruct r as [a|e]; [|rewrite except_clauses]; apply Hfin. }
  rewrite Hrm. apply map_eq. intros q.
  destruct (decide (W `prefix_of` q)) as [[k ->]|Hout].
  - rewrite (wf_nothing_below (fs w) W k Hwf Hnew).
    apply map_lookup_filter_None. right. intros n _ Hn. apply Hn. by exists k.
  - assert (fs w3 !! q = fs w !! q) as <-.
    { destruct (Hin q) as [->|Hs]; [|by apply Hstrict in Hs as [? _]].
      rewrite Hfs, lookup_insert_ne; [done|]. by intros <-. }
    apply option_eq. intros n. rewrite map_lookup_filter_Some. simpl. tauto.
Qed.

End FootprintFacts.

(** ** Which errors a request can end with *)

Module RaiseFacts.
Import TreeFacts MFacts OSFacts.

Lemma raises_only_ret {A} (P : exn -> Prop) (a : A) : raises_only P (ret a).
Proof. by intros w e w' [=]. Qed.

Lemma raises_only_raise {A} (P : exn -> Prop) (e : exn) : P e -> raises_only P (@raise A e).
Proof. by intros He w e' w' [= <- _]. Qed.

Lemma raises_only_get_fs (P : exn -> Prop) : raises_only P get_fs.
Proof. by intros w e w' [=]. Qed.

Lemma raises_only_put_fs (P : exn -> Prop) (t : FS) : raises_only P (put_fs t).
Proof. by intros w e w' [=]. Qed.

Lemma raises_only_bind {A B} (P : exn -> Prop) (m : M A) (k : A -> M B) :
  raises_only P m -> (forall a, raises_only P (k a)) -> raises_only P (bind m k).
Proof.
  intros Hm Hk w e w' H.
  apply bind_inv in H as [(a & w1 & _ & H) | (e' & H & [= ->])].
  - by eapply Hk.
  - by eapply Hm.
Qed.

Lemma raises_only_try_except {A} (P : exn -> Prop) (m : M A) (h : exn -> M A) :
  (forall e, raises_only P (h e)) -> raises_only P (try_except m h).
Proof.
  intros Hh w e w' H. unfold try_except in H.
  destruct (m w) as [[a|e0] w1]; [done|]. by eapply Hh.
Qed.

Lemma raises_only_mono {A} (P Q : exn -> Prop) (m : M A) :
  (forall e, P e -> Q e) -> raises_only P m -> raises_only Q m.
Proof. intros HPQ Hm w e w' H. eapply HPQ, Hm, H. Qed.

Ltac raises_tac :=
  repeat first
    [ apply raises_only_ret
    | apply raises_only_raise; done
    | apply raises_only_get_fs
    | apply raises_only_put_fs
    | apply raises_only_bind; [|intros ?]
    | match goal with
      | |- raises_only _ (match ?x with _ => _ end) => destruct x
      | |- raises_only _ (if ?b then _ else _) => destruct b
      end
    | done ].

Lemma raises_exists p : raises_only python_error (OS.exists_ p).
Proof. unfold OS.exists_. raises_tac. Qed.

Lemma raises_isdir_at q : raises_only python_error (OS.isdir_at q).
Proof. unfold OS.isdir_at. raises_tac. Qed.

Lemma raises_need_parent_dir q : raises_only python_error (OS.need_parent_dir q).
Proof. unfold OS.need_parent_dir. raises_tac. Qed.

Lemma raises_open_wb p : raises_only python_error (OS.open_wb p).
Proof. pose proof raises_need_parent_dir. unfold OS.open_wb. raises_tac. Qed.

Lemma raises_write p data : raises_only python_error (OS.write p data).
Proof. unfold OS.write. raises_tac. Qed.

Lemma raises_write_bytes p data : raises_only python_error (OS.write_bytes p data).
Proof.
  pose proof raises_open_wb. pose proof raises_write. unfold OS.write_bytes. raises_tac.
Qed.

Lemma raises_read_bytes p : raises_only python_error (OS.read_bytes p).
Proof. unfold OS.read_bytes. raises_tac. Qed.

Lemma raises_mkdir_at q : raises_only python_error (OS.mkdir_at q).
Proof. pose proof raises_need_parent_dir. unfold OS.mkdir_at. raises_tac. Qed.

Lemma raises_unlink p missing_ok : raises_only python_error (OS.unlink p missing_ok).
Proof. unfold OS.unlink. raises_tac. Qed.

Lemma raises_makedirs_rev rq : raises_only python_error (OS.makedirs_rev rq).
Proof.
  induction rq as [|c rhead IH]; [apply raises_only_ret|].
  rewrite makedirs_rev_cons.
  apply raises_only_bind; [apply raises_only_get_fs|]. intros t.
  apply raises_only_bind; [|intros ?; cbv beta].
  - destruct (OS.stat t (rev rhead)); [apply raises_only_ret | exact IH].
  - intros w e w' H. unfold try_except in H.
    destruct (OS.mkdir_at (rev (c :: rhead)) w) as [[[]|e0] w1] eqn:Hm; [done|].
    apply raises_mkdir_at in Hm.
    apply bind_inv in H as [(d & w2 & _ & H) | (e' & H & [= ->])].
    + destruct d; [done|]. unfold raise in H. by simplify_eq.
    + by apply raises_isdir_at in H.
Qed.

Lemma raises_extract_member zf faults path m tr :
  raises_only python_error (Zip.extract_member zf faults path m tr).
Proof.
  pose proof raises_exists. pose proof raises_makedirs_rev. pose proof raises_isdir_at.
  pose proof raises_mkdir_at. pose proof raises_open_wb. pose proof raises_write.
  pose proof raises_need_parent_dir.
  unfold Zip.extract_member, OS.makedirs, OS.isdir, OS.mkdir. raises_tac.
Qed.

Lemma raises_extract_members zf faults path ms tr :
  raises_only python_error (Zip.extract_members zf faults path ms tr).
Proof.
  revert tr. induction ms as [|m ms IH]; intros tr; simpl; [apply raises_only_ret|].
  apply raises_only_bind; [apply raises_extract_member | intros tr'; apply IH].
Qed.

End RaiseFacts.

Section ErrorFacts.
Import TreeFacts MFacts OSFacts PathFacts ZipFacts ExtractFacts QuietFacts RaiseFacts.

Variable settings : ServiceSettings.
Variable host : Host.

Lemma python_error_known (e : exn) : python_error e -> known_status e.
Proof. by destruct e. Qed.

Lemma raises_stage_inputs (tex_file : UploadFile) (assets_archive : option UploadFile)
    (work_dir tex_path : Path) :
  raises_only known_status (stage_inputs host tex_file assets_archive work_dir tex_path).
Proof.
  assert (forall u p, raises_only known_status (save_upload_file u p)) as Hsave.
  { intros u p. eapply raises_only_mono; [apply python_error_known|].
    apply raises_write_bytes. }
  unfold stage_inputs. apply raises_only_bind; [apply Hsave |intros ?; cbv beta].
  unfold unpack_assets. destruct assets_archive as [upload|]; [|apply raises_only_ret].
  destruct (filename upload) as [[|c s]|]; try apply raises_only_ret.
  apply raises_only_bind; [apply Hsave |intros ?; cbv beta].
  apply raises_only_bind; [|intros ?; cbv beta].
  { unfold ensure_zip_is_valid, is_zipfile. raises_tac.
    apply raises_only_raise. simpl. tauto. }
  apply raises_only_bind; [|intros ?; cbv beta].
  - unfold extract_zip_safely. apply raises_only_bind; [|intros archive].
    + eapply raises_only_mono; [apply python_error_known|].
      pose proof raises_read_bytes. unfold ZipFile_open. raises_tac.
    + apply raises_only_bind; [|intros ?; cbv beta].
      * intros w e w'. rewrite check_members_spec.
        destruct (forallb _ _); [done|]. intros [= <- _]. simpl. by left.
      * eapply raises_only_mono; [apply python_error_known|].
        apply raises_extract_members.
  - eapply raises_only_mono; [apply python_error_known|]. apply raises_unlink.
Qed.

Lemma raises_compile_body (tex_file : UploadFile) (assets_archive : option UploadFile)
    (work_dir tex_path : Path) :
  raises_only known_status
    (compile_body settings host tex_file assets_archive work_dir tex_path).
Proof.
  unfold compile_body.
  apply raises_only_bind; [apply raises_stage_inputs |intros ?; cbv beta].
  apply raises_only_bind; [|intros ?; cbv beta].
  { intros w e w'. rewrite run_latex_engine_outcome. cbv zeta.
    destruct (engine_outcome _ _ _ _ _).1 as [c|cls];
      repeat (match goal with |- context [if ?b then _ else _] => destruct b end);
      intros [= <- _]; simpl; tauto. }
  apply raises_only_bind; [|intros pdf_path].
  { intros w e w'. unfold lift, PurePath.with_suffix.
    repeat (match goal with |- context [if ?b then _ else _] => destruct b end);
      by intros [= <- _]. }
  apply raises_only_bind; [|intros present].
  { eapply raises_only_mono; [apply python_error_known | apply raises_exists]. }
  destruct (negb present).
  - apply raises_only_raise. simpl. tauto.
  - eapply raises_only_mono; [apply python_error_known|].
    pose proof raises_read_bytes. unfold build_pdf_response. raises_tac.
Qed.


End ErrorFacts.

(** ** What the path test accepts *)

Section PathTestFacts.
Import TreeFacts MFacts OSFacts PathFacts ZipFacts ExtractFacts QuietFacts.

Lemma split_without_separator (sep : ascii) (s : string) :
  Forall (fun part => sep ∉ String.list_ascii_of_string part) (Str.split sep s).
Proof.
  induction s as [|c s IH]; simpl.
  - constructor; [|constructor]. simpl. apply not_elem_of_nil.
  - destruct (Ascii.eqb_spec c sep) as [->|NE].
    + constructor; [|exact IH]. simpl. apply not_elem_of_nil.
    + destruct (Str.split sep s) as [|h t].
      * constructor; [|constructor]. simpl.
        apply not_elem_of_cons. split; [congruence | apply not_elem_of_nil].
      * apply Forall_cons in IH as [Hh Ht]. constructor; [|exact Ht]. simpl.
        apply not_elem_of_cons. split; [congruence | exact Hh].
Qed.

Lemma parse_parts_plain (s : string) : Forall plain_part (PurePath.parse_parts s).
Proof.
  unfold PurePath.parse_parts. apply Forall_forall. intros x Hx.
  apply list_elem_of_filter in Hx as [[Hne _] Hx].
  split; [exact Hne|].
  pose proof (split_without_separator "/" s) as H. rewrite Forall_forall in H. by apply H.
Qed.

Lemma removelast_Forall {A} (P : A -> Prop) (l : list A) :
  Forall P l -> Forall P (removelast l).
Proof.
  induction l as [|x l IH]; [done|]. intros H. apply Forall_cons in H as [Hx Hl].
  destruct l as [|y l]; [constructor|]. simpl. constructor; [done|]. by apply IH.
Qed.

Lemma resolve_from_Forall (P : string -> Prop) (p acc : Path) :
  Forall P acc -> Forall P p -> Forall P (PurePath.resolve_from acc p).
Proof.
  revert acc. induction p as [|c p IH]; intros acc Hacc Hp; [done|].
  apply Forall_cons in Hp as [Hc Hp]. simpl. apply IH; [|done].
  destruct (decide (c = "..")).
  - by apply removelast_Forall.
  - apply Forall_app. split; [done|]. by constructor.
Qed.

Lemma str_app_nil_r (s : string) : s +:+ "" = s.
Proof. induction s as [|c s IH]; [done|]. by rewrite StrFacts.app_cons, IH. Qed.

Lemma str_app_assoc (a b c : string) : (a +:+ b) +:+ c = a +:+ (b +:+ c).
Proof. induction a as [|x a IH]; [done|]. by rewrite !StrFacts.app_cons, IH. Qed.

Lemma render_cons (x : string) (q : Path) :
  fold_right (fun part acc => "/" +:+ part +:+ acc) "" (x :: q) =
  String "/" (x +:+ fold_right (fun part acc => "/" +:+ part +:+ acc) "" q).
Proof. reflexivity. Qed.

(** A part that is the start of a run of parts is the start of the first
    of them, when it has no ["/"]. *)
Lemma startswith_last_part (c c' : string) (q' : Path) :
  "/"%char ∉ String.list_ascii_of_string c ->
  Str.startswith
    (c' +:+ fold_right (fun part acc => "/" +:+ part +:+ acc) "" q') c = true ->
  exists k, c' = c +:+ k.
Proof.
  revert c'. induction c as [|a c IH]; intros c' Hc H.
  - exists c'. by rewrite StrFacts.app_nil.
  - simpl in Hc. apply not_elem_of_cons in Hc as [Ha Hc].
    destruct c' as [|b c'].
    + rewrite StrFacts.app_nil in H. destruct q' as [|x q']; [done|].
      rewrite render_cons in H. simpl in H.
      destruct (Ascii.eqb_spec a "/"); [done|discriminate].
    + rewrite StrFacts.app_cons in H. simpl in H.
      destruct (Ascii.eqb_spec a b) as [->|]; [|discriminate].
      destruct (IH c' Hc H) as [k ->]. exists k. by rewrite StrFacts.app_cons.
Qed.

(** A part followed by more parts is the start of a run of parts only if
    it is the first of them, followed by a run that starts with the rest. *)
Lemma startswith_inner_part (c c' : string) (q' : Path) (R' : string) :
  "/"%char ∉ String.list_ascii_of_string c ->
  "/"%char ∉ String.list_ascii_of_string c' ->
  Str.startswith
    (c' +:+ fold_right (fun part acc => "/" +:+ part +:+ acc) "" q')
    (c +:+ String "/" R') = true ->
  c' = c /\
  Str.startswith (fold_right (fun part acc => "/" +:+ part +:+ acc) "" q')
    (String "/" R') = true.
Proof.
  revert c'. induction c as [|a c IH]; intros c' Hc Hc' H.
  - rewrite StrFacts.app_nil in H. destruct c' as [|b c'].
    + by rewrite StrFacts.app_nil in H.
    + rewrite StrFacts.app_cons in H. cbn [Str.startswith] in H. simpl in Hc'.
      apply not_elem_of_cons in Hc' as [Hb _].
      destruct (Ascii.eqb_spec "/" b); [done|discriminate].
  - simpl in Hc. apply not_elem_of_cons in Hc as [Ha Hc].
    rewrite StrFacts.app_cons in H. destruct c' as [|b c'].
    + rewrite StrFacts.app_nil in H. destruct q' as [|x q']; [done|].
      rewrite render_cons in H. cbn [Str.startswith] in H.
      destruct (Ascii.eqb_spec a "/"); [done|discriminate].
    + rewrite StrFacts.app_cons in H. cbn [Str.startswith] in H. simpl in Hc'.
      apply not_elem_of_cons in Hc' as [_ Hc'].
      destruct (Ascii.eqb_spec a b) as [->|]; [|discriminate].
      destruct (IH c' Hc Hc' H) as [-> HR]. done.
Qed.

(** When the string of one path starts with the string of another, the
    second path without its last part starts the first, and the last part
    of the second starts the next part of the first. *)
Lemma render_startswith_inv (W q : Path) :
  W <> [] -> Forall plain_part W -> Forall plain_part q ->
  Str.startswith (fold_right (fun part acc => "/" +:+ part +:+ acc) "" q)
                 (fold_right (fun part acc => "/" +:+ part +:+ acc) "" W) = true ->
  exists (d : Path) (n k : string) (rest : Path),
    W = d ++ [n] /\ q = d ++ [n +:+ k] ++ rest.
Proof.
  revert q. induction W as [|c W IH]; intros q HW HpW Hpq H; [done|].
  apply Forall_cons in HpW as [[_ Hc] HpW].
  destruct q as [|c' q]; [done|].
  apply Forall_cons in Hpq as [[_ Hc'] Hpq].
  rewrite !render_cons in H. cbn [Str.startswith] in H. rewrite Ascii.eqb_refl in H.
  destruct W as [|c2 W].
  - cbn [fold_right] in H. rewrite str_app_nil_r in H.
    destruct (startswith_last_part c c' q Hc H) as [k ->].
    by exists [], c, k, q.
  - rewrite render_cons in H.
    apply startswith_inner_part in H as [-> H]; [|done|done].
    rewrite <- render_cons in H.
    destruct (IH q) as (d & n & k & rest & E1 & ->); [done|done|done|done|].
    exists (c :: d), n, k, rest. by rewrite E1.
Qed.

(** X19.  What the path test of [extract_zip_safely] accepts, exactly: a
    member passes when, and only when, its resolved destination lies in the
    target directory or in an entry beside it whose name begins with the
    target directory's name (the target directory itself being one). *)
Theorem passes_check_exactly (target_dir : Path) (m : ZipInfo) (d : Path) (n : string) :
  Forall plain_part target_dir ->
  PurePath.resolve target_dir = d ++ [n] ->
  (passes_check target_dir m = true <->
   exists (k : string) (rest : Path),
     PurePath.resolve (PurePath.joinpath target_dir (zi_filename m))
       = d ++ [n +:+ k] ++ rest).
Proof.
  intros Hplain HW. unfold passes_check. rewrite HW.
  set (q := PurePath.resolve (PurePath.joinpath target_dir (zi_filename m))).
  assert (Forall plain_part q) as Hq.
  { unfold q, PurePath.resolve, PurePath.joinpath.
    apply resolve_from_Forall; [constructor|].
    destruct (PurePath.is_absolute _); [apply parse_parts_plain|].
    apply Forall_app. split; [done | apply parse_parts_plain]. }
  assert (Forall plain_part (d ++ [n])) as HpW.
  { rewrite <- HW. unfold PurePath.resolve. apply resolve_from_Forall; [constructor|done]. }
  assert (d ++ [n] <> []) as Hne by (by destruct d).
  split.
  - intros H. rewrite (str_nonroot (d ++ [n])) in H by done.
    destruct (d ++ [n]) as [|c0 W'] eqn:EW; [done|].
    destruct q as [|c' q'] eqn:Eq.
    + exfalso. apply Forall_cons in HpW as [[Hn _] _]. rewrite render_cons in H.
      change (PurePath.str []) with "/" in H. cbn [Str.startswith] in H.
      rewrite Ascii.eqb_refl in H. destruct c0; [done|].
      by rewrite StrFacts.app_cons in H.
    + rewrite str_nonroot in H by done.
      apply render_startswith_inv in H as (d' & n' & k & rest & E & ->); [|done..].
      rewrite <- EW in E. apply app_inj_tail in E as [-> ->]. by exists k, rest.
  - intros (k & rest & ->). rewrite !str_nonroot by (by destruct d).
    clear. induction d as [|c d IH].
    + cbn [app]. rewrite !render_cons. cbn [Str.startswith fold_right].
      rewrite Ascii.eqb_refl, str_app_assoc, startswith_app. apply startswith_nil.
    + rewrite <- !app_comm_cons, !render_cons. cbn [Str.startswith].
      by rewrite Ascii.eqb_refl, startswith_app.
Qed.

End PathTestFacts.

(** ** More sample runs *)

Lemma save_upload_file_round_trip_witness :
  let destination := Sample.work_dir ++ ["main.tex"] in
  let w := mkWorld (<[Sample.work_dir := Dir]> Sample.tree0) [EvMkdtemp Sample.work_dir] in
  let w' := mkWorld (<[destination := File (body Sample.tex_upload)]> (fs w)) (trace w) in
  save_upload_file Sample.tex_upload destination w = (Ok tt, w') /\
  OS.read_bytes destination w' = (Ok (body Sample.tex_upload), w') /\
  trace w' = trace w /\
  forall q : Path, q <> PurePath.resolve destination -> fs w' !! q = fs w !! q.
Proof.
  intros destination w w'.
  assert (save_upload_file Sample.tex_upload destination w = (Ok tt, w')) as H
    by reflexivity.
  split; [exact H|].
  exact (save_upload_file_round_trip Sample.tex_upload destination w w' H).
Defined.

Lemma extract_zip_safely_all_or_nothing_witness :
  let zip_path := Sample.work_dir ++ ["assets.zip"] in
  let m := mkZipInfo "../../etc/passwd" (Sample.text "root") in
  let archive :=
    mkZipFile zip_path [mkZipInfo "refs.bib" (Sample.text "@book"); m] no_faults in
  ZipFile_open Sample.host zip_path (Sample.staged "traversal")
    = (Ok archive, Sample.staged "traversal") /\
  m ∈ zf_infolist archive /\
  passes_check Sample.work_dir m = false /\
  extract_zip_safely Sample.host zip_path Sample.work_dir (Sample.staged "traversal") =
    (Raise (HTTPException 400 (DetailStr "Archive contains unsafe paths.")),
     Sample.staged "traversal").
Proof.
  intros zip_path m archive.
  assert (ZipFile_open Sample.host zip_path (Sample.staged "traversal")
          = (Ok archive, Sample.staged "traversal")) as H1 by reflexivity.
  assert (m ∈ zf_infolist archive) as H2
    by (apply list_elem_of_further, list_elem_of_here).
  assert (passes_check Sample.work_dir m = false) as H3 by reflexivity.
  repeat (split; [assumption|]).
  exact (extract_zip_safely_all_or_nothing Sample.host zip_path Sample.work_dir
           (Sample.staged "traversal") archive m H1 H2 H3).
Defined.

Lemma extract_zip_safely_accepts_inside_witness :
  let zip_path := Sample.work_dir ++ ["assets.zip"] in
  let archive :=
    mkZipFile zip_path [ mkZipInfo "fig/" []; mkZipInfo "fig/a.png" (Sample.text "PNG");
                         mkZipInfo "refs.bib" (Sample.text "@book") ] no_faults in
  ZipFile_open Sample.host zip_path (Sample.staged "figures")
    = (Ok archive, Sample.staged "figures") /\
  Forall (fun m => PurePath.resolve Sample.work_dir `prefix_of`
                     PurePath.resolve (PurePath.joinpath Sample.work_dir (zi_filename m)))
         (zf_infolist archive) /\
  extract_zip_safely Sample.host zip_path Sample.work_dir (Sample.staged "figures") =
    Zip.extractall archive Sample.work_dir (Sample.staged "figures").
Proof.
  intros zip_path archive.
  assert (ZipFile_open Sample.host zip_path (Sample.staged "figures")
          = (Ok archive, Sample.staged "figures")) as H1 by reflexivity.
  assert (Forall (fun m => PurePath.resolve Sample.work_dir `prefix_of`
                     PurePath.resolve (PurePath.joinpath Sample.work_dir (zi_filename m)))
            (zf_infolist archive)) as H2.
  { constructor. { by exists ["fig"]. }
    constructor. { by exists ["fig"; "a.png"]. }
    constructor. { by exists ["refs.bib"]. }
    constructor. }
  repeat (split; [assumption|]).
  exact (proj2 (extract_zip_safely_accepts_inside Sample.host zip_path Sample.work_dir
                  (Sample.staged "figures") archive H1 H2)).
Defined.

Lemma plain_member_checked_where_written_witness :
  let m := mkZipInfo "fig/a.png" (Sample.text "PNG") in
  PurePath.is_absolute (zi_filename m) = false /\
  (".." ∉ Str.split "/" (zi_filename m)) /\
  PurePath.resolve (PurePath.joinpath Sample.work_dir (zi_filename m))
    = Zip.targetpath Sample.work_dir m /\
  passes_check Sample.work_dir m = true.
Proof.
  intros m.
  assert (PurePath.is_absolute (zi_filename m) = false) as H1 by reflexivity.
  assert (".." ∉ Str.split "/" (zi_filename m)) as H2.
  { apply (bool_decide_unpack _). vm_compute. exact I. }
  repeat (split; [assumption|]).
  exact (plain_member_checked_where_written Sample.work_dir m H1 H2).
Defined.

Lemma run_latex_engine_success_and_other_errors_witness :
  let denied (argv : list string) (cwd : Path) (env : gmap string string) (timeout : Z)
        (t : FS) : run_outcome * FS := (Raised "PermissionError", t) in
  let w := Sample.staged "figures" in
  let started :=
    trace w ++ [EvRun (build_engine_command Sample.work_dir "main.tex" Sample.settings)
                  Sample.work_dir (fs w)] in
  run_latex_engine Sample.host Sample.work_dir "main.tex" Sample.settings w =
    (Ok tt, mkWorld (<[Sample.work_dir ++ ["main.pdf"] := File (Sample.text "%PDF")]> (fs w))
              started) /\
  run_latex_engine (Sample.host_with denied) Sample.work_dir "main.tex" Sample.settings w =
    (Raise (PyError "PermissionError"), mkWorld (fs w) started).
Proof.
  intros denied w started. split.
  - exact (proj1 (run_latex_engine_success_and_other_errors Sample.host Sample.work_dir
                    "main.tex" Sample.settings w) _ _ eq_refl eq_refl).
  - assert ("PermissionError" <> "FileNotFoundError") as N1 by discriminate.
    assert ("PermissionError" <> "TimeoutExpired") as N2 by discriminate.
    exact (proj2 (run_latex_engine_success_and_other_errors (Sample.host_with denied)
                    Sample.work_dir "main.tex" Sample.settings w) _ _ eq_refl N1 N2).
Defined.

Lemma create_work_dir_is_fresh_witness :
  let w1 := mkWorld (<[Sample.work_dir := Dir]> Sample.tree0)
              [EvMkdtemp Sample.work_dir] in
  create_work_dir Sample.host Sample.world0 = (Ok Sample.work_dir, w1) /\
  (exists name : string,
     Sample.work_dir = gettempdir Sample.host ++ [name] /\
     Str.startswith name "latexwork_" = true) /\
  OS.stat (fs Sample.world0) (PurePath.resolve Sample.work_dir) = None /\
  OS.stat (fs w1) (PurePath.resolve Sample.work_dir) = Some Dir /\
  forall q : Path, q <> PurePath.resolve Sample.work_dir ->
    fs w1 !! q = fs Sample.world0 !! q.
Proof.
  intros w1.
  assert (create_work_dir Sample.host Sample.world0 = (Ok Sample.work_dir, w1)) as Hdir
    by reflexivity.
  split; [exact Hdir|].
  exact (create_work_dir_is_fresh Sample.host Sample.world0 Sample.work_dir w1 Hdir).
Defined.

Lemma compile_latex_rejects_invalid_zip_witness :
  let w1 := mkWorld (<[Sample.work_dir := Dir]> Sample.tree0)
              [EvMkdtemp Sample.work_dir] in
  let final := compile_latex Sample.settings Sample.host Sample.tex_upload
                 (Some (Sample.archive_upload "garbage")) Sample.world0 in
  wf_tree (fs Sample.world0) /\
  ensure_tex_extension (filename Sample.tex_upload) = Ok tt /\
  create_work_dir Sample.host Sample.world0 = (Ok Sample.work_dir, w1) /\
  PurePath.parse_parts (latex_main_filename Sample.settings) = ["main.tex"] /\
  zip_end_record Sample.host (body (Sample.archive_upload "garbage")) = false /\
  final.1 = Raise (HTTPException 400
                     (DetailStr "Provided assets archive is not a valid ZIP file.")) /\
  trace final.2 = trace Sample.world0 ++ [EvMkdtemp Sample.work_dir; EvRmtree Sample.work_dir].
Proof.
  intros w1 final.
  assert (create_work_dir Sample.host Sample.world0 = (Ok Sample.work_dir, w1)) as Hdir
    by reflexivity.
  assert ("main.tex" <> "..") as Hmain by discriminate.
  do 5 (split; [first [exact sample_tree_wf | reflexivity]|]).
  exact (compile_latex_rejects_invalid_zip Sample.settings Sample.host Sample.tex_upload
           (Sample.archive_upload "garbage") "a" "ssets.zip" "main.tex" Sample.world0
           Sample.work_dir w1 sample_tree_wf eq_refl Hdir eq_refl eq_refl Hmain eq_refl
           eq_refl).
Defined.

Lemma compile_latex_rejects_unsafe_archive_witness :
  let m := mkZipInfo "../../etc/passwd" (Sample.text "root") in
  let ms := [mkZipInfo "refs.bib" (Sample.text "@book"); m] in
  let w1 := mkWorld (<[Sample.work_dir := Dir]> Sample.tree0)
              [EvMkdtemp Sample.work_dir] in
  let final := compile_latex Sample.settings Sample.host Sample.tex_upload
                 (Some (Sample.archive_upload "traversal")) Sample.world0 in
  wf_tree (fs Sample.world0) /\
  ensure_tex_extension (filename Sample.tex_upload) = Ok tt /\
  create_work_dir Sample.host Sample.world0 = (Ok Sample.work_dir, w1) /\
  PurePath.parse_parts (latex_main_filename Sample.settings) = ["main.tex"] /\
  zip_directory Sample.host (body (Sample.archive_upload "traversal")) = Some ms /\
  m ∈ ms /\
  passes_check Sample.work_dir m = false /\
  final.1 = Raise (HTTPException 400 (DetailStr "Archive contains unsafe paths.")) /\
  trace final.2 = trace Sample.world0 ++ [EvMkdtemp Sample.work_dir; EvRmtree Sample.work_dir].
Proof.
  intros m ms w1 final.
  assert (create_work_dir Sample.host Sample.world0 = (Ok Sample.work_dir, w1)) as Hdir
    by reflexivity.
  assert ("main.tex" <> "..") as Hmain by discriminate.
  assert (m ∈ ms) as Hm by (apply list_elem_of_further, list_elem_of_here).
  do 7 (split; [first [exact sample_tree_wf | exact Hm | reflexivity]|]).
  destruct (compile_latex_rejects_unsafe_archive Sample.settings Sample.host
              Sample.tex_upload (Sample.archive_upload "traversal") "a" "ssets.zip"
              "main.tex" ms m Sample.world0 Sample.work_dir w1 sample_tree_wf eq_refl Hdir
              eq_refl eq_refl Hmain eq_refl eq_refl eq_refl Hm eq_refl) as [E Htrace].
  split; [|exact Htrace]. exact (f_equal fst E).
Defined.

Lemma compile_latex_unreadable_zip_witness :
  let host := mkHost ∅ ["tmp"] (fun _ => "k3v9x2ab") (fun _ => true) (fun _ => None)
                (fun _ => no_faults) Sample.engine_ok (fun _ _ => false) in
  let w1 := mkWorld (<[Sample.work_dir := Dir]> Sample.tree0)
              [EvMkdtemp Sample.work_dir] in
  let final := compile_latex Sample.settings host Sample.tex_upload
                 (Some (Sample.archive_upload "torn")) Sample.world0 in
  wf_tree (fs Sample.world0) /\
  ensure_tex_extension (filename Sample.tex_upload) = Ok tt /\
  create_work_dir host Sample.world0 = (Ok Sample.work_dir, w1) /\
  PurePath.parse_parts (latex_main_filename Sample.settings) = ["main.tex"] /\
  zip_end_record host (body (Sample.archive_upload "torn")) = true /\
  zip_directory host (body (Sample.archive_upload "torn")) = None /\
  final.1 = Raise (HTTPException 500 (DetailStr "Unexpected error during compilation.")) /\
  trace final.2 = trace Sample.world0 ++ [EvMkdtemp Sample.work_dir; EvRmtree Sample.work_dir].
Proof.
  intros host w1 final.
  assert (create_work_dir host Sample.world0 = (Ok Sample.work_dir, w1)) as Hdir
    by reflexivity.
  assert ("main.tex" <> "..") as Hmain by discriminate.
  do 6 (split; [first [exact sample_tree_wf | reflexivity]|]).
  exact (compile_latex_unreadable_zip Sample.settings host Sample.tex_upload
           (Sample.archive_upload "torn") "a" "ssets.zip" "main.tex" Sample.world0
           Sample.work_dir w1 sample_tree_wf eq_refl Hdir eq_refl eq_refl Hmain eq_refl
           eq_refl eq_refl).
Defined.

Lemma compile_latex_returns_pdf_witness :
  let w1 := mkWorld (<[Sample.work_dir := Dir]> Sample.tree0)
              [EvMkdtemp Sample.work_dir] in
  let w2 := mkWorld (<[Sample.work_dir ++ ["main.tex"] := File (Sample.text "uploaded")]>
                       (fs w1)) (trace w1) in
  let t3 := <[Sample.work_dir ++ ["main.pdf"] := File (Sample.text "%PDF")]> (fs w2) in
  let tex_path := PurePath.joinpath Sample.work_dir (latex_main_filename Sample.settings) in
  ensure_tex_extension (filename Sample.tex_upload) = Ok tt /\
  create_work_dir Sample.host Sample.world0 = (Ok Sample.work_dir, w1) /\
  stage_inputs Sample.host Sample.tex_upload None Sample.work_dir tex_path w1 = (Ok tt, w2) /\
  engine_outcome Sample.host Sample.work_dir (PurePath.name tex_path) Sample.settings (fs w2)
    = (Completed (mkCompleted 0 [] []), t3) /\
  PurePath.with_suffix tex_path ".pdf" = Ok (Sample.work_dir ++ ["main.pdf"]) /\
  OS.stat t3 (PurePath.resolve (Sample.work_dir ++ ["main.pdf"]))
    = Some (File (Sample.text "%PDF")) /\
  (compile_latex Sample.settings Sample.host Sample.tex_upload None Sample.world0).1 =
    Ok (mkResponse (Sample.text "%PDF") "application/pdf"
          [("Content-Disposition", "attachment; filename=" +:+ dquote +:+ "main.pdf" +:+ dquote)]).
Proof.
  intros w1 w2 t3 tex_path.
  assert (create_work_dir Sample.host Sample.world0 = (Ok Sample.work_dir, w1)) as H2
    by reflexivity.
  assert (stage_inputs Sample.host Sample.tex_upload None Sample.work_dir tex_path w1
          = (Ok tt, w2)) as H3 by reflexivity.
  assert (engine_outcome Sample.host Sample.work_dir (PurePath.name tex_path)
            Sample.settings (fs w2) = (Completed (mkCompleted 0 [] []), t3)) as H4
    by reflexivity.
  assert (PurePath.with_suffix tex_path ".pdf" = Ok (Sample.work_dir ++ ["main.pdf"]))
    as H5 by reflexivity.
  assert (OS.stat t3 (PurePath.resolve (Sample.work_dir ++ ["main.pdf"]))
          = Some (File (Sample.text "%PDF"))) as H6 by reflexivity.
  do 6 (split; [first [assumption | reflexivity]|]).
  exact (compile_latex_returns_pdf Sample.settings Sample.host Sample.tex_upload None
           Sample.world0 Sample.work_dir w1 w2 (mkCompleted 0 [] []) t3
           (Sample.work_dir ++ ["main.pdf"]) (Sample.text "%PDF") eq_refl H2 H3 H4 eq_refl
           H5 H6).
Defined.

Lemma compile_latex_pdf_is_directory_witness :
  let engine (argv : list string) (cwd : Path) (env : gmap string string) (timeout : Z)
        (t : FS) : run_outcome * FS :=
    (Completed (mkCompleted 0 [] []), <[cwd ++ ["main.pdf"] := Dir]> t) in
  let host := Sample.host_with engine in
  let w1 := mkWorld (<[Sample.work_dir := Dir]> Sample.tree0)
              [EvMkdtemp Sample.work_dir] in
  let w2 := mkWorld (<[Sample.work_dir ++ ["main.tex"] := File (Sample.text "uploaded")]>
                       (fs w1)) (trace w1) in
  let t3 := <[Sample.work_dir ++ ["main.pdf"] := Dir]> (fs w2) in
  let tex_path := PurePath.joinpath Sample.work_dir (latex_main_filename Sample.settings) in
  ensure_tex_extension (filename Sample.tex_upload) = Ok tt /\
  create_work_dir host Sample.world0 = (Ok Sample.work_dir, w1) /\
  stage_inputs host Sample.tex_upload None Sample.work_dir tex_path w1 = (Ok tt, w2) /\
  engine_outcome host Sample.work_dir (PurePath.name tex_path) Sample.settings (fs w2)
    = (Completed (mkCompleted 0 [] []), t3) /\
  PurePath.with_suffix tex_path ".pdf" = Ok (Sample.work_dir ++ ["main.pdf"]) /\
  OS.stat t3 (PurePath.resolve (Sample.work_dir ++ ["main.pdf"])) = Some Dir /\
  (compile_latex Sample.settings host Sample.tex_upload None Sample.world0).1 =
    Raise (HTTPException 500 (DetailStr "Unexpected error during compilation.")).
Proof.
  intros engine host w1 w2 t3 tex_path.
  assert (create_work_dir host Sample.world0 = (Ok Sample.work_dir, w1)) as H2
    by reflexivity.
  assert (stage_inputs host Sample.tex_upload None Sample.work_dir tex_path w1
          = (Ok tt, w2)) as H3 by reflexivity.
  assert (engine_outcome host Sample.work_dir (PurePath.name tex_path)
            Sample.settings (fs w2) = (Completed (mkCompleted 0 [] []), t3)) as H4
    by reflexivity.
  assert (PurePath.with_suffix tex_path ".pdf" = Ok (Sample.work_dir ++ ["main.pdf"]))
    as H5 by reflexivity.
  assert (OS.stat t3 (PurePath.resolve (Sample.work_dir ++ ["main.pdf"])) = Some Dir)
    as H6 by reflexivity.
  do 6 (split; [first [assumption | reflexivity]|]).
  exact (compile_latex_pdf_is_directory Sample.settings host Sample.tex_upload None
           Sample.world0 Sample.work_dir w1 w2 (mkCompleted 0 [] []) t3
           (Sample.work_dir ++ ["main.pdf"]) eq_refl H2 H3 H4 eq_refl H5 H6).
Defined.

Lemma compile_latex_reports_engine_failure_witness :
  let host := Sample.host_with Sample.engine_failing in
  let w1 := mkWorld (<[Sample.work_dir := Dir]> Sample.tree0)
              [EvMkdtemp Sample.work_dir] in
  let w2 := mkWorld (<[Sample.work_dir ++ ["main.tex"] := File (Sample.text "uploaded")]>
                       (fs w1)) (trace w1) in
  let tex_path := PurePath.joinpath Sample.work_dir (latex_main_filename Sample.settings) in
  ensure_tex_extension (filename Sample.tex_upload) = Ok tt /\
  create_work_dir host Sample.world0 = (Ok Sample.work_dir, w1) /\
  stage_inputs host Sample.tex_upload None Sample.work_dir tex_path w1 = (Ok tt, w2) /\
  (compile_latex Sample.settings host Sample.tex_upload None Sample.world0).1 =
    Raise (HTTPException 400
             (DetailDict [ ("message", UStr.of_string "LaTeX compilation failed.");
                           ("stdout", UStr.of_string "! Undefined control sequence.");
                           ("stderr", UStr.of_string "error: halted") ])).
Proof.
  intros host w1 w2 tex_path.
  assert (create_work_dir host Sample.world0 = (Ok Sample.work_dir, w1)) as H2
    by reflexivity.
  assert (stage_inputs host Sample.tex_upload None Sample.work_dir tex_path w1
          = (Ok tt, w2)) as H3 by reflexivity.
  assert (1 <> 0)%Z as Hc by lia.
  do 3 (split; [first [assumption | reflexivity]|]).
  exact (proj1 (compile_latex_reports_engine_failure Sample.settings host
                  Sample.tex_upload None Sample.world0 Sample.work_dir w1 w2 eq_refl H2 H3)
           (mkCompleted 1 Sample.failing_stdout Sample.failing_stderr) eq_refl Hc).
Defined.

Lemma compile_latex_without_work_dir_witness :
  let w := mkWorld ∅ [] in
  ensure_tex_extension (filename Sample.tex_upload) = Ok tt /\
  create_work_dir Sample.host w = (Raise (PyError "FileNotFoundError"), w) /\
  compile_latex Sample.settings Sample.host Sample.tex_upload None w =
    (Raise (PyError "FileNotFoundError"), w).
Proof.
  intros w.
  assert (create_work_dir Sample.host w = (Raise (PyError "FileNotFoundError"), w)) as Hdir
    by reflexivity.
  do 2 (split; [first [assumption | reflexivity]|]).
  exact (proj1 (compile_latex_without_work_dir Sample.settings Sample.host
                  Sample.tex_upload None w _ w eq_refl Hdir)).
Defined.


Lemma sample_engine_stays_inside (t : FS) (q : Path) :
  (engine_outcome Sample.host Sample.work_dir "main.tex" Sample.settings t).2 !! q = t !! q \/
  PurePath.strictly_within (PurePath.resolve Sample.work_dir) q.
Proof.
  destruct (decide (q = Sample.work_dir ++ ["main.pdf"])) as [->|NE].
  - right. by exists ["main.pdf"].
  - left. unfold engine_outcome. simpl. by rewrite lookup_insert_ne.
Qed.

Lemma compile_latex_restores_tree_witness :
  let w1 := mkWorld (<[Sample.work_dir := Dir]> Sample.tree0)
              [EvMkdtemp Sample.work_dir] in
  wf_tree (fs Sample.world0) /\
  ensure_tex_extension (filename Sample.tex_upload) = Ok tt /\
  create_work_dir Sample.host Sample.world0 = (Ok Sample.work_dir, w1) /\
  PurePath.parse_parts (latex_main_filename Sample.settings) = ["main.tex"] /\
  (forall t : FS, rmtree_fault Sample.host t (PurePath.resolve Sample.work_dir) = false) /\
  fs (compile_latex Sample.settings Sample.host Sample.tex_upload
        (Some (Sample.archive_upload "figures")) Sample.world0).2 = fs Sample.world0.
Proof.
  intros w1.
  assert (create_work_dir Sample.host Sample.world0 = (Ok Sample.work_dir, w1)) as Hdir
    by reflexivity.
  assert ("main.tex" <> "..") as Hmain by discriminate.
  assert (forall t : FS, rmtree_fault Sample.host t (PurePath.resolve Sample.work_dir) = false)
    as Hfault by reflexivity.
  do 5 (split; [first [exact sample_tree_wf | exact Hfault | reflexivity]|]).
  exact (compile_latex_restores_tree Sample.settings Sample.host Sample.tex_upload
           (Some (Sample.archive_upload "figures")) "main.tex" Sample.world0
           Sample.work_dir w1 sample_tree_wf eq_refl Hdir eq_refl eq_refl Hmain
           sample_engine_stays_inside Hfault).
Defined.


Lemma passes_check_exactly_witness :
  Forall plain_part Sample.work_dir /\
  PurePath.resolve Sample.work_dir = ["tmp"] ++ ["latexwork_k3v9x2ab"] /\
  (passes_check Sample.work_dir Sample.sibling_entry = true <->
   exists (k : string) (rest : Path),
     PurePath.resolve (PurePath.joinpath Sample.work_dir (zi_filename Sample.sibling_entry))
       = ["tmp"] ++ ["latexwork_k3v9x2ab" +:+ k] ++ rest).
Proof.
  assert (Forall plain_part Sample.work_dir) as H1.
  { constructor; [|constructor; [|constructor]];
      (split; [discriminate | apply (bool_decide_unpack _); vm_compute; exact I]). }
  assert (PurePath.resolve Sample.work_dir = ["tmp"] ++ ["latexwork_k3v9x2ab"]) as H2
    by reflexivity.
  split; [exact H1|]. split; [exact H2|].
  exact (passes_check_exactly Sample.work_dir Sample.sibling_entry ["tmp"]
           "latexwork_k3v9x2ab" H1 H2).
Defined.
